(** * Pyccel: operator type inference and the C wrapper generator

    A shallow embedding of [pyccel/ast/operators.py] (precedence handling,
    numeric promotion, shape broadcasting, the ternary operator and the
    literal folding of [PyccelAdd] / [PyccelMinus]), of the operation count
    of such expressions in [pyccel/complexity/arithmetic.py], and of the
    wrapper generating parts of [pyccel/codegen/printing/cwrappercode.py]. *)

From Stdlib Require Import ZArith List String Bool Lia PeanoNat.
From Stdlib Require Import Sorting.Sorted Sorting.Permutation.
From Stdlib Require Import Floats DecimalString.
Import ListNotations.

Set Implicit Arguments.

(* ------------------------------------------------------------------ *)
(** ** Python exceptions as an error monad *)

Inductive exn : Type :=
| TypeError (msg : string)
| ValueError (msg : string)
| IndexError
| AttributeError (attr : string)
| AssertionError
| PyccelSemanticError (msg : string)
| FatalError (msg : string)
| KeyError
| NotImplementedError (msg : string).

Inductive result (A : Type) : Type :=
| Ok (a : A)
| Raise (e : exn).

Arguments Ok {A} a.
Arguments Raise {A} e.

Definition bind {A B : Type} (m : result A) (f : A -> result B) : result B :=
  match m with
  | Ok a => f a
  | Raise e => Raise e
  end.

Declare Scope py_scope.
Delimit Scope py_scope with py.
Notation "x <- m ;; k" := (bind m (fun x => k))
  (at level 61, m at next level, right associativity) : py_scope.
Notation "m ;;; k" := (bind m (fun _ => k))
  (at level 61, right associativity) : py_scope.
Open Scope py_scope.

(** [[f(i, x) for i, x in enumerate(l, start)]], stopping at the first raise. *)
Fixpoint mapMi {A B : Type} (f : nat -> A -> result B) (start : nat) (l : list A)
  : result (list B) :=
  match l with
  | [] => Ok []
  | x :: l' => y <- f start x ;; ys <- mapMi f (S start) l' ;; Ok (y :: ys)
  end.

(** [[f(x) for x in l]], stopping at the first raise. *)
Definition mapM {A B : Type} (f : A -> result B) (l : list A) : result (list B) :=
  mapMi (fun _ => f) 0 l.

(** [l[i]] *)
Definition nth_arg {A : Type} (l : list A) (i : nat) : result A :=
  match nth_error l i with
  | Some a => Ok a
  | None => Raise IndexError
  end.

(** [l[-1]] *)
Definition last_arg {A : Type} (l : list A) : result A :=
  nth_arg l (List.length l - 1).

Definition is_ok {A : Type} (m : result A) : bool :=
  match m with Ok _ => true | Raise _ => false end.

Definition is_fatal {A : Type} (m : result A) : bool :=
  match m with Raise (FatalError _) => true | _ => false end.

(** A computation whose only failure is a missing [dtype] attribute. *)
Definition only_attribute_error {A : Type} (m : result A) : Prop :=
  (exists x, m = Ok x) \/ m = Raise (AttributeError "dtype").

(* ------------------------------------------------------------------ *)
(** ** Datatypes ([pyccel/ast/datatypes.py], used through its names) *)

Inductive datatype : Type :=
| NativeBool | NativeInteger | NativeReal | NativeComplex
| NativeString | NativeGeneric.

Definition datatype_eqb (a b : datatype) : bool :=
  match a, b with
  | NativeBool, NativeBool | NativeInteger, NativeInteger
  | NativeReal, NativeReal | NativeComplex, NativeComplex
  | NativeString, NativeString | NativeGeneric, NativeGeneric => true
  | _, _ => false
  end.

(** The tuple [NativeNumeric], in promotion order bool < integer < real < complex. *)
Definition NativeNumeric : list datatype :=
  [NativeBool; NativeInteger; NativeReal; NativeComplex].

Definition dtype_in (d : datatype) (l : list datatype) : bool :=
  existsb (datatype_eqb d) l.

(** [NativeNumeric.index(d)] for a member of the tuple. *)
Definition NativeNumeric_index (d : datatype) : nat :=
  match d with
  | NativeBool => 0 | NativeInteger => 1 | NativeReal => 2 | NativeComplex => 3
  | _ => 4
  end.

Inductive ordering : Type := order_C | order_F.

Definition ordering_eqb (a b : ordering) : bool :=
  match a, b with
  | order_C, order_C | order_F, order_F => true
  | _, _ => false
  end.

Definition option_eqb {A : Type} (eqb : A -> A -> bool) (a b : option A) : bool :=
  match a, b with
  | Some x, Some y => eqb x y
  | None, None => true
  | _, _ => false
  end.

Fixpoint list_eqb {A : Type} (eqb : A -> A -> bool) (l1 l2 : list A) : bool :=
  match l1, l2 with
  | [], [] => true
  | x :: l1', y :: l2' => eqb x y && list_eqb eqb l1' l2'
  | _, _ => false
  end.

(** Python's [max] over precisions: values are ints, or [None] for a
    string result; [max] tests [item > current], and ordering [None]
    against anything raises. *)
Fixpoint py_max_from (m : option Z) (l : list (option Z)) : result (option Z) :=
  match l with
  | [] => Ok m
  | x :: l' =>
      match m, x with
      | Some mz, Some xz => py_max_from (Some (if (xz >? mz)%Z then xz else mz)) l'
      | Some _, None =>
          Raise (TypeError
                   "'>' not supported between instances of 'NoneType' and 'int'")
      | None, Some _ =>
          Raise (TypeError
                   "'>' not supported between instances of 'int' and 'NoneType'")
      | None, None =>
          Raise (TypeError
                   "'>' not supported between instances of 'NoneType' and 'NoneType'")
      end
  end.

Definition py_max (l : list (option Z)) : result (option Z) :=
  match l with
  | [] => Raise (ValueError "max() arg is an empty sequence")
  | x :: l' => py_max_from x l'
  end.

Fixpoint nat_min_from (m : nat) (l : list nat) : nat :=
  match l with
  | [] => m
  | x :: l' => nat_min_from (if x <? m then x else m) l'
  end.

Definition py_min (l : list nat) : result nat :=
  match l with
  | [] => Raise (ValueError "min() arg is an empty sequence")
  | x :: l' => Ok (nat_min_from x l')
  end.

Fixpoint nat_max_from (m : nat) (l : list nat) : nat :=
  match l with
  | [] => m
  | x :: l' => nat_max_from (if m <? x then x else m) l'
  end.

(** Python's [sep.join(parts)]. *)
Fixpoint join (sep : string) (parts : list string) : string :=
  match parts with
  | [] => EmptyString
  | [x] => x
  | x :: rest => (x ++ sep ++ join sep rest)%string
  end.

(** Python's [float(n)] for an int [n]: the double nearest to [n], ties to
    even.  Python raises an [OverflowError] where no finite double is
    nearest; the value here is then an infinity. *)
Definition python_float (n : Z) : float :=
  SF2Prim (binary_normalize prec emax n 0 false).

(* ------------------------------------------------------------------ *)
(** ** The symbolic oracle behind [broadcast]

    [pyccel_to_sympy] and sympy's [==], [is_constant] live outside the
    sources at hand; the resolver only observes them through these tests. *)

Class SympyOracle (dim : Type) : Type := {
  (** [LiteralInteger(n)] used as an extent *)
  LiteralInteger_dim : Z -> dim;
  (** [pyccel_to_sympy(e1) == pyccel_to_sympy(e2)] *)
  sy_eqb : dim -> dim -> bool;
  (** [pyccel_to_sympy(e) == n] for a Python int [n] *)
  sy_eq_int : dim -> Z -> bool;
  (** [pyccel_to_sympy(e).is_constant()] *)
  sy_is_constant : dim -> bool;
  (** [(pyccel_to_sympy(e1) - pyccel_to_sympy(e2)).is_constant()] *)
  sy_sub_is_constant : dim -> dim -> bool;
  (** Python [==] on two extents, as used when two shapes are compared *)
  dim_eqb : dim -> dim -> bool;
  (** [repr(e)] of an extent, as [str] of a shape prints it *)
  dim_repr : dim -> string
}.

Module Operators.

Section Broadcast.

Context {dim : Type} {oracle : SympyOracle dim}.

(** [str(shape)] for a shape, a tuple of extents: [()], [(e,)] or
    [(e1, e2, ...)]. *)
Definition str_shape (shape : list dim) : string :=
  match shape with
  | [e] => "(" ++ dim_repr e ++ ",)"
  | _ => "(" ++ join ", " (map dim_repr shape) ++ ")"
  end.

(** [msg.format(shape_1, shape_2)] for the message
    ['operands could not be broadcast together with shapes {} {}']. *)
Definition broadcast_msg (shape_1 shape_2 : list dim) : string :=
  "operands could not be broadcast together with shapes "
  ++ str_shape shape_1 ++ " " ++ str_shape shape_2.

(** The body of the [for e1,e2 in zip(...)] loop: the extent appended to
    [new_shape], or [None] where the loop raises. *)
Definition broadcast_dim (e1 e2 : dim) : option dim :=
  if sy_eqb e1 e2 then Some e1
  else if sy_eq_int e1 1 then Some e2
  else if sy_eq_int e2 1 then Some e1
  else if sy_is_constant e1 && negb (sy_is_constant e2) then Some e1
  else if sy_is_constant e2 && negb (sy_is_constant e1) then Some e2
  else if negb (sy_is_constant e2) && negb (sy_is_constant e1)
          && negb (sy_sub_is_constant e1 e2) then Some e1
  else None.

(** The loop of [broadcast(shape_1, shape_2)] over the aligned extents. *)
Fixpoint broadcast_loop (shape_1 shape_2 : list dim) (pairs : list (dim * dim))
  (new_shape : list dim) : result (list dim) :=
  match pairs with
  | [] => Ok new_shape
  | (e1, e2) :: rest =>
      match broadcast_dim e1 e2 with
      | Some e => broadcast_loop shape_1 shape_2 rest (new_shape ++ [e])
      | None => Raise (PyccelSemanticError (broadcast_msg shape_1 shape_2))
      end
  end.

(** [zip(new_shape_1, new_shape_2)]: the shorter shape is padded on the
    left with [LiteralInteger(1)]. *)
Definition aligned (shape_1 shape_2 : list dim) : list (dim * dim) :=
  let a := List.length shape_1 in
  let b := List.length shape_2 in
  let '(new_shape_1, new_shape_2) :=
    if b <? a then (shape_1, repeat (LiteralInteger_dim 1) (a - b) ++ shape_2)
    else if a <? b then (repeat (LiteralInteger_dim 1) (b - a) ++ shape_1, shape_2)
    else (shape_1, shape_2) in
  combine new_shape_1 new_shape_2.

Definition broadcast (shape_1 shape_2 : list dim) : result (list dim) :=
  broadcast_loop shape_1 shape_2 (aligned shape_1 shape_2) [].

End Broadcast.

(* ---------------------------------------------------------------- *)
(** *** Nodes *)

(** [PyccelAstNode.stage]: the syntactic stage builds untyped nodes, any
    later stage runs the type inference in [__init__]. *)
Inductive stage : Type := syntactic | semantic.

(** The operator classes (the leaves of the class hierarchy). *)
Inductive op_kind : Type :=
| PyccelUnary | PyccelUnarySub | PyccelNot | PyccelAssociativeParenthesis
| PyccelPow | PyccelAdd | PyccelMul | PyccelMinus | PyccelDiv | PyccelMod
| PyccelFloorDiv
| PyccelEq | PyccelNe | PyccelLt | PyccelLe | PyccelGt | PyccelGe
| PyccelAnd | PyccelOr | PyccelIs | PyccelIsNot
| IfTernaryOperator.

Definition op_kind_eqb (a b : op_kind) : bool :=
  match a, b with
  | PyccelUnary, PyccelUnary | PyccelUnarySub, PyccelUnarySub
  | PyccelNot, PyccelNot
  | PyccelAssociativeParenthesis, PyccelAssociativeParenthesis
  | PyccelPow, PyccelPow | PyccelAdd, PyccelAdd | PyccelMul, PyccelMul
  | PyccelMinus, PyccelMinus | PyccelDiv, PyccelDiv | PyccelMod, PyccelMod
  | PyccelFloorDiv, PyccelFloorDiv
  | PyccelEq, PyccelEq | PyccelNe, PyccelNe | PyccelLt, PyccelLt
  | PyccelLe, PyccelLe | PyccelGt, PyccelGt | PyccelGe, PyccelGe
  | PyccelAnd, PyccelAnd | PyccelOr, PyccelOr | PyccelIs, PyccelIs
  | PyccelIsNot, PyccelIsNot | IfTernaryOperator, IfTernaryOperator => true
  | _, _ => false
  end.

(** The class attribute [_precedence]. *)
Definition _precedence (k : op_kind) : nat :=
  match k with
  | PyccelAssociativeParenthesis => 18
  | PyccelPow => 15
  | PyccelUnary | PyccelUnarySub => 14
  | PyccelMul | PyccelDiv | PyccelMod | PyccelFloorDiv => 13
  | PyccelAdd | PyccelMinus => 12
  | PyccelEq | PyccelNe | PyccelLt | PyccelLe | PyccelGt | PyccelGe => 7
  | PyccelIs | PyccelIsNot => 7
  | PyccelNot => 6
  | PyccelAnd => 5
  | PyccelOr => 4
  | IfTernaryOperator => 3
  end.

(** Subclasses of [PyccelArithmeticOperator]. *)
Definition is_arithmetic (k : op_kind) : bool :=
  match k with
  | PyccelPow | PyccelAdd | PyccelMul | PyccelMinus | PyccelDiv | PyccelMod
  | PyccelFloorDiv => true
  | _ => false
  end.

(** Subclasses of [PyccelComparisonOperator]. *)
Definition is_comparison (k : op_kind) : bool :=
  match k with
  | PyccelEq | PyccelNe | PyccelLt | PyccelLe | PyccelGt | PyccelGe => true
  | _ => false
  end.

(** Subclasses of [PyccelBooleanOperator]. *)
Definition is_boolean (k : op_kind) : bool :=
  match k with
  | PyccelAnd | PyccelOr | PyccelIs | PyccelIsNot => true
  | _ => false
  end.

(** What is not an operator: variables, literals, [Nil], and (for the
    [isinstance(_, NativeString)] test of the ternary operator) a datatype
    object.  The literal classes come from [pyccel/ast/literals.py]; a
    literal is kept as its class and python value(s), a complex literal as
    the two floats of its real and imaginary [LiteralFloat] parts. *)
Inductive leaf_class : Type :=
| PyVariable (name : string)
| LiteralInteger (python_value : Z)
| LiteralFloat (python_value : float)
| LiteralComplex (real imag : float)
| LiteralString (python_value : string)
| Nil
| DataTypeObject (d : datatype).

Section Inference.

Context {dim : Type} {oracle : SympyOracle dim}.

(** [default_precision] of [pyccel/ast/datatypes.py]. *)
Variable default_precision : string -> Z.

(** The attributes a typed node carries.  [rank] and [shape] are [None]
    for lambda functions; an extent may be unknown ([None]) on its own. *)
Record attrs : Type := mk_attrs {
  dtype : datatype;
  precision : option Z;
  rank : option nat;
  shape : option (list (option dim));
  order : option ordering
}.

#[warnings="-register-all"]
Inductive node : Type :=
| Leaf (cls : leaf_class) (a : option attrs)
| Op (k : op_kind) (args : list node) (a : option attrs).

Definition node_attrs (n : node) : option attrs :=
  match n with
  | Leaf _ a => a
  | Op _ _ a => a
  end.

(** Attribute access [n.name]; an object without the attribute raises. *)
Definition getattr {A : Type} (name : string) (f : attrs -> A) (n : node)
  : result A :=
  match node_attrs n with
  | Some a => Ok (f a)
  | None => Raise (AttributeError name)
  end.

(** [getattr(a, 'precedence', 17)] *)
Definition precedence (n : node) : nat :=
  match n with
  | Op k _ _ => _precedence k
  | Leaf _ _ => 17
  end.

(** [isinstance(a, cls)] for an operator class; [PyccelUnarySub] derives
    from [PyccelUnary], [PyccelIsNot] from [PyccelIs]. *)
Definition isinstance (n : node) (cls : op_kind) : bool :=
  match n with
  | Op k _ _ =>
      op_kind_eqb k cls
      || match k, cls with
         | PyccelUnarySub, PyccelUnary => true
         | PyccelIsNot, PyccelIs => true
         | _, _ => false
         end
  | Leaf _ _ => false
  end.

Definition isinstance_Nil (n : node) : bool :=
  match n with Leaf Nil _ => true | _ => false end.

Definition isinstance_NativeString (n : node) : bool :=
  match n with Leaf (DataTypeObject NativeString) _ => true | _ => false end.

Definition nonempty {A : Type} (l : list A) : bool :=
  match l with [] => false | _ => true end.

(** [[a for a in _args if test(a.dtype)]], given the dtypes already read. *)
Definition select (test : datatype -> bool) (tagged : list (node * datatype))
  : list node :=
  map fst (filter (fun nd => test (snd nd)) tagged).

(* -- PyccelUnaryOperator ------------------------------------------- *)

Definition PyccelUnaryOperator__calculate_dtype (args : list node)
  : result (datatype * option Z) :=
  match args with
  | a :: _ =>
      d <- getattr "dtype" dtype a ;;
      p <- getattr "precision" precision a ;;
      Ok (d, p)
  | [] => Raise IndexError
  end.

Definition PyccelUnaryOperator__calculate_shape_rank (args : list node)
  : result (option (list (option dim)) * option nat) :=
  match args with
  | a :: _ =>
      r <- getattr "rank" rank a ;;
      s <- getattr "shape" shape a ;;
      Ok (s, r)
  | [] => Raise IndexError
  end.

(* -- PyccelBinaryOperator ------------------------------------------ *)

Definition _handle_str_type (cls : op_kind) (strs : list node)
  : result (datatype * option Z) :=
  match cls with
  | PyccelAdd => Ok (NativeString, None)
  | _ => Raise (TypeError "unsupported operand type(s) for /: 'str' and 'str'")
  end.

Definition _handle_complex_type (complexes : list node)
  : result (datatype * option Z) :=
  ps <- mapM (getattr "precision" precision) complexes ;;
  p <- py_max ps ;;
  Ok (NativeComplex, p).

Definition _handle_real_type (reals : list node)
  : result (datatype * option Z) :=
  ps <- mapM (getattr "precision" precision) reals ;;
  p <- py_max ps ;;
  Ok (NativeReal, p).

Definition _handle_integer_type (cls : op_kind) (integers : list node)
  : result (datatype * option Z) :=
  match cls with
  | PyccelDiv => Ok (NativeReal, Some (default_precision "real"))
  | _ =>
      ps <- mapM (getattr "precision" precision) integers ;;
      p <- py_max ps ;;
      Ok (NativeInteger, p)
  end.

Definition PyccelBinaryOperator__calculate_dtype (cls : op_kind)
  (args : list node) : result (datatype * option Z) :=
  dts <- mapM (getattr "dtype" dtype) args ;;
  let tagged := combine args dts in
  let integers := select (fun d => dtype_in d [NativeInteger; NativeBool]) tagged in
  let reals := select (datatype_eqb NativeReal) tagged in
  let complexes := select (datatype_eqb NativeComplex) tagged in
  let strs := select (datatype_eqb NativeString) tagged in
  if nonempty strs then _handle_str_type cls strs
  else if nonempty complexes then _handle_complex_type complexes
  else if nonempty reals then _handle_real_type reals
  else if nonempty integers then _handle_integer_type cls integers
  else Raise (TypeError "cannot determine the type of {}").

Definition is_None {A : Type} (o : option A) : bool :=
  match o with None => true | Some _ => false end.

(** [all(sh is not None for tup in shapes for sh in tup)]: iterating a
    shape that is itself [None] raises. *)
Fixpoint all_extents_known (shapes : list (option (list (option dim))))
  : result bool :=
  match shapes with
  | [] => Ok true
  | None :: _ => Raise (TypeError "'NoneType' object is not iterable")
  | Some tup :: rest =>
      if forallb (fun sh => negb (is_None sh)) tup
      then all_extents_known rest
      else Ok false
  end.

(** The extents of a shape whose entries are all known. *)
Definition known_extents (tup : list (option dim)) : list dim :=
  flat_map (fun sh => match sh with Some d => [d] | None => [] end) tup.

Definition PyccelBinaryOperator__calculate_shape_rank (args : list node)
  : result (option (list (option dim)) * option nat) :=
  dts <- mapM (getattr "dtype" dtype) args ;;
  let tagged := combine args dts in
  let strs := select (datatype_eqb NativeString) tagged in
  if nonempty strs then
    let other := select (fun d => dtype_in d
                   [NativeInteger; NativeBool; NativeReal; NativeComplex]) tagged in
    if Nat.eqb (List.length other) 0 then Ok (Some [], Some 0)
    else Raise AssertionError
  else
    ranks <- mapM (getattr "rank" rank) args ;;
    shapes <- mapM (getattr "shape" shape) args ;;
    if existsb is_None ranks then Ok (None, None)
    else
      known <- all_extents_known shapes ;;
      if known then
        a1 <- nth_arg args 1 ;;
        s1 <- getattr "shape" shape a1 ;;
        match s1 with
        | None => Raise (TypeError "object of type 'NoneType' has no len()")
        | Some tup =>
            sh <- broadcast (known_extents tup) (known_extents tup) ;;
            Ok (Some (map Some sh), Some (List.length sh))
        end
      else
        let _rank := match ranks with
                     | Some r :: rest =>
                         nat_max_from r
                           (flat_map (fun o => match o with Some x => [x] | None => [] end) rest)
                     | _ => 0
                     end in
        Ok (Some (repeat None _rank), Some _rank).

(* -- PyccelNot, comparisons, boolean operators ---------------------- *)

Definition bool_dtype : datatype * option Z :=
  (NativeBool, Some (default_precision "bool")).

Definition scalar_shape_rank : option (list (option dim)) * option nat :=
  (Some [], Some 0).

(* -- IfTernaryOperator ---------------------------------------------- *)

(** Modelled from the spec: [errors.report(msg, severity='fatal')] of
    [pyccel/errors/errors.py], which is not among the sources; a fatal
    report halts the construction. *)
Definition errors_report_fatal {A : Type} (msg : string) : result A :=
  Raise (FatalError msg).

Definition IfTernaryOperator__calculate_dtype (args : list node)
  : result (datatype * option Z) :=
  match args with
  | [cond; value_true; value_false] =>
      dt <- getattr "dtype" dtype value_true ;;
      df <- getattr "dtype" dtype value_false ;;
      let _dtype :=
        if dtype_in dt NativeNumeric && dtype_in df NativeNumeric
        then (if NativeNumeric_index dt <? NativeNumeric_index df then df else dt)
        else dt in
      pt <- getattr "precision" precision value_true ;;
      pf <- getattr "precision" precision value_false ;;
      _precision <- py_max [pt; pf] ;;
      Ok (_dtype, _precision)
  | _ => Raise (TypeError "_calculate_dtype() takes 3 positional arguments")
  end.

Definition rank_gt_1 (r : option nat) : bool :=
  match r with
  | Some n => 1 <? n
  | None => false
  end.

Definition IfTernaryOperator__calculate_shape_rank (args : list node)
  : result (option (list (option dim)) * option nat) :=
  match args with
  | [cond; value_true; value_false] =>
      _shape <- getattr "shape" shape value_true ;;
      _rank <- getattr "rank" rank value_true ;;
      (if rank_gt_1 _rank then
         o_f <- getattr "order" order value_false ;;
         o_t <- getattr "order" order value_true ;;
         if negb (option_eqb ordering_eqb o_f o_t)
         then errors_report_fatal "Ternary Operator results should have the same order"
         else Ok tt
       else Ok tt) ;;;
      Ok (_shape, _rank)
  | _ => Raise (TypeError "_calculate_shape_rank() takes 3 positional arguments")
  end.

(* -- Method resolution ---------------------------------------------- *)

(** [self._calculate_dtype] on [self._args] for an instance of class [k]. *)
Definition _calculate_dtype (k : op_kind) (args : list node)
  : result (datatype * option Z) :=
  match k with
  | PyccelUnary | PyccelUnarySub | PyccelAssociativeParenthesis =>
      PyccelUnaryOperator__calculate_dtype args
  | PyccelNot => Ok bool_dtype
  | PyccelPow | PyccelAdd | PyccelMul | PyccelMinus | PyccelDiv | PyccelMod
  | PyccelFloorDiv =>
      PyccelBinaryOperator__calculate_dtype k args
  | PyccelEq | PyccelNe | PyccelLt | PyccelLe | PyccelGt | PyccelGe =>
      Ok bool_dtype
  | PyccelAnd | PyccelOr | PyccelIs | PyccelIsNot => Ok bool_dtype
  | IfTernaryOperator => IfTernaryOperator__calculate_dtype args
  end.

(** [self._calculate_shape_rank] on [self._args] for an instance of class [k]. *)
Definition _calculate_shape_rank (k : op_kind) (args : list node)
  : result (option (list (option dim)) * option nat) :=
  match k with
  | PyccelUnary | PyccelUnarySub | PyccelAssociativeParenthesis =>
      PyccelUnaryOperator__calculate_shape_rank args
  | PyccelNot => Ok scalar_shape_rank
  | PyccelPow | PyccelAdd | PyccelMul | PyccelMinus | PyccelDiv | PyccelMod
  | PyccelFloorDiv =>
      PyccelBinaryOperator__calculate_shape_rank args
  | PyccelEq | PyccelNe | PyccelLt | PyccelLe | PyccelGt | PyccelGe =>
      PyccelBinaryOperator__calculate_shape_rank args
  | PyccelAnd | PyccelOr | PyccelIs | PyccelIsNot => Ok scalar_shape_rank
  | IfTernaryOperator => IfTernaryOperator__calculate_shape_rank args
  end.

(** [all(a.order == self._args[0].order for a in self._args)] *)
Fixpoint all_order_agree (first : node) (l : list node) : result bool :=
  match l with
  | [] => Ok true
  | a :: l' =>
      oa <- getattr "order" order a ;;
      o0 <- getattr "order" order first ;;
      if option_eqb ordering_eqb oa o0 then all_order_agree first l'
      else Ok false
  end.

Definition _set_order (args : list node) : result (option ordering) :=
  match args with
  | [] => Raise IndexError
  | a0 :: _ =>
      agree <- all_order_agree a0 args ;;
      if agree then getattr "order" order a0 else Ok (Some order_C)
  end.

(** [PyccelOperator.__init__] after [self._args] has been set. *)
Definition typed_node (st : stage) (k : op_kind) (args : list node)
  : result node :=
  match st with
  | syntactic => Ok (Op k args None)
  | semantic =>
      dp <- _calculate_dtype k args ;;
      sr <- _calculate_shape_rank k args ;;
      _order <- (if rank_gt_1 (snd sr) then _set_order args else Ok None) ;;
      Ok (Op k args (Some (mk_attrs (fst dp) (snd dp) (snd sr) (fst sr) _order)))
  end.

(** [PyccelAssociativeParenthesis(a)]; its [_handle_precedence] returns
    the arguments unchanged. *)
Definition new_PyccelAssociativeParenthesis (st : stage) (a : node)
  : result node :=
  typed_node st PyccelAssociativeParenthesis [a].

(* -- _handle_precedence -------------------------------------------- *)

(** The test of the loop in [PyccelOperator._handle_precedence]. *)
Definition needs_parenthesis (self_precedence p i : nat) : bool :=
  (p <? self_precedence) || ((p =? self_precedence) && negb (i =? 0)).

(** The loop over [enumerate(zip(args, precedence))]. *)
Definition precedence_loop (st : stage) (self_precedence : nat)
  (args : list node) : result (list node) :=
  mapMi (fun i a => if needs_parenthesis self_precedence (precedence a) i
                    then new_PyccelAssociativeParenthesis st a
                    else Ok a) 0 args.

Definition PyccelOperator__handle_precedence (st : stage) (k : op_kind)
  (args : list node) : result (list node) :=
  m <- py_min (map precedence args) ;;
  if m <=? _precedence k
  then precedence_loop st (_precedence k) args
  else Ok args.

(** [tuple(PyccelAssociativeParenthesis(a) if isinstance(a, cls) else a
    for a in args)] *)
Definition parenthesise_instances (st : stage) (cls : op_kind)
  (args : list node) : result (list node) :=
  mapM (fun a => if isinstance a cls
                 then new_PyccelAssociativeParenthesis st a
                 else Ok a) args.

(** [self._handle_precedence(args)] for an instance of class [k]. *)
Definition _handle_precedence (st : stage) (k : op_kind) (args : list node)
  : result (list node) :=
  match k with
  | PyccelAssociativeParenthesis => Ok args
  | PyccelUnary | PyccelUnarySub
  | PyccelPow | PyccelAdd | PyccelMul | PyccelMinus | PyccelDiv | PyccelMod
  | PyccelFloorDiv =>
      args' <- PyccelOperator__handle_precedence st k args ;;
      parenthesise_instances st PyccelUnary args'
  | PyccelAnd =>
      args' <- PyccelOperator__handle_precedence st k args ;;
      parenthesise_instances st PyccelOr args'
  | PyccelOr =>
      args' <- PyccelOperator__handle_precedence st k args ;;
      parenthesise_instances st PyccelAnd args'
  | _ => PyccelOperator__handle_precedence st k args
  end.

(** The extra parenthesis test of the overriding [_handle_precedence]
    methods: a unary +/- under an arithmetic or unary +/- operator, an [or]
    under [and], an [and] under [or]. *)
Definition clarity_parenthesis (k : op_kind) (a : node) : bool :=
  match k with
  | PyccelUnary | PyccelUnarySub
  | PyccelPow | PyccelAdd | PyccelMul | PyccelMinus | PyccelDiv | PyccelMod
  | PyccelFloorDiv => isinstance a PyccelUnary
  | PyccelAnd => isinstance a PyccelOr
  | PyccelOr => isinstance a PyccelAnd
  | _ => false
  end.

(** Whether the operand [a] at position [i] of an operator of class [k]
    ends up inside a parenthesis node. *)
Definition wraps (k : op_kind) (i : nat) (a : node) : bool :=
  match k with
  | PyccelAssociativeParenthesis => false
  | _ => needs_parenthesis (_precedence k) (precedence a) i
         || clarity_parenthesis k a
  end.

(** A node with the dtype, precision, rank and shape of [t], and with the
    order of [t] when the rank is above 1: what a parenthesis around a node
    of attributes [t] carries. *)
Definition attrs_like (t : attrs) (n : node) : Prop :=
  exists o,
    node_attrs n = Some (mk_attrs (dtype t) (precision t) (rank t) (shape t) o) /\
    (rank_gt_1 (rank t) = true -> o = order t).

(** The tests of [IfTernaryOperator] that end in a fatal report, on two
    branches of attributes [tt] and [tf]. *)
Definition ternary_rejects (value_true value_false : node) (tt tf : attrs) : bool :=
  (isinstance_Nil value_true || isinstance_Nil value_false)
  || (isinstance_NativeString value_true || isinstance_NativeString value_false)
  || (negb (datatype_eqb (dtype tt) (dtype tf))
      && (negb (dtype_in (dtype tt) NativeNumeric)
          || negb (dtype_in (dtype tf) NativeNumeric)))
  || negb (option_eqb Nat.eqb (rank tf) (rank tt))
  || negb (option_eqb (list_eqb (option_eqb dim_eqb)) (shape tf) (shape tt))
  || (rank_gt_1 (rank tt) && negb (option_eqb ordering_eqb (order tf) (order tt))).

(** A node that carries attributes, of a numeric dtype. *)
Definition numeric_attrs (n : node) (a : attrs) : Prop :=
  node_attrs n = Some a /\ dtype_in (dtype a) NativeNumeric = true.

(** [PyccelOperator.__init__(self, *args)] *)
Definition PyccelOperator__init__ (st : stage) (k : op_kind)
  (args : list node) : result node :=
  _args <- _handle_precedence st k args ;;
  typed_node st k _args.

(** [IfTernaryOperator.__init__(self, cond, value_true, value_false)] *)
Definition IfTernaryOperator__init__ (st : stage)
  (cond value_true value_false : node) : result node :=
  self <- PyccelOperator__init__ st IfTernaryOperator
            [cond; value_true; value_false] ;;
  match st with
  | syntactic => Ok self
  | semantic =>
      (if isinstance_Nil value_true || isinstance_Nil value_false
       then errors_report_fatal "None is not implemented for Ternary Operator"
       else Ok tt) ;;;
      (if isinstance_NativeString value_true || isinstance_NativeString value_false
       then errors_report_fatal "String is not implemented for Ternary Operator"
       else Ok tt) ;;;
      dt <- getattr "dtype" dtype value_true ;;
      df <- getattr "dtype" dtype value_false ;;
      (if negb (datatype_eqb dt df)
       then if negb (dtype_in dt NativeNumeric) || negb (dtype_in df NativeNumeric)
            then errors_report_fatal "The types are incompatible in IfTernaryOperator"
            else Ok tt
       else Ok tt) ;;;
      rf <- getattr "rank" rank value_false ;;
      rt <- getattr "rank" rank value_true ;;
      (if negb (option_eqb Nat.eqb rf rt)
       then errors_report_fatal "Ternary Operator results should have the same rank"
       else Ok tt) ;;;
      sf <- getattr "shape" shape value_false ;;
      st' <- getattr "shape" shape value_true ;;
      (if negb (option_eqb (list_eqb (option_eqb dim_eqb)) sf st')
       then errors_report_fatal "Ternary Operator results should have the same shape"
       else Ok tt) ;;;
      Ok self
  end.

(* -- PyccelAdd.__new__ and PyccelMinus.__new__ --------------------- *)

(** Python's [float(n)] for an int [n]. *)
Variable float_of_int : Z -> float.

(** [isinstance(a, (LiteralInteger, LiteralFloat))] together with the value
    [LiteralComplex] collects from such an argument, as a float. *)
Definition int_or_float_literal (n : node) : option float :=
  match n with
  | Leaf (LiteralInteger v) _ => Some (float_of_int v)
  | Leaf (LiteralFloat v) _ => Some v
  | _ => None
  end.

(** [isinstance(a, LiteralFloat)] together with [a.python_value]. *)
Definition float_literal (n : node) : option float :=
  match n with
  | Leaf (LiteralFloat v) _ => Some v
  | _ => None
  end.

(** [isinstance(a, LiteralComplex)] together with the python values of
    [a.real] and [a.imag]. *)
Definition complex_literal (n : node) : option (float * float) :=
  match n with
  | Leaf (LiteralComplex re im) _ => Some (re, im)
  | _ => None
  end.

(** [part == LiteralFloat(0)] for a [LiteralFloat] part of value [v]. *)
Definition eq_LiteralFloat_0 (v : float) : bool := PrimFloat.eqb v PrimFloat.zero.

(** [LiteralComplex(real, imag)]: a rank 0 complex literal of the default
    complex precision. *)
Definition new_LiteralComplex (re im : float) : node :=
  Leaf (LiteralComplex re im)
       (Some (mk_attrs NativeComplex (Some (default_precision "complex"))
                       (Some 0) (Some []) None)).

(** What [__new__] hands back: a folded literal, or a fresh instance of the
    class on which [__init__] then runs. *)
Inductive new_object : Type :=
| Folded (literal : node)
| Instance.

(** The two guarded branches of [PyccelAdd.__new__]: a literal [x] and a
    complex literal [c] whose real part is [LiteralFloat(0)]. *)
Definition add_fold (x c : node) : option node :=
  match int_or_float_literal x, complex_literal c with
  | Some v, Some (re, im) =>
      if eq_LiteralFloat_0 re then Some (new_LiteralComplex v im) else None
  | _, _ => None
  end.

Definition PyccelAdd__new__ (arg1 arg2 : node) : new_object :=
  match add_fold arg1 arg2 with
  | Some literal => Folded literal
  | None =>
      match add_fold arg2 arg1 with
      | Some literal => Folded literal
      | None => Instance
      end
  end.

(** First branch of [PyccelMinus.__new__]:
    [LiteralComplex(arg1, -arg2.imag.python_value)]. *)
Definition minus_fold_left (arg1 arg2 : node) : option node :=
  match float_literal arg1, complex_literal arg2 with
  | Some v, Some (re, im) =>
      if eq_LiteralFloat_0 re
      then Some (new_LiteralComplex v (PrimFloat.opp im)) else None
  | _, _ => None
  end.

(** Second branch: [LiteralComplex(-arg2.python_value, arg1.imag)]. *)
Definition minus_fold_right (arg1 arg2 : node) : option node :=
  match float_literal arg2, complex_literal arg1 with
  | Some v, Some (re, im) =>
      if eq_LiteralFloat_0 re
      then Some (new_LiteralComplex (PrimFloat.opp v) im) else None
  | _, _ => None
  end.

Definition PyccelMinus__new__ (arg1 arg2 : node) : new_object :=
  match minus_fold_left arg1 arg2 with
  | Some literal => Folded literal
  | None =>
      match minus_fold_right arg1 arg2 with
      | Some literal => Folded literal
      | None => Instance
      end
  end.

(** The call [PyccelAdd(arg1, arg2)]: [__init__] runs only on an instance
    of the class. *)
Definition PyccelAdd_call (st : stage) (arg1 arg2 : node) : result node :=
  match PyccelAdd__new__ arg1 arg2 with
  | Folded literal => Ok literal
  | Instance => PyccelOperator__init__ st PyccelAdd [arg1; arg2]
  end.

(** The call [PyccelMinus(arg1, arg2)]. *)
Definition PyccelMinus_call (st : stage) (arg1 arg2 : node) : result node :=
  match PyccelMinus__new__ arg1 arg2 with
  | Folded literal => Ok literal
  | Instance => PyccelOperator__init__ st PyccelMinus [arg1; arg2]
  end.

End Inference.

(* ---------------------------------------------------------------- *)
(** *** A small oracle: integer literals and symbols

    Extents that are either an integer literal or a named symbol, with
    sympy's answers on such atoms. *)

Inductive extent : Type :=
| ExtInt (n : Z)
| ExtSym (name : string).

Definition extent_eqb (a b : extent) : bool :=
  match a, b with
  | ExtInt n, ExtInt m => Z.eqb n m
  | ExtSym x, ExtSym y => String.eqb x y
  | _, _ => false
  end.

#[export] Instance extent_oracle : SympyOracle extent := {
  LiteralInteger_dim := ExtInt;
  sy_eqb := extent_eqb;
  sy_eq_int := fun e n => extent_eqb e (ExtInt n);
  sy_is_constant := fun e => match e with ExtInt _ => true | ExtSym _ => false end;
  sy_sub_is_constant := fun a b =>
    match a, b with
    | ExtInt _, ExtInt _ => true
    | ExtSym x, ExtSym y => String.eqb x y
    | _, _ => false
    end;
  dim_eqb := extent_eqb;
  dim_repr := fun e => match e with
                       | ExtInt n => DecimalString.NilZero.string_of_int (Z.to_int n)
                       | ExtSym x => x
                       end
}.

(** Byte precisions as in pyccel's [default_precision] table. *)
Definition sample_default_precision (key : string) : Z :=
  if String.eqb key "bool" then 4
  else if String.eqb key "int" then 4
  else 8.

(** A typed variable of the given element type and shape. *)
Definition sample_var (name : string) (d : datatype) (p : Z) (sh : list extent)
  : node (dim := extent) :=
  Leaf (PyVariable name)
       (Some (mk_attrs d (Some p) (Some (List.length sh)) (Some (map Some sh)) None)).

(** A string literal: a rank 0 node of dtype [NativeString]. *)
Definition sample_string (text : string) : node (dim := extent) :=
  Leaf (LiteralString text)
       (Some (mk_attrs NativeString (Some 0%Z) (Some 0) (Some []) None)).

(* ---------------------------------------------------------------- *)
(** *** The promotion rule in the words of the specification

    Operands fall into buckets complex > real > integer-or-bool; the result
    kind is the highest bucket present and its precision the largest
    precision among the operands of that bucket; a division whose operands
    are all in the integer bucket yields a real of the default precision. *)

Definition bucket_of (d : datatype) : nat :=
  match d with
  | NativeComplex => 2
  | NativeReal => 1
  | _ => 0
  end.

Definition bucket_kind (b : nat) : datatype :=
  match b with
  | 0 => NativeInteger
  | 1 => NativeReal
  | _ => NativeComplex
  end.

Definition highest_bucket (operands : list (datatype * Z)) : nat :=
  fold_right Nat.max 0 (map (fun o => bucket_of (fst o)) operands).

Definition largest (l : list Z) : Z :=
  match l with
  | [] => 0%Z
  | x :: l' => fold_left Z.max l' x
  end.

Definition promotion (default_real : Z) (k : op_kind)
  (operands : list (datatype * Z)) : datatype * option Z :=
  let top := highest_bucket operands in
  if op_kind_eqb k PyccelDiv && (top =? 0)
  then (NativeReal, Some default_real)
  else (bucket_kind top,
        Some (largest (map snd (filter (fun o => bucket_of (fst o) =? top) operands)))).

(* ---------------------------------------------------------------- *)
(** *** Notions used to state the properties of the operators *)

Section Notions.

Context {dim : Type} {oracle : SympyOracle dim}.

(** A pair of aligned extents that ends in the [else] branch of the loop
    of [broadcast]: the extents are not found equal, neither is found to be
    1, and either both are constants or neither is and their difference is
    a constant. *)
Definition incompatible (e1 e2 : dim) : bool :=
  negb (sy_eqb e1 e2) && negb (sy_eq_int e1 1) && negb (sy_eq_int e2 1)
  && ((sy_is_constant e1 && sy_is_constant e2)
      || (negb (sy_is_constant e1) && negb (sy_is_constant e2)
          && sy_sub_is_constant e1 e2)).

(** The extent [x] that [broadcast] keeps for an extent [e] set against the
    padding of a scalar: [e] itself, or the literal 1 where the oracle
    finds [e] equal to 1. *)
Definition scalar_extent (e x : dim) : Prop :=
  x = e \/
  (x = LiteralInteger_dim 1 /\
   (sy_eqb (LiteralInteger_dim 1) e = true \/ sy_eq_int e 1 = true)).

(** An operand after the precedence handling: itself, or a parenthesis
    node around it. *)
Definition kept_or_wrapped (a a' : node (dim := dim)) : Prop :=
  a' = a \/ exists t, a' = Op PyccelAssociativeParenthesis [a] t.

End Notions.

(** Membership in [(NativeInteger(), NativeBool(), NativeReal(),
    NativeComplex())], the test of the shape rule on a string operand. *)
Definition numeric_or_bool (d : datatype) : bool :=
  dtype_in d [NativeInteger; NativeBool; NativeReal; NativeComplex].

(** A rank 2 variable one of whose extents is unknown, and a rank 2
    variable with an order. *)
Definition unknown_extent_var : node (dim := extent) :=
  Leaf (PyVariable "u")
       (Some (mk_attrs NativeReal (Some 8%Z) (Some 2) (Some [None; Some (ExtInt 3)]) None)).

Definition matrix_var (name : string) (o : ordering) : node (dim := extent) :=
  Leaf (PyVariable name)
       (Some (mk_attrs NativeReal (Some 8%Z) (Some 2)
                       (Some [Some (ExtInt 2); Some (ExtInt 3)]) (Some o))).

End Operators.

(* ================================================================== *)
(** * Operation counts ([pyccel/complexity/arithmetic.py])

    [count_ops] on the expressions of [pyccel/ast/operators.py].  Its
    result is a sympy sum of the symbols [ADD], [SUB], [MUL], [DIV] and
    [IDIV]; such a sum is kept as the coefficient of every symbol. *)

Module Arithmetic.

Import Operators.

Record cost : Type := mk_cost {
  ADD : nat; SUB : nat; MUL : nat; DIV : nat; IDIV : nat
}.

(** The integer 0 that [sum] starts from. *)
Definition zero : cost := mk_cost 0 0 0 0 0.

Definition plus (x y : cost) : cost :=
  mk_cost (ADD x + ADD y) (SUB x + SUB y) (MUL x + MUL y) (DIV x + DIV y)
          (IDIV x + IDIV y).

(** The symbol [count_ops] adds for an operator of class [k]: the classes
    without a branch of their own fall under [PyccelOperator] and add
    nothing. *)
Definition symbol (k : op_kind) : cost :=
  match k with
  | PyccelAdd => mk_cost 1 0 0 0 0
  | PyccelMinus => mk_cost 0 1 0 0 0
  | PyccelMul => mk_cost 0 0 1 0 0
  | PyccelDiv => mk_cost 0 0 0 1 0
  | PyccelFloorDiv => mk_cost 0 0 0 0 1
  | _ => zero
  end.

Section CountOps.

Context {dim : Type}.

(** [count_ops(expr)] for an operator node or one of its leaves: a literal
    or a variable costs nothing, an operator the sum of the costs of its
    arguments plus its own symbol; [Nil] and a datatype object are none of
    the classes [count_ops] knows. *)
Fixpoint count_ops (expr : node (dim := dim)) : result cost :=
  match expr with
  | Leaf (LiteralInteger _) _ | Leaf (LiteralFloat _) _
  | Leaf (LiteralComplex _ _) _ | Leaf (LiteralString _) _ => Ok zero
  | Leaf (PyVariable _) _ => Ok zero
  | Leaf _ _ => Raise (NotImplementedError "TODO count_ops for {}")
  | Op k args _ =>
      ops <- (fix sum (start : cost) (l : list (node (dim := dim))) {struct l}
                : result cost :=
                match l with
                | [] => Ok start
                | i :: l' => c <- count_ops i ;; sum (plus start c) l'
                end) zero args ;;
      Ok (plus ops (symbol k))
  end.

(** Python's [sum(count_ops(i) for i in args)], from [start]. *)
Fixpoint sum_count_ops (start : cost) (l : list (node (dim := dim))) : result cost :=
  match l with
  | [] => Ok start
  | i :: l' => c <- count_ops i ;; sum_count_ops (plus start c) l'
  end.

End CountOps.

End Arithmetic.

(* ================================================================== *)
(** * The C wrapper printer ([pyccel/codegen/printing/cwrappercode.py])

    The printer builds syntax trees ([FunctionDef], [If], [Assign], ...)
    and hands them to the C printer.  The embedding stops at these trees:
    a [_print_*] method returns the function definitions it would print.
    The [local_vars] of a generated function are its declarations only and
    are left out. *)

Module CWrapper.

Inductive target_language : Type := lang_c | lang_fortran.

(** The dtype of a variable: a native datatype or one of the two Python
    object types of [pyccel/ast/cwrapper.py]. *)
Inductive ctype : Type :=
| Native (d : datatype)
| PyccelPyObject
| PyccelPyArrayObject.

(** [Variable] of [pyccel/ast/variable.py], with the attributes the
    printer reads.  Two variables are equal when their names are. *)
Record Var : Type := mk_Var {
  name : string;
  dtype : ctype;
  precision : Z;
  rank : nat;
  order : option ordering;
  is_pointer : bool;
  is_optional : bool;
  allocatable : bool
}.

(** [Variable(dtype, name)] with every other keyword left at its default. *)
Definition new_Variable (d : ctype) (n : string) : Var :=
  mk_Var n d 0 0 None false false false.

(** [v.clone(v.name, is_pointer=True, allocatable=False)] *)
Definition clone_pointer_static (v : Var) : Var :=
  mk_Var (name v) (dtype v) (precision v) (rank v) (order v) true (is_optional v) false.

(** [v.clone(v.name, is_pointer=True)] *)
Definition clone_pointer (v : Var) : Var :=
  mk_Var (name v) (dtype v) (precision v) (rank v) (order v) true (is_optional v)
         (allocatable v).

Definition Py_None : Var :=
  mk_Var "Py_None" PyccelPyObject 0 0 None true false false.

(** A default value of an argument, as written in the Python source. *)
Inductive default_value : Type :=
| DefaultInteger (z : Z)
| DefaultBool (b : bool)
| DefaultNil
| DefaultSource (text : string).

(** [a.var] of a function argument: a [Variable] or a [FunctionAddress]. *)
Inductive argument_var : Type :=
| VariableArg (v : Var)
| FunctionAddressArg (function_name : string).

Definition argument_var_name (a : argument_var) : string :=
  match a with
  | VariableArg v => name v
  | FunctionAddressArg n => n
  end.

Definition isinstance_FunctionAddress (a : argument_var) : bool :=
  match a with
  | FunctionAddressArg _ => true
  | VariableArg _ => false
  end.

Record FunctionDefArgument : Type := mk_FunctionDefArgument {
  var : argument_var;
  value : option default_value
}.

(** The translated function a wrapper is generated for. *)
Record FunctionDef : Type := mk_FunctionDef {
  func_name : string;
  arguments : list FunctionDefArgument;
  results : list Var;
  is_private : bool
}.

Record Interface : Type := mk_Interface {
  interface_name : string;
  functions : list FunctionDef
}.

Record PyArgKeywords : Type := mk_PyArgKeywords {
  keywords_name : string;
  arg_names : list string
}.

(** Expressions and statements of the generated code, and the function
    definitions built from them.  A [FunctionCall] refers to the called
    definition itself, as the Python node does.  The operator nodes built
    here never receive an operand of lower or equal precedence, so their
    constructors insert no parenthesis of their own.  An [If] holds its
    [IfSection]s as pairs of a condition and a body. *)
#[warnings="-register-all"]
Inductive expr : Type :=
| Variable_ (v : Var)
| FunctionAddress_ (function_name : string)
| VariableAddress (v : Var)
| Nil
| NoneObject
| LiteralTrue
| LiteralInteger (z : Z)
| Default (d : default_value)
| Tuple_ (vs : list Var)
| PyccelNot (e : expr)
| PyccelEq (a b : expr)
| PyccelOr (a b : expr)
| PyccelIsNot (a b : expr)
| PyccelAssociativeParenthesis (e : expr)
| IfTernaryOperator (c a b : expr)
| FunctionCall (f : callee) (args : list expr)
| scalar_object_check (collect_var variable : Var)
| array_type_check (collect_var variable : Var)
| array_checker (collect_var variable : Var) (check_type : bool)
                (language : target_language)
| PyArg_ParseTupleNode (pyarg pykwarg : Var) (c_func_args : list FunctionDefArgument)
                       (parse_args : list Var) (keywords : PyArgKeywords)
| PyBuildValueNode (args : list expr)

(** What a [FunctionCall] calls. *)
with callee : Type :=
| Translated (f : FunctionDef)
| StaticFunction (f : FunctionDef) (module_name : option string)
| Generated (f : GeneratedFunctionDef)
| Python_to_C (v : Var)
| C_to_Python (v : Var)
| numpy_get_dim
| numpy_get_data
| pyarray_to_c_ndarray
| Py_DECREF

with stmt : Type :=
| Keywords (k : PyArgKeywords)
| Assign (lhs rhs : expr)
| AliasAssign (lhs rhs : expr)
| AugAssign (lhs : Var) (op : string) (rhs : Z)
| If (sections : list (expr * list stmt))
| Return (values : list expr)
| ExprStmt (e : expr)
| PyErr_SetString (exception message : string)
| generate_datatype_error (v : Var)
| Deallocate (v : Var)

(** A [FunctionDef] built by the printer. *)
with GeneratedFunctionDef : Type :=
| mk_GeneratedFunctionDef (generated_name : string)
    (generated_arguments generated_results : list Var) (body : list stmt).

Definition generated_name (f : GeneratedFunctionDef) : string :=
  match f with mk_GeneratedFunctionDef n _ _ _ => n end.

Definition generated_arguments (f : GeneratedFunctionDef) : list Var :=
  match f with mk_GeneratedFunctionDef _ a _ _ => a end.

Definition generated_results (f : GeneratedFunctionDef) : list Var :=
  match f with mk_GeneratedFunctionDef _ _ r _ => r end.

Definition body (f : GeneratedFunctionDef) : list stmt :=
  match f with mk_GeneratedFunctionDef _ _ _ b => b end.

(** The attributes of the printer object the methods read and update. *)
Record printer : Type := mk_printer {
  _target_language : target_language;
  _to_free_PyObject_list : list Var;
  _function_wrapper_names : list (string * string);
  _global_names : list string;
  _module_name : option string
}.

Definition set_to_free (l : list Var) (self : printer) : printer :=
  mk_printer (_target_language self) l (_function_wrapper_names self)
             (_global_names self) (_module_name self).

Definition add_global_name (n : string) (self : printer) : printer :=
  mk_printer (_target_language self) (_to_free_PyObject_list self)
             (_function_wrapper_names self) (n :: _global_names self)
             (_module_name self).

Definition set_wrapper_name (func wrapper : string) (self : printer) : printer :=
  mk_printer (_target_language self) (_to_free_PyObject_list self)
             ((func, wrapper) :: _function_wrapper_names self)
             (_global_names self) (_module_name self).

Definition name_in (n : string) (used_names : list string) : bool :=
  existsb (String.eqb n) used_names.

(** A double quote, and a text as a C string literal. *)
Definition dquote : string := String (Ascii.ascii_of_nat 34) EmptyString.
Definition c_string (text : string) : string := dquote ++ text ++ dquote.

(** Python's [str(n)] for an int. *)
Definition str_int (n : Z) : string :=
  DecimalString.NilZero.string_of_int (Z.to_int n).

(** Stable insertion sort by an integer key, as [list.sort(key=...)]. *)
Fixpoint insert_by {A : Type} (key : A -> Z) (x : A) (l : list A) : list A :=
  match l with
  | [] => [x]
  | y :: l' => if (key x <=? key y)%Z then x :: y :: l' else y :: insert_by key x l'
  end.

Definition sort_by {A : Type} (key : A -> Z) (l : list A) : list A :=
  fold_right (insert_by key) [] l.

(** The checks [_get_check_type_statement] builds. *)
Definition is_basic_check (e : expr) : bool :=
  match e with
  | scalar_object_check _ _ | array_type_check _ _ => true
  | _ => false
  end.

Definition is_default_test (e : expr) : bool :=
  match e with
  | PyccelNot (VariableAddress _) => true
  | PyccelEq (VariableAddress _) (VariableAddress _) => true
  | _ => false
  end.

Definition is_type_check (e : expr) : bool :=
  is_basic_check e
  || match e with
     | PyccelAssociativeParenthesis (PyccelOr d c) =>
         is_default_test d && is_basic_check c
     | _ => false
     end.

Section Generator.

(** [create_incremented_string(used_names, prefix=...)] of
    [pyccel/ast/core.py]: the incremented name it returns (it also adds
    the name to [used_names]). *)
Variable create_incremented_string : list string -> string -> string.

(** [flags_registry] of [pyccel/ast/cwrapper.py]; a missing key raises. *)
Variable flags_registry : ctype -> Z -> option Z.

(** [str_dtype] of [pyccel/ast/datatypes.py]. *)
Variable str_dtype : ctype -> string.

(** One possible type of an argument: the variable, its check, its flag. *)
Definition type_entry : Type := (Var * expr * Z)%type.

(** [list(a_set)]: the iteration order of a Python set. *)
Variable set_order : list type_entry -> list type_entry.

(* -- Helper functions ---------------------------------------------- *)

Definition get_new_name (used_names : list string) (requested_name : string)
  : string * list string :=
  if negb (name_in requested_name used_names)
  then (requested_name, requested_name :: used_names)
  else
    let incremented_name := create_incremented_string used_names requested_name in
    (incremented_name, incremented_name :: used_names).

Definition get_new_PyObject (n : string) (used_names : list string)
  : Var * list string :=
  let '(new_name, used_names) := get_new_name used_names n in
  (mk_Var new_name PyccelPyObject 0 0 None true false false, used_names).

Definition is_native_real_integer_bool (d : ctype) : bool :=
  match d with
  | Native NativeReal | Native NativeInteger | Native NativeBool => true
  | _ => false
  end.

Definition get_default_assign (arg func_arg : Var) (v : default_value)
  : result stmt :=
  if 0 <? rank arg then Ok (AliasAssign (Variable_ arg) Nil)
  else if is_optional func_arg then Ok (AliasAssign (Variable_ arg) (Variable_ Py_None))
  else if is_native_real_integer_bool (dtype arg)
       then Ok (Assign (Variable_ arg) (Default v))
  else match dtype arg with
       | PyccelPyObject => Ok (AliasAssign (Variable_ arg) (Variable_ Py_None))
       | _ => Raise (NotImplementedError
                       "Default values are not implemented for this datatype : {}")
       end.

(** A dictionary keyed by variables, as an association list in insertion
    order; variables compare by name. *)
Fixpoint lookup {A : Type} (d : list (Var * A)) (key : Var) : result A :=
  match d with
  | [] => Raise KeyError
  | (k, x) :: rest => if String.eqb (name k) (name key) then Ok x else lookup rest key
  end.

Definition argument_expr (a : argument_var) : expr :=
  match a with
  | VariableArg v => Variable_ v
  | FunctionAddressArg n => FunctionAddress_ n
  end.

(** The loop [for i in range(collect_dict[a].rank)] of
    [_get_static_function]. *)
Fixpoint static_dims (a collected : Var) (indices : list nat)
  (used_names : list string) : list stmt * list argument_var * list string :=
  match indices with
  | [] => ([], [], used_names)
  | i :: rest =>
      let '(dim_name, used_names) := get_new_name used_names (name a ++ "_dim") in
      let v := new_Variable (Native NativeInteger) dim_name in
      let call := FunctionCall numpy_get_dim
                    [Variable_ collected; LiteralInteger (Z.of_nat i)] in
      let call := if is_optional a
                  then IfTernaryOperator (PyccelIsNot (VariableAddress collected) Nil)
                                         call (LiteralInteger 0)
                  else call in
      let '(additional_body, static_args, used_names) :=
        static_dims a collected rest used_names in
      (Assign (Variable_ v) call :: additional_body, VariableArg v :: static_args,
       used_names)
  end.

(** The loop [for arg in function.arguments] of [_get_static_function]. *)
Fixpoint static_arguments (args : list FunctionDefArgument)
  (collect_dict : list (Var * Var)) (used_names : list string)
  : result (list stmt * list argument_var * list string) :=
  match args with
  | [] => Ok ([], [], used_names)
  | arg :: rest =>
      let a := var arg in
      r <- match a with
           | VariableArg v =>
               if 0 <? rank v
               then collected <- lookup collect_dict v ;;
                    Ok (static_dims v collected (seq 0 (rank collected)) used_names)
               else Ok ([], [], used_names)
           | FunctionAddressArg _ => Ok ([], [], used_names)
           end ;;
      let '(body1, args1, used_names) := r in
      r' <- static_arguments rest collect_dict used_names ;;
      let '(body2, args2, used_names) := r' in
      Ok (body1 ++ body2, args1 ++ a :: args2, used_names)
  end.

Definition _get_static_function (self : printer) (used_names : list string)
  (function : FunctionDef) (collect_dict : list (Var * Var))
  : result (callee * list argument_var * list stmt * list string) :=
  match _target_language self with
  | lang_fortran =>
      r <- static_arguments (arguments function) collect_dict used_names ;;
      let '(additional_body, static_args, used_names) := r in
      Ok (StaticFunction function (_module_name self), static_args,
          additional_body, used_names)
  | lang_c =>
      Ok (Translated function, map var (arguments function), [], used_names)
  end.

Definition _get_check_type_statement (variable collect_var : Var)
  (compulsory : bool) : expr :=
  let check := if 0 <? rank variable
               then array_type_check collect_var variable
               else scalar_object_check collect_var variable in
  if negb compulsory then
    let default := if 0 <? rank variable
                   then PyccelNot (VariableAddress collect_var)
                   else PyccelEq (VariableAddress collect_var) (VariableAddress Py_None) in
    PyccelAssociativeParenthesis (PyccelOr default check)
  else check.

Definition _get_wrapper_name (self : printer) (used_names : list string)
  (func_name : string) : string * printer :=
  let '(wrapper_name, _) :=
    get_new_name (used_names ++ _global_names self) (func_name ++ "_wrapper") in
  (wrapper_name, add_global_name wrapper_name (set_wrapper_name func_name wrapper_name self)).

(* -- Functions managing the creation of the wrapper body ----------- *)

Definition optional_var_expr (v : option Var) : expr :=
  match v with
  | Some x => Variable_ x
  | None => NoneObject
  end.

Definition _valued_variable_management (variable collect_var : Var)
  (tmp_variable : option Var) (default : default_value)
  : (expr * list stmt) * list stmt :=
  let valued_var_check :=
    PyccelEq (VariableAddress collect_var) (VariableAddress Py_None) in
  if is_optional variable
  then ((valued_var_check, [AliasAssign (Variable_ variable) Nil]),
        [AliasAssign (Variable_ variable) (optional_var_expr tmp_variable)])
  else ((valued_var_check, [Assign (Variable_ variable) (Default default)]), []).

Definition _body_scalar (variable collect_var : Var)
  (default : option default_value) (error_check : bool)
  (tmp_variable : option Var) : stmt :=
  let v := match tmp_variable with Some t => t | None => variable end in
  let collect_value :=
    [Assign (Variable_ v) (FunctionCall (Python_to_C v) [Variable_ collect_var])] in
  let '(sections, collect_value) :=
    match default with
    | Some d =>
        let '(section, optional_collect) :=
          _valued_variable_management variable collect_var tmp_variable d in
        ([section], collect_value ++ optional_collect)
    | None => ([], collect_value)
    end in
  if error_check
  then If (sections
           ++ [(scalar_object_check collect_var v, collect_value)]
           ++ [(LiteralTrue, [generate_datatype_error v; Return [Nil]])])
  else If (sections ++ [(LiteralTrue, collect_value)]).

Definition _body_array (self : printer) (variable collect_var : Var)
  (check_type : bool) : list stmt :=
  let optional :=
    if is_optional variable
    then [(PyccelNot (VariableAddress collect_var),
           [Assign (VariableAddress variable) Nil])]
    else [] in
  let check := array_checker collect_var variable check_type (_target_language self) in
  let collect_func :=
    match _target_language self with
    | lang_fortran => FunctionCall numpy_get_data [Variable_ collect_var]
    | lang_c => FunctionCall pyarray_to_c_ndarray [Variable_ collect_var]
    end in
  [If (optional
       ++ [(check, [Return [Nil]])]
       ++ [(LiteralTrue, [Assign (VariableAddress variable) collect_func])])].

Definition _body_management (self : printer) (used_names : list string)
  (variable collect_var : Var) (default : option default_value)
  (check_type : bool) : list stmt * option Var * list string :=
  if 0 <? rank variable
  then (_body_array self variable collect_var check_type, None, used_names)
  else
    let '(tmp_variable, used_names) :=
      if is_optional variable
      then let '(tmp_name, used_names) :=
             get_new_name used_names (name variable ++ "_tmp") in
           (Some (mk_Var tmp_name (dtype variable) (precision variable) 0 None
                         false false false), used_names)
      else (None, used_names) in
    ([_body_scalar variable collect_var default check_type tmp_variable],
     tmp_variable, used_names).

(* -- Parsing arguments and building values ------------------------- *)

Definition get_PyArgParseType (used_names : list string) (variable : Var)
  : Var * list string :=
  let '(collect_name, used_names) :=
    get_new_name used_names (name variable ++ "_tmp") in
  if 0 <? rank variable
  then (mk_Var collect_name PyccelPyArrayObject 0 (rank variable) (order variable)
               true false false, used_names)
  else (mk_Var collect_name PyccelPyObject 0 0 None true false false, used_names).

Definition get_PyBuildValue (self : printer) (used_names : list string)
  (variable : Var) : (Var * expr) * list string * printer :=
  let cast_function :=
    FunctionCall (C_to_Python variable) [VariableAddress variable] in
  let '(collect_name, used_names) :=
    get_new_name used_names (name variable ++ "_tmp") in
  let collect_var := mk_Var collect_name PyccelPyObject 0 0 None true false false in
  ((collect_var, cast_function), used_names,
   set_to_free (_to_free_PyObject_list self ++ [collect_var]) self).

(* -- _print_FunctionDef -------------------------------------------- *)

(** The loop [for var, arg in local_arg_vars.items()] of
    [_print_FunctionDef]: default assignments (appended to [wrapper_body]),
    [wrapper_body_translations], [parse_args], [collect_vars]. *)
Fixpoint collect_arguments (self : printer)
  (local_arg_vars : list (argument_var * FunctionDefArgument))
  (used_names : list string)
  : result (list stmt * list stmt * list Var * list (Var * Var) * list string) :=
  match local_arg_vars with
  | [] => Ok ([], [], [], [], used_names)
  | (FunctionAddressArg _, _) :: _ => Raise (AttributeError "rank")
  | (VariableArg v, arg) :: rest =>
      let '(collect_var, used_names) := get_PyArgParseType used_names v in
      let '(body, _, used_names) :=
        _body_management self used_names v collect_var (value arg) true in
      defaults <- match value arg with
                  | Some d => a <- get_default_assign collect_var v d ;; Ok [a]
                  | None => Ok []
                  end ;;
      r <- collect_arguments self rest used_names ;;
      let '(defaults', translations, parse_args, collect_vars, used_names) := r in
      Ok (defaults ++ defaults', body ++ translations, collect_var :: parse_args,
          (v, collect_var) :: collect_vars, used_names)
  end.

(** The loop over the results: casts, [res_args]. *)
Fixpoint build_results (self : printer) (used_names : list string)
  (res : list Var) : list stmt * list expr * list string * printer :=
  match res with
  | [] => ([], [], used_names, self)
  | r :: rest =>
      let '((collect_var, cast_func), used_names, self) :=
        get_PyBuildValue self used_names r in
      let '(casts, res_args, used_names, self) := build_results self used_names rest in
      (AliasAssign (Variable_ collect_var) cast_func :: casts,
       (if is_pointer collect_var then VariableAddress collect_var
        else Variable_ collect_var) :: res_args,
       used_names, self)
  end.

(** The call of the translated function, assigned to its results if any. *)
Definition function_call (static_function : callee)
  (static_args : list argument_var) (res : list Var) : stmt :=
  let call := FunctionCall static_function (map argument_expr static_args) in
  match res with
  | [] => ExprStmt call
  | [r] => Assign (Variable_ r) call
  | _ => Assign (Tuple_ res) call
  end.

(** The keys of [local_arg_vars] that are variables of rank > 0. *)
Definition arrays_of (local_arg_vars : list (argument_var * FunctionDefArgument))
  : list Var :=
  flat_map (fun va => match fst va with
                      | VariableArg v => if 0 <? rank v then [v] else []
                      | FunctionAddressArg _ => []
                      end) local_arg_vars.

Definition not_implemented_body (message : string) (wrapper_results : list Var)
  : list stmt :=
  [PyErr_SetString "PyExc_NotImplementedError" (c_string message);
   AliasAssign (match wrapper_results with
                | r :: _ => Variable_ r
                | [] => NoneObject
                end) Nil;
   Return (map Variable_ wrapper_results)].

Definition _print_FunctionDef (self : printer) (expr : FunctionDef)
  : result (GeneratedFunctionDef * printer) :=
  let used_names :=
    map (fun a => argument_var_name (var a)) (arguments expr)
    ++ map name (results expr) ++ [func_name expr] in
  let arg_vars := map (fun a => (var a, a)) (arguments expr) in
  let local_arg_vars :=
    map (fun va => (match fst va with
                    | VariableArg v =>
                        if (0 <? rank v) || is_optional v
                        then VariableArg (clone_pointer_static v)
                        else VariableArg v
                    | other => other
                    end, snd va)) arg_vars in
  let '(wrapper_name, self) := _get_wrapper_name self used_names (func_name expr) in
  let used_names := wrapper_name :: used_names in
  let '(python_func_args, used_names) := get_new_PyObject "args" used_names in
  let '(python_func_kwargs, used_names) := get_new_PyObject "kwargs" used_names in
  let '(python_func_selfarg, used_names) := get_new_PyObject "self" used_names in
  let wrapper_args := [python_func_selfarg; python_func_args; python_func_kwargs] in
  let '(result_var, used_names) := get_new_PyObject "result" used_names in
  let wrapper_results := [result_var] in
  if is_private expr then
    Ok (mk_GeneratedFunctionDef wrapper_name wrapper_args wrapper_results
          (not_implemented_body "Private functions are not accessible from python"
                                wrapper_results), self)
  else if existsb (fun va => isinstance_FunctionAddress (fst va)) local_arg_vars then
    Ok (mk_GeneratedFunctionDef wrapper_name wrapper_args wrapper_results
          (not_implemented_body "Cannot pass a function as an argument"
                                wrapper_results), self)
  else
    let arg_names := map (fun va => argument_var_name (fst va)) local_arg_vars in
    let '(keyword_list_name, used_names) := get_new_name used_names "kwlist" in
    let keyword_list := mk_PyArgKeywords keyword_list_name arg_names in
    r <- collect_arguments self local_arg_vars used_names ;;
    let '(defaults, wrapper_body_translations, parse_args, collect_vars, used_names) := r in
    let parse_node :=
      PyArg_ParseTupleNode python_func_args python_func_kwargs
                           (map snd local_arg_vars) parse_args keyword_list in
    s <- _get_static_function self used_names expr collect_vars ;;
    let '(static_function, static_args, additional_body, used_names) := s in
    let func_call := function_call static_function static_args (results expr) in
    let '(casts, res_args, used_names, self) :=
      build_results self used_names (results expr) in
    let wrapper_body :=
      [Keywords keyword_list] ++ defaults
      ++ [If [(PyccelNot parse_node, [Return [Nil]])]]
      ++ wrapper_body_translations
      ++ additional_body
      ++ [func_call]
      ++ casts
      ++ [AliasAssign (Variable_ result_var) (PyBuildValueNode res_args)]
      ++ map (fun i => ExprStmt (FunctionCall Py_DECREF [Variable_ i]))
             (_to_free_PyObject_list self)
      ++ (match _target_language self with
          | lang_c => map Deallocate (arrays_of local_arg_vars)
          | lang_fortran => []
          end)
      ++ [Return (map Variable_ wrapper_results)] in
    Ok (mk_GeneratedFunctionDef wrapper_name wrapper_args wrapper_results wrapper_body,
        set_to_free [] self).

(* -- _print_Interface ---------------------------------------------- *)

(** [parse_args = [self.get_PyArgParseType(used_names, a.var) for a in
    funcs[0].arguments]] *)
Fixpoint parse_arguments (args : list FunctionDefArgument)
  (used_names : list string) : result (list Var * list string) :=
  match args with
  | [] => Ok ([], used_names)
  | a :: rest =>
      match var a with
      | FunctionAddressArg _ => Raise (AttributeError "rank")
      | VariableArg v =>
          let '(collect_var, used_names) := get_PyArgParseType used_names v in
          r <- parse_arguments rest used_names ;;
          let '(parse_args, used_names) := r in
          Ok (collect_var :: parse_args, used_names)
      end
  end.

(** [types_dict[key].add(entry)] *)
Fixpoint types_dict_add (types_dict : list (Var * list type_entry)) (key : Var)
  (entry : type_entry) : result (list (Var * list type_entry)) :=
  match types_dict with
  | [] => Raise KeyError
  | (k, entries) :: rest =>
      if String.eqb (name k) (name key)
      then Ok ((k, entries ++ [entry]) :: rest)
      else rest' <- types_dict_add rest key entry ;; Ok ((k, entries) :: rest')
  end.

(** An entry filed under [key]: its check is one of the checks of
    [_get_check_type_statement], its variable has the name of [key], and
    its flag is the registry's flag for the type of its variable. *)
Definition entry_ok (key : Var) (entry : type_entry) : Prop :=
  is_type_check (snd (fst entry)) = true /\
  name (fst (fst entry)) = name key /\
  flags_registry (dtype (fst (fst entry))) (precision (fst (fst entry)))
  = Some (snd entry).

Definition types_dict_ok (types_dict : list (Var * list type_entry)) : Prop :=
  Forall (fun kv : Var * list type_entry => Forall (entry_ok (fst kv)) (snd kv))
         types_dict.

(** What the loop over the arguments of one function accumulates. *)
Record argument_loop : Type := mk_argument_loop {
  loop_defaults : list stmt;          (* appended to [wrapper_body] *)
  loop_body : list stmt;              (* [mini_wrapper_func_body] *)
  loop_flags : Z;                     (* [flags] *)
  loop_collect_vars : list (Var * Var);
  loop_types_dict : list (Var * list type_entry);
  loop_used_names : list string
}.

(** The loop [for p_arg, (f_val, f_arg) in zip(parse_args,
    local_arg_vars.items())]. *)
Fixpoint interface_arguments (self : printer) (parse_args : list Var)
  (zipped : list (Var * (argument_var * FunctionDefArgument)))
  (acc : argument_loop) : result argument_loop :=
  match zipped with
  | [] => Ok acc
  | (_, (FunctionAddressArg _, _)) :: _ => Raise (AttributeError "rank")
  | (p_arg, (VariableArg f_val, f_arg)) :: rest =>
      let '(body, _, used_names) :=
        _body_management self (loop_used_names acc) f_val p_arg (value f_arg) false in
      let check :=
        _get_check_type_statement f_val p_arg
          (match value f_arg with None => true | Some _ => false end) in
      defaults <- match value f_arg with
                  | Some d =>
                      last_parse_arg <- last_arg parse_args ;;
                      a <- get_default_assign last_parse_arg f_val d ;;
                      Ok [a]
                  | None => Ok []
                  end ;;
      flag_value <- match flags_registry (dtype f_val) (precision f_val) with
                    | Some f => Ok f
                    | None => Raise KeyError
                    end ;;
      let flags := (Z.shiftl (loop_flags acc) 4 + flag_value)%Z in
      types_dict <- types_dict_add (loop_types_dict acc) f_val
                                   (f_val, check, flag_value) ;;
      interface_arguments self parse_args rest
        (mk_argument_loop (loop_defaults acc ++ defaults) (loop_body acc ++ body)
                          flags ((f_val, p_arg) :: loop_collect_vars acc)
                          types_dict used_names)
  end.

(** The two dictionary comprehensions that build [local_arg_vars]. *)
Definition interface_local_arg_vars (func : FunctionDef)
  : list (argument_var * FunctionDefArgument) :=
  map (fun a =>
         (match var a with
          | VariableArg v =>
              let v := if 0 <? rank v then clone_pointer_static v else v in
              VariableArg (if is_optional v then clone_pointer v else v)
          | other => other
          end, a)) (arguments func).

(** The type key of a signature: the flags of its first [n] parameters
    folded left to right, each step shifting the running value left by 4
    bits and adding the next flag. *)
Fixpoint fold_flags (args : list FunctionDefArgument) (key : Z) : option Z :=
  match args with
  | [] => Some key
  | a :: rest =>
      match var a with
      | VariableArg v =>
          match flags_registry (dtype v) (precision v) with
          | Some flag => fold_flags rest (Z.shiftl key 4 + flag)%Z
          | None => None
          end
      | FunctionAddressArg _ => None
      end
  end.

Definition type_key (n : nat) (func : FunctionDef) : option Z :=
  fold_flags (firstn n (arguments func)) 0.

(** The section of the dispatcher for one signature. *)
Definition dispatch_section (check_var result_var : Var) (parse_args : list Var)
  (key : Z) (mini_wrapper_func_def : GeneratedFunctionDef) : expr * list stmt :=
  (PyccelEq (Variable_ check_var) (LiteralInteger key),
   [AliasAssign (Variable_ result_var)
      (FunctionCall (Generated mini_wrapper_func_def) (map Variable_ parse_args))]).

(** What the loop over the functions of the interface accumulates. *)
Record function_loop : Type := mk_function_loop {
  fl_defaults : list stmt;
  fl_funcs_def : list GeneratedFunctionDef;
  fl_body_tmp : list (expr * list stmt);
  fl_types_dict : list (Var * list type_entry);
  fl_used_names : list string;
  fl_self : printer
}.

(** The loop [for func in funcs]. *)
Fixpoint interface_functions (funcs : list FunctionDef) (parse_args : list Var)
  (check_var result_var : Var) (acc : function_loop) : result function_loop :=
  match funcs with
  | [] => Ok acc
  | func :: rest =>
      let self := fl_self acc in
      let local_arg_vars := interface_local_arg_vars func in
      let zipped := combine parse_args local_arg_vars in
      l <- interface_arguments self parse_args zipped
             (mk_argument_loop [] [] 0 [] (fl_types_dict acc) (fl_used_names acc)) ;;
      s <- _get_static_function self (loop_used_names l) func (loop_collect_vars l) ;;
      let '(static_function, static_args, additional_body, used_names) := s in
      let func_call := function_call static_function static_args (results func) in
      let '(casts, res_args, used_names, self) :=
        build_results self used_names (results func) in
      let mini_wrapper_func_body :=
        loop_body l ++ additional_body ++ [func_call] ++ casts
        ++ [AliasAssign (Variable_ result_var) (PyBuildValueNode res_args)]
        ++ map (fun i => ExprStmt (FunctionCall Py_DECREF [Variable_ i]))
               (_to_free_PyObject_list self)
        ++ (match _target_language self with
            | lang_c => map Deallocate (arrays_of local_arg_vars)
            | lang_fortran => []
            end)
        ++ [Return [Variable_ result_var]] in
      let self := set_to_free [] self in
      let '(mini_wrapper_func_name, _) :=
        get_new_name (used_names ++ _global_names self)
                     (func_name func ++ "_mini_wrapper") in
      let self := add_global_name mini_wrapper_func_name self in
      let mini_wrapper_func_def :=
        mk_GeneratedFunctionDef mini_wrapper_func_name parse_args [result_var]
                                mini_wrapper_func_body in
      interface_functions rest parse_args check_var result_var
        (mk_function_loop
           (fl_defaults acc ++ loop_defaults l)
           (fl_funcs_def acc ++ [mini_wrapper_func_def])
           (fl_body_tmp acc
            ++ [dispatch_section check_var result_var parse_args (loop_flags l)
                                 mini_wrapper_func_def])
           (loop_types_dict l) used_names self)
  end.

(** The text of one allowed type in the message of the type check. *)
Definition type_text (v : Var) : string :=
  match dtype v with
  | Native NativeBool => str_dtype (dtype v)
  | _ => str_int (precision v * 8) ++ " bit " ++ str_dtype (dtype v)
  end.

(** [arg_type_check_list]: the entries of one argument, sorted by the
    precision of their variable. *)
Definition sorted_entries (entries : list type_entry) : list type_entry :=
  sort_by (fun elem : type_entry => precision (fst (fst elem))) (set_order entries).

(** The message of the type check for an argument with these entries. *)
Definition type_error_message (arg_type_check_list : list type_entry) : string :=
  let var_name := last (map (fun elem : type_entry => name (fst (fst elem)))
                            arg_type_check_list) EmptyString in
  let types := map (fun elem : type_entry => fst (fst elem)) arg_type_check_list in
  c_string (var_name ++ " must be " ++ join " or " (map type_text types)).

(** The body of the loop [for arg in types_dict] of
    [_create_wrapper_check], at the shift [flags], on the sorted entries of
    the argument. *)
Definition check_sections (check_var : Var) (flags : Z)
  (arg_type_check_list : list type_entry) : list (expr * list stmt) :=
  map (fun elem : type_entry =>
         (snd (fst elem), [AugAssign check_var "+" (Z.shiftl (snd elem) flags)]))
      arg_type_check_list.

Definition check_argument (check_var : Var) (flags : Z)
  (arg_type_check_list : list type_entry) : stmt :=
  If (check_sections check_var flags arg_type_check_list
      ++ [(LiteralTrue,
           [PyErr_SetString "PyExc_TypeError" (type_error_message arg_type_check_list);
            Return [LiteralInteger 0]])]).

(** The loop [for arg in types_dict], [flags] going down by 4 per argument. *)
Fixpoint check_arguments (check_var : Var) (flags : Z)
  (positions : list (list type_entry)) : list stmt :=
  match positions with
  | [] => []
  | arg_type_check_list :: rest =>
      check_argument check_var flags arg_type_check_list
      :: check_arguments check_var (flags - 4) rest
  end.

(** The sorted entries of every argument, in the order of [types_dict]. *)
Definition positions_of (types_dict : list (Var * list type_entry))
  : list (list type_entry) :=
  map (fun kv : Var * list type_entry => sorted_entries (snd kv)) types_dict.

(** The shift of the first argument. *)
Definition first_shift (types_dict : list (Var * list type_entry)) : Z :=
  ((Z.of_nat (List.length types_dict) - 1) * 4)%Z.

Definition _create_wrapper_check (self : printer) (check_var : Var)
  (parse_args : list Var) (types_dict : list (Var * list type_entry))
  (used_names : list string) (first_name : string)
  : GeneratedFunctionDef * printer :=
  let flags := first_shift types_dict in
  let check_func_body :=
    [Assign (Variable_ check_var) (LiteralInteger 0)]
    ++ check_arguments check_var flags (positions_of types_dict)
    ++ [Return [Variable_ check_var]] in
  let '(check_func_name, _) :=
    get_new_name (used_names ++ _global_names self) "type_check" in
  (mk_GeneratedFunctionDef check_func_name parse_args [check_var] check_func_body,
   add_global_name check_func_name self).

(** [wrapper_body] of the dispatcher, from its parts. *)
Definition dispatcher_body (keyword_list : PyArgKeywords) (defaults : list stmt)
  (parse_node : expr) (check_var result_var : Var)
  (check_func_def : GeneratedFunctionDef) (parse_args : list Var)
  (sections : list (expr * list stmt)) : list stmt :=
  [Keywords keyword_list] ++ defaults
  ++ [If [(PyccelNot parse_node, [Return [Nil]])]]
  ++ [Assign (Variable_ check_var)
             (FunctionCall (Generated check_func_def) (map Variable_ parse_args))]
  ++ [If ([(PyccelNot (Variable_ check_var), [Return [Nil]])]
          ++ sections
          ++ [(LiteralTrue,
               [PyErr_SetString "PyExc_TypeError"
                                (c_string "Arguments combinations don't exist");
                Return [Nil]])])]
  ++ [Return [Variable_ result_var]].

(** The variables among the arguments, the keys of [types_dict]. *)
Definition argument_variables (args : list FunctionDefArgument) : list Var :=
  flat_map (fun a => match var a with
                     | VariableArg v => [v]
                     | FunctionAddressArg _ => []
                     end) args.

Definition _print_Interface (self : printer) (expr : Interface)
  : result (list GeneratedFunctionDef * printer) :=
  let funcs := functions expr in
  let used_names := map func_name funcs in
  let '(wrapper_name, self) := _get_wrapper_name self used_names (interface_name expr) in
  let '(python_func_args, used_names) := get_new_PyObject "args" used_names in
  let '(python_func_kwargs, used_names) := get_new_PyObject "kwargs" used_names in
  let '(python_func_selfarg, used_names) := get_new_PyObject "self" used_names in
  let wrapper_args := [python_func_selfarg; python_func_args; python_func_kwargs] in
  let '(result_var, used_names) := get_new_PyObject "result" used_names in
  let wrapper_results := [result_var] in
  first <- nth_arg funcs 0 ;;
  let arg_names := map (fun a => argument_var_name (var a)) (arguments first) in
  let '(keyword_list_name, used_names) := get_new_name used_names "kwlist" in
  let keyword_list := mk_PyArgKeywords keyword_list_name arg_names in
  let '(check_name, used_names) := get_new_name used_names "check" in
  let check_var := new_Variable (Native NativeInteger) check_name in
  let types_dict := map (fun v => (v, [])) (argument_variables (arguments first)) in
  p <- parse_arguments (arguments first) used_names ;;
  let '(parse_args, used_names) := p in
  l <- interface_functions funcs parse_args check_var result_var
         (mk_function_loop [] [] [] types_dict used_names self) ;;
  let '(check_func_def, self) :=
    _create_wrapper_check (fl_self l) check_var parse_args (fl_types_dict l)
                          (fl_used_names l) (func_name first) in
  let parse_node :=
    PyArg_ParseTupleNode python_func_args python_func_kwargs (arguments first)
                         parse_args keyword_list in
  let wrapper_body :=
    dispatcher_body keyword_list (fl_defaults l) parse_node check_var result_var
                    check_func_def parse_args (fl_body_tmp l) in
  Ok (fl_funcs_def l
      ++ [check_func_def]
      ++ [mk_GeneratedFunctionDef wrapper_name wrapper_args wrapper_results wrapper_body],
      self).

End Generator.

(* ------------------------------------------------------------------ *)
(** *** Running the generated code

    A small interpreter for the generated trees.  What the embedding does
    not interpret (a type check on a supplied object, a cast, a test on an
    argument's address) is kept as a symbolic value whose truth is given by
    the environment of the call. *)

Inductive cvalue : Type :=
| IntValue (z : Z)
| Null
| Opaque (e : expr).

(** The environment of one call from Python. *)
Record environment : Type := mk_environment {
  (** whether [PyArg_ParseTupleAndKeywords] succeeds *)
  parse_succeeds : bool;
  (** the truth of an uninterpreted expression on the supplied objects *)
  holds : expr -> bool;
  (** the message set by [generate_datatype_error] *)
  datatype_error_message : Var -> string
}.

(** The state shared by all functions: the Python error indicator and the
    functions called so far, oldest first. *)
Record machine : Type := mk_machine {
  error : option (string * string);
  calls : list callee
}.

Definition frame : Type := list (string * cvalue).

Inductive outcome : Type :=
| Normal
| Returned (values : list cvalue).

Definition start : machine := mk_machine None [].

Definition set_error (exception message : string) (m : machine) : machine :=
  mk_machine (Some (exception, message)) (calls m).

Definition record_call (f : callee) (m : machine) : machine :=
  mk_machine (error m) (calls m ++ [f]).

Fixpoint local (fr : frame) (n : string) : option cvalue :=
  match fr with
  | [] => None
  | (k, x) :: rest => if String.eqb k n then Some x else local rest n
  end.

Definition of_bool (b : bool) : cvalue := IntValue (if b then 1 else 0).

Definition assign (lhs : expr) (x : cvalue) (fr : frame) : frame :=
  match lhs with
  | Variable_ v | VariableAddress v => (name v, x) :: fr
  | _ => fr
  end.

(** What a C function hands back. *)
Definition return_value (out : outcome) : cvalue :=
  match out with
  | Returned (x :: _) => x
  | _ => Null
  end.

Section Semantics.

Variable env : environment.

Definition truthy (x : cvalue) : bool :=
  match x with
  | IntValue z => negb (z =? 0)%Z
  | Null => false
  | Opaque e => holds env e
  end.

Fixpoint eval (e : expr) (fr : frame) (m : machine) {struct e} : cvalue * machine :=
  match e with
  | Variable_ v =>
      (match local fr (name v) with Some x => x | None => Opaque e end, m)
  | Nil | NoneObject => (Null, m)
  | LiteralTrue => (IntValue 1, m)
  | LiteralInteger z => (IntValue z, m)
  | PyccelNot a =>
      let '(x, m) := eval a fr m in (of_bool (negb (truthy x)), m)
  | PyccelEq a b =>
      let '(x, m) := eval a fr m in
      let '(y, m) := eval b fr m in
      (match x, y with
       | IntValue p, IntValue q => of_bool (p =? q)%Z
       | _, _ => Opaque e
       end, m)
  | PyccelOr a b =>
      let '(x, m) := eval a fr m in
      if truthy x then (of_bool true, m)
      else let '(y, m) := eval b fr m in (of_bool (truthy y), m)
  | PyccelAssociativeParenthesis a => eval a fr m
  | IfTernaryOperator c a b =>
      let '(x, m) := eval c fr m in
      if truthy x then eval a fr m else eval b fr m
  | FunctionCall f args =>
      match f with
      | Generated (mk_GeneratedFunctionDef _ _ _ b) =>
          let '(out, _, m) :=
            (fix run (b : list stmt) (fr : frame) (m : machine) {struct b}
               : outcome * frame * machine :=
               match b with
               | [] => (Normal, fr, m)
               | s :: b' =>
                   match exec s fr m with
                   | (Normal, fr, m) => run b' fr m
                   | r => r
                   end
               end) b [] (record_call f m) in
          (return_value out, m)
      | _ => (Opaque e, record_call f m)
      end
  | PyArg_ParseTupleNode _ _ _ _ _ => (of_bool (parse_succeeds env), m)
  | _ => (Opaque e, m)
  end

with exec (s : stmt) (fr : frame) (m : machine) {struct s}
  : outcome * frame * machine :=
  match s with
  | Keywords _ => (Normal, fr, m)
  | Assign lhs rhs | AliasAssign lhs rhs =>
      let '(x, m) := eval rhs fr m in (Normal, assign lhs x fr, m)
  | AugAssign v _ z =>
      (Normal,
       (name v, match local fr (name v) with
                | Some (IntValue x) => IntValue (x + z)
                | _ => Opaque (Variable_ v)
                end) :: fr, m)
  | If sections =>
      (fix sections_loop (sections : list (expr * list stmt)) (fr : frame)
         (m : machine) {struct sections} : outcome * frame * machine :=
         match sections with
         | [] => (Normal, fr, m)
         | (cond, b) :: rest =>
             let '(x, m) := eval cond fr m in
             if truthy x
             then (fix run (b : list stmt) (fr : frame) (m : machine) {struct b}
                     : outcome * frame * machine :=
                     match b with
                     | [] => (Normal, fr, m)
                     | s :: b' =>
                         match exec s fr m with
                         | (Normal, fr, m) => run b' fr m
                         | r => r
                         end
                     end) b fr m
             else sections_loop rest fr m
         end) sections fr m
  | Return values =>
      let '(xs, m) :=
        (fix eval_all (es : list expr) (m : machine) {struct es}
           : list cvalue * machine :=
           match es with
           | [] => ([], m)
           | e :: es' =>
               let '(x, m) := eval e fr m in
               let '(xs, m) := eval_all es' m in
               (x :: xs, m)
           end) values m in
      (Returned xs, fr, m)
  | ExprStmt e => let '(_, m) := eval e fr m in (Normal, fr, m)
  | PyErr_SetString exception message => (Normal, fr, set_error exception message m)
  | generate_datatype_error v =>
      (Normal, fr, set_error "PyExc_TypeError" (datatype_error_message env v) m)
  | Deallocate _ => (Normal, fr, m)
  end.

(** A list of statements, up to the first [Return]. *)
Fixpoint exec_block (b : list stmt) (fr : frame) (m : machine)
  : outcome * frame * machine :=
  match b with
  | [] => (Normal, fr, m)
  | s :: b' =>
      match exec s fr m with
      | (Normal, fr, m) => exec_block b' fr m
      | r => r
      end
  end.

(** The sections of an [If]: the body of the first one whose condition
    holds. *)
Fixpoint exec_sections (sections : list (expr * list stmt)) (fr : frame)
  (m : machine) : outcome * frame * machine :=
  match sections with
  | [] => (Normal, fr, m)
  | (cond, b) :: rest =>
      let '(x, m) := eval cond fr m in
      if truthy x then exec_block b fr m else exec_sections rest fr m
  end.

(** A call of a generated function from Python: its body on a fresh frame. *)
Definition run (f : GeneratedFunctionDef) (m : machine) : cvalue * machine :=
  let '(out, _, m) := exec_block (body f) [] m in (return_value out, m).

End Semantics.

(** A [types_dict] all of whose checks are such checks. *)
Definition type_checks_only (types_dict : list (Var * list type_entry)) : bool :=
  forallb (fun kv : Var * list type_entry =>
             forallb (fun elem : type_entry => is_type_check (snd (fst elem))) (snd kv))
          types_dict.

(** A key of [local_arg_vars] has the dtype and precision of the argument
    it was cloned from. *)
Definition same_type (local : argument_var) (a : FunctionDefArgument) : Prop :=
  match local, var a with
  | VariableArg v, VariableArg v0 => dtype v = dtype v0 /\ precision v = precision v0
  | FunctionAddressArg _, FunctionAddressArg _ => True
  | _, _ => False
  end.

(** The statements [get_default_assign] builds. *)
Definition is_default_assign (s : stmt) : bool :=
  match s with
  | AliasAssign (Variable_ _) Nil
  | AliasAssign (Variable_ _) (Variable_ _)
  | Assign (Variable_ _) (Default _) => true
  | _ => false
  end.

(** Whether a check succeeds on the objects of the call. *)
Definition passes (env : environment) (check : expr) : bool :=
  truthy env (fst (eval env check [] start)).

(** The dispatch key assembled from the first passing entry of each
    argument, the first argument shifted by [shift] bits and every later
    one by 4 bits less; or the entries of the first argument none of whose
    checks passes. *)
Fixpoint dispatch_key (env : environment) (shift : Z)
  (positions : list (list type_entry)) (key : Z) : Z + list type_entry :=
  match positions with
  | [] => inl key
  | entries :: rest =>
      match find (fun elem : type_entry => passes env (snd (fst elem))) entries with
      | Some elem => dispatch_key env (shift - 4) rest (key + Z.shiftl (snd elem) shift)
      | None => inr entries
      end
  end.

(** The signature the dispatcher selects for the dispatch key [k]: the
    first one, in registration order, whose type key is [k]. *)
Definition selected (k : Z) (keys : list Z) (minis : list GeneratedFunctionDef)
  : option GeneratedFunctionDef :=
  option_map snd (find (fun km : Z * GeneratedFunctionDef => (k =? fst km)%Z)
                       (combine keys minis)).

(** Whether an entry is filed under the parameter [key]: [types_dict] is
    looked up by the variable of the entry, two variables of the same name
    being the same key. *)
Definition filed_at (key : Var) (entry : type_entry) : bool :=
  String.eqb (name key) (name (fst (fst entry))).

(** The entry a signature contributes for one of its arguments, collected
    into [p_arg]: the variable of the argument as the helper of the
    signature declares it, the check of that variable on [p_arg], and the
    flag of its type. *)
Definition argument_entry (flags_registry : ctype -> Z -> option Z)
  (z : Var * (argument_var * FunctionDefArgument)) : list type_entry :=
  match fst (snd z) with
  | VariableArg f_val =>
      match flags_registry (dtype f_val) (precision f_val) with
      | Some flag_value =>
          [(f_val,
            _get_check_type_statement f_val (fst z)
              (match value (snd (snd z)) with None => true | Some _ => false end),
            flag_value)]
      | None => []
      end
  | FunctionAddressArg _ => []
  end.

(** The entries of one signature, argument by argument. *)
Definition signature_entries (flags_registry : ctype -> Z -> option Z)
  (parse_args : list Var) (func : FunctionDef) : list type_entry :=
  flat_map (argument_entry flags_registry)
           (combine parse_args (interface_local_arg_vars func)).

(** The admissible entries of a parameter: those that the signatures of
    the interface, in the order of their registration, contribute for
    their argument of that name. *)
Definition admissible_entries (flags_registry : ctype -> Z -> option Z)
  (parse_args : list Var) (funcs : list FunctionDef) (parameter : Var)
  : list type_entry :=
  filter (filed_at parameter)
         (flat_map (signature_entries flags_registry parse_args) funcs).

(** A dictionary with the keys [keys], each with the entries of [entries]
    that are filed under it. *)
Definition filed_under (keys : list Var) (entries : list type_entry)
  : list (Var * list type_entry) :=
  map (fun key => (key, filter (filed_at key) entries)) keys.

(* ------------------------------------------------------------------ *)
(** *** Sample registries and a sample interface *)

(** Four digits, zero padded, as the format [{counter:0=4d}]. *)
Definition pad4 (n : nat) : string :=
  let digits := str_int (Z.of_nat n) in
  match String.length digits with
  | 1 => "000" ++ digits
  | 2 => "00" ++ digits
  | 3 => "0" ++ digits
  | _ => digits
  end.

(** The first of [prefix_0001], [prefix_0002], ... that is not in use. *)
Fixpoint first_unused (used_names : list string) (prefix : string)
  (counter fuel : nat) : string :=
  let candidate := (prefix ++ "_" ++ pad4 counter)%string in
  match fuel with
  | 0 => candidate
  | S fuel' =>
      if name_in candidate used_names
      then first_unused used_names prefix (S counter) fuel'
      else candidate
  end.

Definition sample_create_incremented_string (used_names : list string)
  (prefix : string) : string :=
  first_unused used_names prefix 1 (List.length used_names).

(** The flags of the dispatcher example: 5 for a 32-bit integer, 11 for a
    64-bit real; precisions are in bytes. *)
Definition sample_flags_registry (d : ctype) (p : Z) : option Z :=
  match d with
  | Native NativeInteger => if (p =? 4)%Z then Some 5%Z
                            else if (p =? 8)%Z then Some 6%Z else None
  | Native NativeReal => if (p =? 8)%Z then Some 11%Z
                         else if (p =? 4)%Z then Some 10%Z else None
  | Native NativeBool => if (p =? 4)%Z then Some 1%Z else None
  | _ => None
  end.

Definition sample_str_dtype (d : ctype) : string :=
  match d with
  | Native NativeInteger => "int"
  | Native NativeReal => "real"
  | Native NativeComplex => "complex"
  | Native NativeBool => "bool"
  | Native NativeString => "str"
  | _ => "object"
  end.

Definition scalar (n : string) (d : datatype) (p : Z) : Var :=
  mk_Var n (Native d) p 0 None false false false.

Definition argument (v : Var) : FunctionDefArgument :=
  mk_FunctionDefArgument (VariableArg v) None.

(** [f(x, y)] for two 32-bit integers and for two 64-bit reals. *)
Definition f_int32 : FunctionDef :=
  mk_FunctionDef "f_00"
    [argument (scalar "x" NativeInteger 4); argument (scalar "y" NativeInteger 4)]
    [scalar "r" NativeInteger 4] false.

Definition f_real64 : FunctionDef :=
  mk_FunctionDef "f_01"
    [argument (scalar "x" NativeReal 8); argument (scalar "y" NativeReal 8)]
    [scalar "r" NativeReal 8] false.

(** A second signature over two 32-bit integers. *)
Definition f_int32_again : FunctionDef :=
  mk_FunctionDef "f_02"
    [argument (scalar "x" NativeInteger 4); argument (scalar "y" NativeInteger 4)]
    [scalar "r" NativeInteger 4] false.

Definition sample_printer : printer :=
  mk_printer lang_c [] [] ["f_00"%string; "f_01"%string; "f_02"%string] None.

(** A call in which exactly the type checks listed in [passing] succeed. *)
Definition sample_environment (passing : list (string * datatype)) : environment :=
  mk_environment true
    (fun e => match e with
              | scalar_object_check c v =>
                  existsb (fun nd => String.eqb (fst nd) (name v)
                                     && match dtype v with
                                        | Native d => datatype_eqb d (snd nd)
                                        | _ => false
                                        end) passing
              | _ => false
              end)
    (fun v => name v).

(** The overload group [f]: the two 32-bit integer signatures share the
    type key [0x55]. *)
Definition sample_interface : Interface :=
  mk_Interface "f" [f_int32; f_real64; f_int32_again].

Definition sample_generated : list GeneratedFunctionDef * printer :=
  match _print_Interface sample_create_incremented_string sample_flags_registry
                         sample_str_dtype (fun l => l) sample_printer sample_interface with
  | Ok r => r
  | Raise _ => ([], sample_printer)
  end.

(** A private function. *)
Definition f_private : FunctionDef :=
  mk_FunctionDef "helper" [argument (scalar "x" NativeInteger 4)] [] true.

(** The names of the generated functions a run has called, oldest first. *)
Definition generated_calls (m : machine) : list string :=
  flat_map (fun f => match f with
                     | Generated g => [generated_name g]
                     | _ => []
                     end) (calls m).

(* ------------------------------------------------------------------ *)
(** *** Notions used to state the properties of the wrappers *)

(** The flag of an argument: the entry of [flags_registry] for the dtype
    and precision of its variable. *)
Definition flag_of (flags_registry : ctype -> Z -> option Z)
  (a : FunctionDefArgument) : option Z :=
  match var a with
  | VariableArg v => flags_registry (dtype v) (precision v)
  | FunctionAddressArg _ => None
  end.

(** [local_arg_vars] of [_print_FunctionDef]. *)
Definition local_arg_vars (expr : FunctionDef)
  : list (argument_var * FunctionDefArgument) :=
  map (fun va : argument_var * FunctionDefArgument =>
         (match fst va with
          | VariableArg v =>
              if (0 <? rank v) || is_optional v
              then VariableArg (clone_pointer_static v)
              else VariableArg v
          | other => other
          end, snd va))
      (map (fun a => (var a, a)) (arguments expr)).

(** A compulsory scalar argument: a variable of rank 0 that is not
    optional and has no default value. *)
Definition compulsory_scalar (a : FunctionDefArgument) : bool :=
  match var a, value a with
  | VariableArg v, None => (rank v =? 0) && negb (is_optional v)
  | _, _ => false
  end.

(** The function a wrapper calls for a signature without array arguments:
    the translated function itself, or its static Fortran interface. *)
Definition static_callee (self : printer) (f : FunctionDef) : callee :=
  match _target_language self with
  | lang_c => Translated f
  | lang_fortran => StaticFunction f (_module_name self)
  end.

(** [FunctionCall(Py_DECREF, [i])] as a statement. *)
Definition decref (i : Var) : stmt := ExprStmt (FunctionCall Py_DECREF [Variable_ i]).

(** The body that collects a compulsory scalar [fst vc] from [snd vc],
    with the type check ([_print_FunctionDef]) and without
    ([_print_Interface]). *)
Definition checked_scalar (vc : Var * Var) : stmt :=
  _body_scalar (fst vc) (snd vc) None true None.

Definition unchecked_scalar (vc : Var * Var) : stmt :=
  _body_scalar (fst vc) (snd vc) None false None.

(** What running the helper [mini] of the signature [func] does when the
    arguments of [func] are compulsory scalars: every argument is
    converted, the translated function is called once, the results are
    converted and the built value is returned. *)
Definition helper_runs (env : environment) (self : printer) (parse_args : list Var)
  (func : FunctionDef) (mini : GeneratedFunctionDef) : Prop :=
  forallb compulsory_scalar (arguments func) = true ->
  List.length (arguments func) <= List.length parse_args ->
  exists res_args, forall m,
    run env mini m
    = (Opaque (PyBuildValueNode res_args),
       mk_machine (error m)
         (calls m ++ map Python_to_C (argument_variables (arguments func))
          ++ [static_callee self func]
          ++ map C_to_Python (results func)
          ++ repeat Py_DECREF (List.length (results func)))).

(** A second name generator: the prefix followed by more underscores than
    the longest name in use has characters. *)
Fixpoint longest (names : list string) : nat :=
  match names with
  | [] => 0
  | n :: rest => Nat.max (String.length n) (longest rest)
  end.

Fixpoint padding (n : nat) : string :=
  match n with
  | 0 => EmptyString
  | S n' => ("_" ++ padding n')%string
  end.

Definition sample_fresh_string (used_names : list string) (prefix : string) : string :=
  (prefix ++ padding (S (longest used_names)))%string.

(** The wrapper of [f_int32] and the functions of the sample interface,
    with that generator. *)
Definition sample_wrapper : GeneratedFunctionDef * printer :=
  match _print_FunctionDef sample_fresh_string sample_printer f_int32 with
  | Ok r => r
  | Raise _ => (mk_GeneratedFunctionDef "" [] [] [], sample_printer)
  end.

Definition sample_interface_functions : list GeneratedFunctionDef * printer :=
  match _print_Interface sample_fresh_string sample_flags_registry
                         sample_str_dtype (fun l => l) sample_printer sample_interface with
  | Ok r => r
  | Raise _ => ([], sample_printer)
  end.

(** A call whose arguments do not parse. *)
Definition unparsed_call : environment :=
  mk_environment false (fun _ => false) (fun v => name v).

(** The entries of the parameters [x] and [y] over the signatures
    [f_int32] and [f_real64], sorted by precision. *)
Definition sample_positions : list (list type_entry) :=
  map (fun n => [(scalar n NativeInteger 4,
                  scalar_object_check (scalar (n ++ "_tmp") NativeInteger 4)
                                      (scalar n NativeInteger 4), 5%Z);
                 (scalar n NativeReal 8,
                  scalar_object_check (scalar (n ++ "_tmp") NativeReal 8)
                                      (scalar n NativeReal 8), 11%Z)])
      ["x"%string; "y"%string].

End CWrapper.

(* ================================================================== *)
(** * Properties of the operators *)

Import Operators.

Section OperatorFacts.

Context {dim : Type} {oracle : SympyOracle dim}.
Variable default_precision : string -> Z.
Variable float_of_int : Z -> float.

(* ------------------------------------------------------------------ *)
(** ** The broadcast loop *)

Lemma broadcast_loop_spec (shape_1 shape_2 : list dim) (pairs : list (dim * dim)) :
  forall acc r,
    broadcast_loop shape_1 shape_2 pairs acc = Ok r ->
    exists r',
      r = acc ++ r' /\
      List.length r' = List.length pairs /\
      forall i e1 e2,
        nth_error pairs i = Some (e1, e2) ->
        exists e, nth_error r' i = Some e /\ broadcast_dim e1 e2 = Some e.
Proof.
  induction pairs as [|[x1 x2] rest IH]; intros acc r H; simpl in H.
  - inversion H; subst. exists []. rewrite app_nil_r. repeat split; auto.
    intros [|i] e1 e2 Hn; discriminate Hn.
  - destruct (broadcast_dim x1 x2) as [e|] eqn:He; [|discriminate].
    destruct (IH _ _ H) as (r' & -> & Hlen & Hnth).
    exists (e :: r'). rewrite <- app_assoc. simpl. repeat split; auto.
    intros [|i] e1 e2 Hn; simpl in *.
    + inversion Hn; subst. eauto.
    + eauto.
Qed.

(** **** C2 (as amended)

    For every aligned pair [(e1, e2)] of a successful broadcast where the
    two sides are not provably equal, neither is provably the literal 1,
    and exactly one side is a compile-time constant, the resolver keeps the
    constant side as the result extent. *)
Theorem C2_keeps_constant_side (shape_1 shape_2 r : list dim) (i : nat) (e1 e2 : dim) :
  broadcast shape_1 shape_2 = Ok r ->
  nth_error (aligned shape_1 shape_2) i = Some (e1, e2) ->
  sy_eqb e1 e2 = false ->
  sy_eq_int e1 1 = false ->
  sy_eq_int e2 1 = false ->
  xorb (sy_is_constant e1) (sy_is_constant e2) = true ->
  nth_error r i = Some (if sy_is_constant e1 then e1 else e2).
Proof.
  intros Hb Hn Heq H1 H2 Hx.
  unfold broadcast in Hb.
  destruct (broadcast_loop_spec _ _ _ _ Hb) as (r' & -> & _ & Hnth).
  destruct (Hnth _ _ _ Hn) as (e & He & Hd).
  simpl. rewrite He. f_equal.
  unfold broadcast_dim in Hd. rewrite Heq, H1, H2 in Hd.
  destruct (sy_is_constant e1), (sy_is_constant e2); simpl in *;
    try discriminate; congruence.
Qed.

(* ------------------------------------------------------------------ *)
(** ** Shape and rank of binary operators *)

(** With an unknown rank on either side the result rank and shape are
    unknown. *)
Lemma shape_rank_unknown (a b : node (dim := dim)) (ta tb : attrs (dim := dim)) :
  numeric_attrs a ta -> numeric_attrs b tb ->
  rank ta = None \/ rank tb = None ->
  PyccelBinaryOperator__calculate_shape_rank [a; b] = Ok (None, None).
Proof.
  intros [Ha Na] [Hb Nb] Hr.
  unfold PyccelBinaryOperator__calculate_shape_rank, mapM, getattr. simpl.
  rewrite Ha, Hb. simpl.
  destruct (dtype ta); try discriminate Na;
    destruct (dtype tb); try discriminate Nb; simpl;
    destruct Hr as [-> | ->]; simpl; try reflexivity;
    destruct (rank ta); reflexivity.
Qed.

(** With known ranks and fully known shapes the result is the broadcast of
    the second operand's shape with itself. *)
Lemma shape_rank_known (a b : node (dim := dim)) (ta tb : attrs (dim := dim)) (ra rb : nat)
  (sa sb : list dim) :
  numeric_attrs a ta -> numeric_attrs b tb ->
  rank ta = Some ra -> rank tb = Some rb ->
  shape ta = Some (map Some sa) -> shape tb = Some (map Some sb) ->
  PyccelBinaryOperator__calculate_shape_rank [a; b] =
    (sh <- broadcast sb sb ;; Ok (Some (map Some sh), Some (List.length sh))).
Proof.
  intros [Ha Na] [Hb Nb] Hra Hrb Hsa Hsb.
  assert (Hall : forall l : list dim,
             forallb (fun sh : option dim => negb (is_None sh)) (map Some l) = true).
  { induction l; simpl; auto. }
  assert (Hk : forall l : list dim, known_extents (map Some l) = l).
  { induction l; simpl; congruence. }
  unfold PyccelBinaryOperator__calculate_shape_rank, mapM, getattr. simpl.
  rewrite Ha, Hb. simpl.
  destruct (dtype ta); try discriminate Na;
    destruct (dtype tb); try discriminate Nb; simpl;
    rewrite Hra, Hrb, Hsa, Hsb; simpl;
    rewrite !Hall; simpl; rewrite ?Hb; simpl; rewrite ?Hsb, Hk; reflexivity.
Qed.

(* ------------------------------------------------------------------ *)
(** ** Results of comparisons and boolean operators *)

(** **** C3 (as amended)

    For every comparison node, and/or node and is/is-not node the inferred
    dtype is bool with the default bool precision, whatever the operands;
    and/or and is/is-not nodes have rank 0 and the empty shape, while a
    comparison node takes its rank and shape from the shape rule of binary
    operators. *)
Theorem C3_bool_result (k : op_kind) (args : list (node (dim := dim))) :
  is_comparison k || is_boolean k = true ->
  _calculate_dtype default_precision k args
    = Ok (NativeBool, Some (default_precision "bool")) /\
  (is_boolean k = true ->
     typed_node default_precision semantic k args
       = Ok (Op k args (Some (mk_attrs NativeBool (Some (default_precision "bool"))
                                       (Some 0) (Some []) None)))) /\
  (is_comparison k = true ->
     _calculate_shape_rank k args
       = PyccelBinaryOperator__calculate_shape_rank args).
Proof.
  intros H. destruct k; simpl in H; try discriminate H;
    repeat split; intros Hk; try discriminate Hk; reflexivity.
Qed.

(* ------------------------------------------------------------------ *)
(** ** Numeric promotion *)

Lemma py_max_two (p1 p2 : Z) :
  py_max [Some p1; Some p2] = Ok (Some (Z.max p1 p2)).
Proof.
  simpl. destruct (Z.gtb_spec p2 p1); do 2 f_equal; lia.
Qed.

(** **** C7

    For a binary arithmetic operator over two numeric operands the result
    kind is the highest bucket present (complex > real > integer-or-bool)
    and the precision the largest one among the operands of that bucket,
    except that dividing two integer-bucket operands gives a real of the
    default real precision.  In particular add(int32, real64) is (real, 64),
    div(int32, int32) is (real, default real precision) and
    floor-div(int32, int32) is (integer, 32). *)
Theorem C7_promotion (k : op_kind) (a b : node (dim := dim)) (ta tb : attrs (dim := dim)) (p1 p2 : Z) :
  is_arithmetic k = true ->
  numeric_attrs a ta -> numeric_attrs b tb ->
  precision ta = Some p1 -> precision tb = Some p2 ->
  _calculate_dtype default_precision k [a; b]
    = Ok (promotion (default_precision "real") k [(dtype ta, p1); (dtype tb, p2)])
  /\ promotion (default_precision "real") PyccelAdd
       [(NativeInteger, 32%Z); (NativeReal, 64%Z)] = (NativeReal, Some 64%Z)
  /\ promotion (default_precision "real") PyccelDiv
       [(NativeInteger, 32%Z); (NativeInteger, 32%Z)]
       = (NativeReal, Some (default_precision "real"))
  /\ promotion (default_precision "real") PyccelFloorDiv
       [(NativeInteger, 32%Z); (NativeInteger, 32%Z)] = (NativeInteger, Some 32%Z).
Proof.
  intros Hk [Ha Na] [Hb Nb] Hp1 Hp2.
  split; [|repeat split].
  assert (Hk' : _calculate_dtype default_precision k [a; b]
                = PyccelBinaryOperator__calculate_dtype default_precision k [a; b]).
  { destruct k; try discriminate Hk; reflexivity. }
  rewrite Hk'. clear Hk'.
  unfold PyccelBinaryOperator__calculate_dtype, mapM, getattr. simpl.
  rewrite Ha, Hb. simpl.
  destruct (dtype ta); try discriminate Na;
    destruct (dtype tb); try discriminate Nb;
    destruct k; try discriminate Hk;
    cbn -[py_max Z.max];
    unfold _handle_complex_type, _handle_real_type, _handle_integer_type, mapM, getattr;
    cbn -[py_max Z.max]; rewrite ?Ha, ?Hb; cbn -[py_max Z.max];
    rewrite ?Hp1, ?Hp2; try rewrite py_max_two; try reflexivity.
Qed.

(* ------------------------------------------------------------------ *)
(** ** Parentheses *)

Lemma bind_assoc {A B C : Type} (m : result A) (f : A -> result B) (g : B -> result C) :
  bind (bind m f) g = bind m (fun x => bind (f x) g).
Proof. destruct m; reflexivity. Qed.

Lemma mapMi_ext {A B : Type} (f g : nat -> A -> result B) (l : list A) :
  (forall i a, f i a = g i a) -> forall i, mapMi f i l = mapMi g i l.
Proof.
  intros H. induction l as [|x l IH]; intros i; simpl; [reflexivity|].
  rewrite H, IH. reflexivity.
Qed.

Lemma mapMi_nth {A B : Type} (f : nat -> A -> result B) (l : list A) :
  forall i l', mapMi f i l = Ok l' ->
  List.length l' = List.length l /\
  forall j a, nth_error l j = Some a ->
              exists a', nth_error l' j = Some a' /\ f (i + j) a = Ok a'.
Proof.
  induction l as [|x l IH]; intros i l' H; simpl in H.
  - inversion H; subst. split; [reflexivity|]. intros [|j] a Hn; discriminate Hn.
  - destruct (f i x) as [y|] eqn:Hx; [|discriminate]. simpl in H.
    destruct (mapMi f (S i) l) as [ys|] eqn:Hl; [|discriminate]. simpl in H.
    inversion H; subst. destruct (IH _ _ Hl) as [Hlen Hnth].
    split; [simpl; congruence|].
    intros [|j] a Hn; simpl in *.
    + inversion Hn; subst. rewrite Nat.add_0_r. eauto.
    + destruct (Hnth _ _ Hn) as (a' & Ha' & Hf). exists a'. split; auto.
      rewrite <- Hf. f_equal. lia.
Qed.

Lemma option_ordering_eqb_refl (o : option ordering) :
  option_eqb ordering_eqb o o = true.
Proof. destruct o as [[|]|]; reflexivity. Qed.

(** A parenthesis node is built around any operand that carries
    attributes; the only way to fail is an operand without them. *)
Lemma new_parenthesis_cases (st : stage) (a : node (dim := dim)) :
  (exists t, new_PyccelAssociativeParenthesis default_precision st a
             = Ok (Op PyccelAssociativeParenthesis [a] t)) \/
  new_PyccelAssociativeParenthesis default_precision st a
    = Raise (AttributeError "dtype").
Proof.
  unfold new_PyccelAssociativeParenthesis, typed_node.
  destruct st; [left; eauto|]. simpl.
  unfold PyccelUnaryOperator__calculate_dtype,
    PyccelUnaryOperator__calculate_shape_rank, getattr.
  destruct (node_attrs a) as [t|] eqn:E; simpl; [left|right; reflexivity].
  destruct (rank_gt_1 (rank t)); simpl; [|eauto].
  rewrite option_ordering_eqb_refl. simpl. eauto.
Qed.

Lemma mapMi_only_attribute_error {A B : Type} (f : nat -> A -> result B) (l : list A) :
  (forall i a, only_attribute_error (f i a)) ->
  forall i, only_attribute_error (mapMi f i l).
Proof.
  intros H. induction l as [|x l IH]; intros i; simpl.
  - left; eauto.
  - destruct (H i x) as [(y & ->)| ->]; simpl; [|right; reflexivity].
    destruct (IH (S i)) as [(ys & ->)| ->]; simpl; [left; eauto|right; reflexivity].
Qed.

Lemma wrap_if_only_attribute_error (st : stage) (b : bool) (a : node (dim := dim)) :
  only_attribute_error
    (if b then new_PyccelAssociativeParenthesis default_precision st a else Ok a).
Proof.
  destruct b; [|left; eauto].
  destruct (new_parenthesis_cases st a) as [(t & ->)| ->]; [left; eauto|right; reflexivity].
Qed.

(** The base loop followed by a clarity pass wraps an operand when either
    test asks for it. *)
Lemma clarity_pass (st : stage) (p : nat) (cls : op_kind) :
  op_kind_eqb PyccelAssociativeParenthesis cls = false ->
  forall (args : list (node (dim := dim))) (i j : nat),
    bind (mapMi (fun i a => if needs_parenthesis p (precedence a) i
                            then new_PyccelAssociativeParenthesis default_precision st a
                            else Ok a) i args)
         (mapMi (fun _ a => if isinstance a cls
                            then new_PyccelAssociativeParenthesis default_precision st a
                            else Ok a) j)
    = mapMi (fun i a => if needs_parenthesis p (precedence a) i || isinstance a cls
                        then new_PyccelAssociativeParenthesis default_precision st a
                        else Ok a) i args.
Proof.
  intros Hcls. induction args as [|a rest IH]; intros i j; [reflexivity|].
  cbn [mapMi]. rewrite <- (IH (S i) (S j)).
  destruct (needs_parenthesis p (precedence a) i) eqn:Hn; cbn [orb].
  - destruct (new_parenthesis_cases st a) as [(t & ->)| ->]; [|reflexivity].
    cbn [bind]. rewrite !bind_assoc.
    destruct (mapMi _ (S i) rest) as [rest'|e]; [|reflexivity].
    cbn [bind mapMi isinstance]. rewrite Hcls. reflexivity.
  - cbn [bind].
    pose proof (mapMi_only_attribute_error
      (fun i a => if needs_parenthesis p (precedence a) i
                  then new_PyccelAssociativeParenthesis default_precision st a
                  else Ok a) rest
      (fun i a => wrap_if_only_attribute_error st _ a) (S i)) as Hr.
    destruct Hr as [(rest' & ->)| ->]; cbn [bind mapMi]; [reflexivity|].
    destruct (wrap_if_only_attribute_error st (isinstance a cls) a) as [(y & ->)| ->];
      reflexivity.
Qed.

Lemma nat_min_from_above (p : nat) (l : list nat) :
  forall m, (nat_min_from m l <=? p) = false ->
            p < m /\ Forall (fun x => p < x) l.
Proof.
  induction l as [|x l IH]; intros m H; simpl in H.
  - apply Nat.leb_gt in H. auto.
  - destruct (IH _ H) as [Hm Hl]. destruct (Nat.ltb_spec x m); split; try constructor; auto; lia.
Qed.

Lemma precedence_loop_above (st : stage) (p : nat) (args : list (node (dim := dim))) :
  Forall (fun a => p < precedence a) args ->
  forall i, mapMi (fun i a => if needs_parenthesis p (precedence a) i
                              then new_PyccelAssociativeParenthesis default_precision st a
                              else Ok a) i args = Ok args.
Proof.
  induction 1 as [|a rest Ha _ IH]; intros i; simpl; [reflexivity|].
  unfold needs_parenthesis.
  destruct (Nat.ltb_spec (precedence a) p); [lia|].
  destruct (Nat.eqb_spec (precedence a) p); [lia|]. simpl.
  rewrite IH. reflexivity.
Qed.

(** The guard on [min(precedence)] changes nothing: below it no operand
    passes the test of the loop. *)
Lemma base_handle_precedence (st : stage) (k : op_kind) (args : list (node (dim := dim))) :
  args <> [] ->
  PyccelOperator__handle_precedence default_precision st k args
  = precedence_loop default_precision st (_precedence k) args.
Proof.
  intros Hne. unfold PyccelOperator__handle_precedence, precedence_loop.
  destruct args as [|a rest]; [congruence|]. cbn [map py_min bind].
  destruct (nat_min_from (precedence a) (map precedence rest) <=? _precedence k) eqn:Hm;
    [reflexivity|].
  destruct (nat_min_from_above _ _ _ Hm) as [Ha Hrest].
  symmetry. apply precedence_loop_above. constructor; [exact Ha|].
  rewrite Forall_map in Hrest. exact Hrest.
Qed.

(** **** C8 (as amended)

    For every operator and every non-empty list of operands, the operand
    [a] at position [i] is replaced by a parenthesis node around it exactly
    when [wraps k i a] holds: the operator is not itself a parenthesis and
    either the operand's precedence [q] (17 for operands without one) and
    the operator's precedence [p] satisfy [q < p] or [q = p] and [i <> 0], or
    the operand is a unary +/- under an arithmetic or unary +/- operator, an
    [or] under [and], or an [and] under [or].  All other operands are kept
    as they are. *)
Theorem C8_parenthesis_rule (st : stage) (k : op_kind) (args : list (node (dim := dim))) :
  args <> [] ->
  _handle_precedence default_precision st k args
  = mapMi (fun i a => if wraps k i a
                      then new_PyccelAssociativeParenthesis default_precision st a
                      else Ok a) 0 args.
Proof.
  intros Hne.
  destruct k; cbn [_handle_precedence];
    try rewrite (base_handle_precedence st _ Hne);
    unfold precedence_loop, parenthesise_instances, mapM;
    try (rewrite clarity_pass by reflexivity);
    try (apply mapMi_ext; intros i a; unfold wraps, clarity_parenthesis;
         rewrite ?orb_false_r; reflexivity).
  clear Hne. generalize 0. induction args as [|a rest IH]; intros n; simpl;
    [reflexivity|]. rewrite <- IH. reflexivity.
Qed.

(* ------------------------------------------------------------------ *)
(** ** The ternary operator *)

Lemma attrs_like_self (a : node (dim := dim)) (t : attrs (dim := dim)) :
  node_attrs a = Some t -> attrs_like t a.
Proof. intros H. exists (order t). destruct t; auto. Qed.

Lemma wrap_attrs_like (b : bool) (a : node (dim := dim)) (t : attrs (dim := dim)) :
  node_attrs a = Some t ->
  exists a', (if b then new_PyccelAssociativeParenthesis default_precision semantic a
              else Ok a) = Ok a' /\ attrs_like t a'.
Proof.
  intros H. destruct b; [|exists a; split; [reflexivity|apply attrs_like_self, H]].
  unfold new_PyccelAssociativeParenthesis, typed_node. simpl.
  unfold PyccelUnaryOperator__calculate_dtype,
    PyccelUnaryOperator__calculate_shape_rank, getattr.
  rewrite H. simpl.
  destruct (rank_gt_1 (rank t)) eqn:Hr; simpl.
  - rewrite option_ordering_eqb_refl. simpl. eexists. split; [reflexivity|].
    exists (order t). simpl. auto.
  - eexists. split; [reflexivity|]. exists None. simpl. split; [reflexivity|].
    rewrite Hr. discriminate.
Qed.

Lemma ternary_handle_precedence (c vt vf : node (dim := dim))
  (tc tt tf : attrs (dim := dim)) :
  node_attrs c = Some tc -> node_attrs vt = Some tt -> node_attrs vf = Some tf ->
  exists c' vt' vf',
    _handle_precedence default_precision semantic IfTernaryOperator [c; vt; vf]
    = Ok [c'; vt'; vf'] /\
    attrs_like tc c' /\ attrs_like tt vt' /\ attrs_like tf vf'.
Proof.
  intros Hc Ht Hf. cbn [_handle_precedence].
  rewrite base_handle_precedence by discriminate.
  unfold precedence_loop. cbn [mapMi].
  destruct (wrap_attrs_like (needs_parenthesis (_precedence IfTernaryOperator)
                               (precedence c) 0) c Hc) as (c' & -> & Hc').
  destruct (wrap_attrs_like (needs_parenthesis (_precedence IfTernaryOperator)
                               (precedence vt) 1) vt Ht) as (vt' & -> & Ht').
  destruct (wrap_attrs_like (needs_parenthesis (_precedence IfTernaryOperator)
                               (precedence vf) 2) vf Hf) as (vf' & -> & Hf').
  exists c', vt', vf'. auto.
Qed.

Lemma option_nat_eqb_eq (a b : option nat) :
  option_eqb Nat.eqb a b = true -> a = b.
Proof.
  destruct a, b; simpl; try discriminate; auto.
  intros H. apply Nat.eqb_eq in H. congruence.
Qed.

(** **** X16

    When the branches carry attributes and integer precisions, building a
    ternary operator either succeeds or ends in a fatal report, and it is
    fatal exactly under [ternary_rejects]: a branch that is [Nil] or a
    datatype object for strings, dtypes that differ with one of them not
    numeric, different ranks, different shapes, or, above rank 1, different
    orders.  The string test is the one on the class of the branch objects,
    not on their dtype. *)
Lemma ternary_fatal_iff (c vt vf : node (dim := dim)) (tc tt tf : attrs (dim := dim))
  (pt pf : Z) :
  node_attrs c = Some tc -> node_attrs vt = Some tt -> node_attrs vf = Some tf ->
  precision tt = Some pt -> precision tf = Some pf ->
  is_fatal (IfTernaryOperator__init__ default_precision semantic c vt vf)
  = ternary_rejects vt vf tt tf /\
  is_ok (IfTernaryOperator__init__ default_precision semantic c vt vf)
  = negb (ternary_rejects vt vf tt tf).
Proof.
  intros Hc Ht Hf Hpt Hpf.
  destruct (ternary_handle_precedence c vt vf Hc Ht Hf)
    as (c' & vt' & vf' & Hhp & (oc & Hc' & _) & (ot & Ht' & Hot) & (of' & Hf' & Hof)).
  unfold IfTernaryOperator__init__, PyccelOperator__init__, ternary_rejects.
  rewrite Hhp. cbn [bind].
  unfold typed_node, _calculate_dtype, _calculate_shape_rank,
    IfTernaryOperator__calculate_dtype, IfTernaryOperator__calculate_shape_rank,
    _set_order, all_order_agree, getattr, errors_report_fatal.
  rewrite Hc', Ht', Hf', Ht, Hf. cbn [bind dtype precision rank shape order fst snd].
  rewrite Hpt, Hpf. cbn [py_max py_max_from bind fst snd].
  assert (Horders : rank_gt_1 (rank tt) = true ->
                    option_eqb Nat.eqb (rank tf) (rank tt) = true ->
                    ot = order tt /\ of' = order tf).
  { intros Hrt Hrk. split; [auto|]. apply Hof.
    apply option_nat_eqb_eq in Hrk. rewrite Hrk. exact Hrt. }
  clear Hot Hof Hhp Hc' Ht' Hf' Hc Ht Hf.
  destruct (rank_gt_1 (rank tt)) eqn:Hr1;
    destruct (option_eqb Nat.eqb (rank tf) (rank tt));
    try (destruct (Horders eq_refl eq_refl); subst ot of');
    rewrite ?option_ordering_eqb_refl;
    destruct (isinstance_Nil vt || isinstance_Nil vf);
    destruct (isinstance_NativeString vt || isinstance_NativeString vf);
    destruct (datatype_eqb (dtype tt) (dtype tf));
    destruct (negb (dtype_in (dtype tt) NativeNumeric)
              || negb (dtype_in (dtype tf) NativeNumeric));
    destruct (option_eqb (list_eqb (option_eqb dim_eqb)) (shape tf) (shape tt));
    cbn; rewrite ?Hr1; cbn;
    repeat match goal with
           | |- context [option_eqb ordering_eqb ?x ?y] =>
               destruct (option_eqb ordering_eqb x y); cbn; rewrite ?Hr1; cbn
           end;
    auto.
Qed.

(* ------------------------------------------------------------------ *)
(** ** Literal folding in [PyccelAdd] and [PyccelMinus] *)

(** **** C10

    [PyccelAdd(x, c)] is not always an addition node: for an integer or
    float literal [x] and a complex literal [c] whose real part equals 0.0
    it is, in either argument order, the complex literal whose real part is
    the value of [x] (as a float, [float(n)] for an integer [n] that a float
    can hold) and whose imaginary part is the imaginary part of [c].  For a
    float literal [x], [PyccelMinus] folds in the same way, negating the
    imaginary part in [x - c] and the real part in [c - x]. *)
Theorem C10_literal_folding (st : stage) (n : Z) (v re im : float)
  (tx tc : option (attrs (dim := dim))) :
  PrimFloat.eqb re 0 = true ->
  let c := Leaf (LiteralComplex re im) tc in
  let x_float := Leaf (LiteralFloat v) tx in
  let x_int := Leaf (LiteralInteger n) tx in
  let literal (real imag : float) : result (node (dim := dim)) :=
    Ok (Leaf (LiteralComplex real imag)
             (Some (mk_attrs NativeComplex (Some (default_precision "complex"))
                             (Some 0) (Some []) None))) in
  PyccelAdd_call default_precision python_float st x_float c = literal v im /\
  PyccelAdd_call default_precision python_float st c x_float = literal v im /\
  PyccelMinus_call default_precision st x_float c = literal v (PrimFloat.opp im) /\
  PyccelMinus_call default_precision st c x_float = literal (PrimFloat.opp v) im /\
  (PrimFloat.is_infinity (python_float n) = false ->
   PyccelAdd_call default_precision python_float st x_int c
   = literal (python_float n) im /\
   PyccelAdd_call default_precision python_float st c x_int
   = literal (python_float n) im).
Proof.
  intros Hre. cbv zeta.
  unfold PyccelAdd_call, PyccelAdd__new__, add_fold, PyccelMinus_call,
    PyccelMinus__new__, minus_fold_left, minus_fold_right, new_LiteralComplex,
    eq_LiteralFloat_0.
  cbn [int_or_float_literal float_literal complex_literal].
  change PrimFloat.zero with 0%float. rewrite Hre.
  repeat split; reflexivity.
Qed.

End OperatorFacts.

(* ------------------------------------------------------------------ *)
(** ** Concrete evaluations *)

(** **** C1, the code at the failing input

    Adding an operand of shape [(3,)] and a scalar: the inferred shape is
    the empty one and the rank 0, although the broadcast of the two operand
    shapes is [(3,)]. *)
Theorem C1_first_operand_shape_ignored :
  let a := sample_var "a" NativeInteger 4 [ExtInt 3] in
  let b := sample_var "b" NativeInteger 4 [] in
  _calculate_shape_rank PyccelAdd [a; b] = Ok (Some [], Some 0) /\
  broadcast [ExtInt 3] [] = Ok [ExtInt 3] /\
  exists args,
    PyccelOperator__init__ sample_default_precision semantic PyccelAdd [a; b]
    = Ok (Op PyccelAdd args
            (Some (mk_attrs NativeInteger (Some 4%Z) (Some 0) (Some []) None))).
Proof. repeat split. eexists. reflexivity. Qed.

Lemma C2_keeps_constant_side_witness :
  nth_error [ExtInt 3] 0 = Some (if sy_is_constant (ExtInt 3) then ExtInt 3 else ExtSym "n").
Proof.
  apply (C2_keeps_constant_side [ExtInt 3] [ExtSym "n"] 0 (e1 := ExtInt 3) (e2 := ExtSym "n"));
    reflexivity.
Defined.

Lemma C3_bool_result_witness :
  _calculate_dtype sample_default_precision PyccelAnd
    [sample_var "a" NativeReal 8 [ExtInt 3]; sample_var "b" NativeReal 8 [ExtInt 3]]
  = Ok (NativeBool, Some (sample_default_precision "bool")).
Proof.
  apply (C3_bool_result sample_default_precision PyccelAnd
           [sample_var "a" NativeReal 8 [ExtInt 3]; sample_var "b" NativeReal 8 [ExtInt 3]]).
  reflexivity.
Defined.

(** **** C3, counterexample

    Comparing two operands of shape [(3,)]: the node has rank 1 and shape
    [(3,)], not rank 0. *)
Lemma C3_counterexample :
  let a := sample_var "a" NativeReal 8 [ExtInt 3] in
  let b := sample_var "b" NativeReal 8 [ExtInt 3] in
  PyccelOperator__init__ sample_default_precision semantic PyccelLt [a; b]
  = Ok (Op PyccelLt [a; b]
          (Some (mk_attrs NativeBool (Some 4%Z) (Some 1) (Some [Some (ExtInt 3)]) None)))
  /\ _calculate_shape_rank PyccelLt [a; b] <> Ok (Some [], Some 0).
Proof. split; [reflexivity|discriminate]. Qed.

(** **** C5, the code at the failing input

    A ternary operator whose two branches are string literals is built
    without any fatal report. *)
Theorem C5_string_branches_accepted :
  let cond := sample_var "c" NativeBool 4 [] in
  let value_true := sample_string "yes" in
  let value_false := sample_string "no" in
  getattr "dtype" dtype value_true = Ok NativeString /\
  getattr "dtype" dtype value_false = Ok NativeString /\
  IfTernaryOperator__init__ sample_default_precision semantic cond value_true value_false
  = Ok (Op IfTernaryOperator [cond; value_true; value_false]
          (Some (mk_attrs NativeString (Some 0%Z) (Some 0) (Some []) None))).
Proof. repeat split. Qed.

Lemma C7_promotion_witness :
  _calculate_dtype sample_default_precision PyccelAdd
    [sample_var "a" NativeInteger 32 []; sample_var "b" NativeReal 64 []]
  = Ok (NativeReal, Some 64%Z).
Proof.
  apply (C7_promotion sample_default_precision PyccelAdd
           (a := sample_var "a" NativeInteger 32 [])
           (b := sample_var "b" NativeReal 64 [])
           (p1 := 32%Z) (p2 := 64%Z) eq_refl
           (conj eq_refl eq_refl) (conj eq_refl eq_refl) eq_refl eq_refl).
Defined.

Lemma C8_parenthesis_rule_witness :
  let a := sample_var "a" NativeReal 8 [] in
  let b := sample_var "b" NativeReal 8 [] in
  _handle_precedence sample_default_precision semantic PyccelMul [a; b] = Ok [a; b].
Proof.
  intros a b.
  rewrite (C8_parenthesis_rule sample_default_precision semantic PyccelMul (args := [a; b]));
    [reflexivity|discriminate].
Defined.

(** **** C8, counterexample

    In [a * (-b)] the operand [-b] has precedence 14, above that of the
    product, and sits at position 1; it is wrapped all the same. *)
Lemma C8_counterexample :
  let a := sample_var "a" NativeReal 8 [] in
  let b := sample_var "b" NativeReal 8 [] in
  exists neg_b paren,
    PyccelOperator__init__ sample_default_precision semantic PyccelUnarySub [b] = Ok neg_b /\
    needs_parenthesis (_precedence PyccelMul) (precedence neg_b) 1 = false /\
    new_PyccelAssociativeParenthesis sample_default_precision semantic neg_b = Ok paren /\
    _handle_precedence sample_default_precision semantic PyccelMul [a; neg_b]
    = Ok [a; paren] /\
    paren <> neg_b.
Proof.
  intros a b. do 2 eexists. repeat split; try reflexivity. discriminate.
Qed.

Lemma C10_literal_folding_witness :
  let c : node (dim := extent) := Leaf (LiteralComplex 0%float 2%float) None in
  let literal (real imag : float) : result (node (dim := extent)) :=
    Ok (Leaf (LiteralComplex real imag)
             (Some (mk_attrs NativeComplex (Some 8%Z) (Some 0) (Some []) None))) in
  PyccelAdd_call sample_default_precision python_float semantic
    (Leaf (LiteralInteger (-3)) None) c
  = literal (-3)%float 2%float /\
  PyccelAdd_call sample_default_precision python_float semantic
    c (Leaf (LiteralInteger (-3)) None)
  = literal (-3)%float 2%float /\
  PyccelMinus_call sample_default_precision semantic
    (Leaf (LiteralFloat 1.5%float) None) c
  = literal 1.5%float (-2)%float /\
  PyccelMinus_call sample_default_precision semantic
    c (Leaf (LiteralFloat 1.5%float) None)
  = literal (-1.5)%float 2%float.
Proof.
  pose proof (@C10_literal_folding extent extent_oracle sample_default_precision semantic (-3)%Z
                1.5%float 0%float 2%float None None eq_refl) as H.
  cbv zeta in H. destruct H as (_ & _ & Hm1 & Hm2 & Hint).
  destruct (Hint eq_refl) as [Ha1 Ha2].
  cbv zeta. split; [exact Ha1|]. split; [exact Ha2|]. split; [exact Hm1|exact Hm2].
Defined.

(** **** C2, counterexample

    With [e1] the literal 3 and [e2] the symbol [n], exactly one side is
    constant, yet the symbolic side is not the one that is kept. *)
Lemma C2_counterexample :
  ~ (sy_eqb (ExtInt 3) (ExtSym "n") = false ->
     sy_eq_int (ExtInt 3) 1 = false ->
     sy_eq_int (ExtSym "n") 1 = false ->
     xorb (sy_is_constant (ExtInt 3)) (sy_is_constant (ExtSym "n")) = true ->
     broadcast [ExtInt 3] [ExtSym "n"] = Ok [ExtSym "n"]).
Proof.
  intros H. specialize (H eq_refl eq_refl eq_refl eq_refl). discriminate H.
Qed.

(* ================================================================== *)
(** * Properties of the generated wrappers *)

Section WrapperFacts.

Import CWrapper.

Variable create_incremented_string : list string -> string -> string.
Variable flags_registry : ctype -> Z -> option Z.
Variable str_dtype : ctype -> string.
Variable set_order : list type_entry -> list type_entry.
Variable env : environment.

Lemma exec_If (sections : list (expr * list stmt)) (fr : frame) (m : machine) :
  exec env (If sections) fr m = exec_sections env sections fr m.
Proof. reflexivity. Qed.

Lemma eval_call_generated (f : GeneratedFunctionDef) (args : list expr)
  (fr : frame) (m : machine) :
  eval env (FunctionCall (Generated f) args) fr m
  = run env f (record_call (Generated f) m).
Proof. destruct f. reflexivity. Qed.

(* ------------------------------------------------------------------ *)
(** ** Functions that are not exposed *)

Lemma existsb_local_arg_vars (args : list FunctionDefArgument) :
  existsb (fun va : argument_var * FunctionDefArgument =>
             isinstance_FunctionAddress (fst va))
    (map (fun va : argument_var * FunctionDefArgument =>
            (match fst va with
             | VariableArg v =>
                 if (0 <? rank v) || is_optional v
                 then VariableArg (clone_pointer_static v)
                 else VariableArg v
             | other => other
             end, snd va))
         (map (fun a => (var a, a)) args))
  = existsb (fun a => isinstance_FunctionAddress (var a)) args.
Proof.
  induction args as [|a rest IH]; simpl; [reflexivity|].
  rewrite IH. destruct (var a) as [v|n]; simpl; [|reflexivity].
  destruct ((0 <? rank v) || is_optional v); reflexivity.
Qed.

Lemma run_not_implemented (e : environment) (message : string) (result_var : Var)
  (n : string) (args : list Var) (m : machine) :
  run e (mk_GeneratedFunctionDef n args [result_var]
           (not_implemented_body message [result_var])) m
  = (Null, set_error "PyExc_NotImplementedError" (c_string message) m).
Proof.
  unfold run, not_implemented_body. simpl.
  rewrite String.eqb_refl. reflexivity.
Qed.

(** **** C9

    For every signature that is private or has a parameter that is a
    function, the adapter the printer builds consists of exactly three
    statements: set a [NotImplementedError] (private functions are not
    accessible, or a function cannot be passed as an argument), set the
    result to null, return it.  No argument is parsed or checked and the
    translated function is not called: running the adapter only sets the
    error and returns null. *)
Theorem C9_not_exposed (self : printer) (expr : FunctionDef) :
  is_private expr = true \/
  existsb (fun a => isinstance_FunctionAddress (var a)) (arguments expr) = true ->
  exists wrapper self' result_var,
    let message := (if is_private expr
                    then "Private functions are not accessible from python"
                    else "Cannot pass a function as an argument")%string in
    _print_FunctionDef create_incremented_string self expr = Ok (wrapper, self') /\
    body wrapper
    = [PyErr_SetString "PyExc_NotImplementedError" (c_string message);
       AliasAssign (Variable_ result_var) Nil;
       Return [Variable_ result_var]] /\
    forall (e : environment) (m : machine),
      run e wrapper m
      = (Null, set_error "PyExc_NotImplementedError" (c_string message) m).
Proof.
  intros H. unfold _print_FunctionDef.
  destruct (_get_wrapper_name _ _ _ _) as [wrapper_name self1].
  destruct (get_new_PyObject _ "args" _) as [a u1].
  destruct (get_new_PyObject _ "kwargs" _) as [k u2].
  destruct (get_new_PyObject _ "self" _) as [sf u3].
  destruct (get_new_PyObject _ "result" _) as [r u4].
  rewrite existsb_local_arg_vars.
  destruct (is_private expr) eqn:Hp.
  - do 3 eexists. split; [reflexivity|]. split; [reflexivity|].
    intros e m. apply run_not_implemented.
  - destruct H as [H|H]; [discriminate|]. rewrite H.
    do 3 eexists. split; [reflexivity|]. split; [reflexivity|].
    intros e m. apply run_not_implemented.
Qed.

(* ------------------------------------------------------------------ *)
(** ** The loops of [_print_Interface] *)

Ltac bind_inv_as H E :=
  match type of H with
  | bind ?m _ = Ok _ => destruct m eqn:E; [cbn [bind] in H | discriminate H]
  end.

Tactic Notation "bind_inv" hyp(H) "as" ident(E) := bind_inv_as H E.

Tactic Notation "bind_inv" hyp(H) "as" ident(E) "with" simple_intropattern(x) :=
  match type of H with
  | bind ?m _ = Ok _ => destruct m as [x|] eqn:E; [cbn [bind] in H | discriminate H]
  end.

Lemma get_default_assign_form (arg func_arg : Var) (d : default_value) (s : stmt) :
  get_default_assign arg func_arg d = Ok s -> is_default_assign s = true.
Proof.
  unfold get_default_assign. intros H.
  destruct (0 <? rank arg); [inversion H; reflexivity|].
  destruct (is_optional func_arg); [inversion H; reflexivity|].
  destruct (is_native_real_integer_bool (dtype arg)); [inversion H; reflexivity|].
  destruct (dtype arg); inversion H; reflexivity.
Qed.

Lemma check_type_statement_form (variable collect_var : Var) (compulsory : bool) :
  is_type_check (_get_check_type_statement variable collect_var compulsory) = true.
Proof.
  unfold _get_check_type_statement.
  destruct compulsory, (0 <? rank variable); reflexivity.
Qed.

Lemma types_dict_ok_checks (types_dict : list (Var * list type_entry)) :
  types_dict_ok flags_registry types_dict -> type_checks_only types_dict = true.
Proof.
  unfold types_dict_ok, type_checks_only.
  induction 1 as [|[k entries] rest Hk _ IH]; simpl; [reflexivity|].
  rewrite IH, andb_true_r. simpl in Hk.
  induction Hk as [|e es He _ IHe]; simpl; [reflexivity|].
  destruct He as [-> _]. exact IHe.
Qed.

Lemma types_dict_add_ok (types_dict : list (Var * list type_entry)) (key : Var)
  (entry : type_entry) :
  forall types_dict',
    types_dict_add types_dict key entry = Ok types_dict' ->
    entry_ok flags_registry key entry ->
    types_dict_ok flags_registry types_dict ->
    types_dict_ok flags_registry types_dict'.
Proof.
  unfold types_dict_ok.
  induction types_dict as [|[k entries] rest IH]; intros d' H He Hd; simpl in H.
  - discriminate.
  - inversion Hd as [|? ? Hk Hrest]; subst. simpl in Hk.
    destruct (String.eqb_spec (name k) (name key)) as [Heq|Hne].
    + inversion H; subst.
      constructor; [|exact Hrest]. simpl.
      apply Forall_app. split; [exact Hk|]. constructor; [|constructor].
      destruct He as (Hc & Hn & Hf). repeat split; auto. congruence.
    + bind_inv H as Hrec with rest'. inversion H; subst.
      constructor; [exact Hk|]. eauto.
Qed.

Lemma types_dict_add_keys (types_dict : list (Var * list type_entry)) (key : Var)
  (entry : type_entry) :
  forall types_dict',
    types_dict_add types_dict key entry = Ok types_dict' ->
    map fst types_dict' = map fst types_dict.
Proof.
  induction types_dict as [|[k entries] rest IH]; intros d' H; simpl in H.
  - discriminate.
  - destruct (String.eqb (name k) (name key)).
    + inversion H; subst. reflexivity.
    + bind_inv H as Hrec with rest'. inversion H; subst. simpl.
      f_equal. eauto.
Qed.

Lemma interface_arguments_spec (self : printer) (parse_args : list Var)
  (zipped : list (Var * (argument_var * FunctionDefArgument))) :
  forall acc l,
    Forall (fun z => same_type (fst (snd z)) (snd (snd z))) zipped ->
    interface_arguments create_incremented_string flags_registry self parse_args zipped acc
      = Ok l ->
    (exists ds, loop_defaults l = loop_defaults acc ++ ds /\
                forallb is_default_assign ds = true) /\
    fold_flags flags_registry (map (fun z => snd (snd z)) zipped) (loop_flags acc)
      = Some (loop_flags l) /\
    (types_dict_ok flags_registry (loop_types_dict acc) ->
     types_dict_ok flags_registry (loop_types_dict l)) /\
    map fst (loop_types_dict l) = map fst (loop_types_dict acc).
Proof.
  induction zipped as [|[p_arg [[f_val|fa] f_arg]] rest IH]; intros acc l Hrel H;
    simpl in H.
  - inversion H; subst. split; [exists []; rewrite app_nil_r; auto|]. repeat split; auto.
  - inversion Hrel as [|? ? Hs Hrel']; subst. simpl in Hs. unfold same_type in Hs.
    destruct (var f_arg) as [v0|] eqn:Hv; [|contradiction]. destruct Hs as [Hd Hp].
    destruct (_body_management _ _ _ _ _ _ _) as [[body tmp] used].
    bind_inv H as Hdef. bind_inv H as Hflag. bind_inv H as Hadd.
    destruct (IH _ _ Hrel' H) as [(ds & Hds & Hall) [Hflags [Htypes Hkeys]]]. cbn in *.
    assert (Hentry : entry_ok flags_registry f_val
                       (f_val, _get_check_type_statement f_val p_arg
                                 match value f_arg with
                                 | Some _ => false
                                 | None => true
                                 end, a0)).
    { split; [apply check_type_statement_form|]. split; [reflexivity|]. simpl.
      destruct (flags_registry (dtype f_val) (precision f_val)); [|discriminate].
      inversion Hflag. reflexivity. }
    split; [|split; [|split]].
    + exists (a ++ ds). rewrite Hds, app_assoc. split; [reflexivity|].
      rewrite forallb_app, Hall, andb_true_r.
      destruct (value f_arg) as [d|]; [|inversion Hdef; reflexivity].
      bind_inv Hdef as Hlast. bind_inv Hdef as Hget. inversion Hdef; subst. simpl.
      rewrite (get_default_assign_form _ _ _ Hget). reflexivity.
    + rewrite Hv, <- Hd, <- Hp.
      destruct (flags_registry (dtype f_val) (precision f_val)); [|discriminate].
      inversion Hflag; subst. exact Hflags.
    + intros Hok. apply Htypes.
      eapply types_dict_add_ok; [exact Hadd|exact Hentry|exact Hok].
    + rewrite Hkeys. eapply types_dict_add_keys, Hadd.
  - discriminate.
Qed.

Lemma local_arg_vars_same_type (func : FunctionDef) :
  Forall (fun va => same_type (fst va) (snd va)) (interface_local_arg_vars func).
Proof.
  unfold interface_local_arg_vars.
  induction (arguments func) as [|a rest IH]; simpl; constructor; auto.
  unfold same_type. simpl. destruct (var a) as [v|n]; [|exact I].
  destruct (0 <? rank v); simpl; destruct (is_optional v); simpl; auto.
Qed.

Lemma zipped_same_type {A : Type} (parse_args : list A)
  (locals : list (argument_var * FunctionDefArgument)) :
  Forall (fun va => same_type (fst va) (snd va)) locals ->
  Forall (fun z : A * (argument_var * FunctionDefArgument) =>
            same_type (fst (snd z)) (snd (snd z))) (combine parse_args locals).
Proof.
  intros H. revert parse_args.
  induction H as [|va rest Hva _ IH]; intros [|p ps]; simpl; constructor; auto.
Qed.

Lemma zipped_arguments {A : Type} (parse_args : list A) (func : FunctionDef) :
  map (fun z : A * (argument_var * FunctionDefArgument) => snd (snd z))
      (combine parse_args (interface_local_arg_vars func))
  = firstn (List.length parse_args) (arguments func).
Proof.
  unfold interface_local_arg_vars. revert parse_args.
  induction (arguments func) as [|a rest IH]; intros [|p ps]; simpl; try reflexivity.
  rewrite IH. reflexivity.
Qed.

(** The sections of the dispatcher, one per signature, in the order of the
    signatures. *)
Lemma interface_functions_spec (parse_args : list Var) (check_var result_var : Var)
  (funcs : list FunctionDef) :
  forall acc l,
    interface_functions create_incremented_string flags_registry funcs parse_args
      check_var result_var acc = Ok l ->
    exists minis keys,
      Forall2 (fun f k => type_key flags_registry (List.length parse_args) f = Some k)
              funcs keys /\
      List.length minis = List.length funcs /\
      fl_funcs_def l = fl_funcs_def acc ++ minis /\
      fl_body_tmp l
      = fl_body_tmp acc
        ++ map (fun km => dispatch_section check_var result_var parse_args
                            (fst km) (snd km)) (combine keys minis) /\
      (exists ds, fl_defaults l = fl_defaults acc ++ ds /\
                  forallb is_default_assign ds = true) /\
      (types_dict_ok flags_registry (fl_types_dict acc) ->
       types_dict_ok flags_registry (fl_types_dict l)) /\
      map fst (fl_types_dict l) = map fst (fl_types_dict acc).
Proof.
  induction funcs as [|func rest IH]; intros acc l H; simpl in H.
  - inversion H; subst. exists [], []. simpl. rewrite !app_nil_r.
    repeat split; auto. exists []. rewrite app_nil_r. auto.
  - bind_inv H as Hargs with a.
    bind_inv H as Hstatic with [[[static_function static_args] additional_body] used].
    destruct (build_results _ _ _ _) as [[[casts res_args] used'] self'].
    destruct (get_new_name _ _ _) as [mini_name ignored].
    destruct (interface_arguments_spec _ _ _
                (zipped_same_type parse_args (local_arg_vars_same_type func)) Hargs)
      as [(ds1 & Hds1 & Hall1) [Hflags [Htypes Hdict]]].
    rewrite zipped_arguments in Hflags. cbn in Hds1, Hflags, Htypes, Hdict.
    destruct (IH _ _ H)
      as (minis & keys & Hkeys & Hlen & Hdefs & Hbody & (ds & Hds & Hall) & Hok & Hdict').
    cbn in Hdefs, Hbody, Hds, Hok, Hdict'.
    eexists (_ :: minis), (loop_flags a :: keys).
    split; [constructor; [exact Hflags|exact Hkeys]|].
    split; [simpl; congruence|].
    split; [rewrite Hdefs, <- app_assoc; reflexivity|].
    split; [rewrite Hbody, <- app_assoc; reflexivity|].
    split; [|split].
    + exists (ds1 ++ ds). rewrite Hds, Hds1, app_assoc. split; [reflexivity|].
      rewrite forallb_app, Hall1, Hall. reflexivity.
    + intros Hacc. apply Hok, Htypes, Hacc.
    + congruence.
Qed.

(* ------------------------------------------------------------------ *)
(** ** Running the type check *)

Lemma exec_block_app (b1 b2 : list stmt) :
  forall fr m,
    exec_block env (b1 ++ b2) fr m
    = match exec_block env b1 fr m with
      | (Normal, fr', m') => exec_block env b2 fr' m'
      | r => r
      end.
Proof.
  induction b1 as [|s b1 IH]; intros fr m; simpl; [reflexivity|].
  destruct (exec env s fr m) as [[[|vs] fr'] m']; [apply IH|reflexivity].
Qed.

Lemma exec_default_assign (s : stmt) (fr : frame) (m : machine) :
  is_default_assign s = true -> exists fr', exec env s fr m = (Normal, fr', m).
Proof.
  destruct s as [| lhs rhs | lhs rhs | | | | | | |]; try discriminate;
    destruct lhs; try discriminate; destruct rhs; try discriminate;
    intros _; simpl; eauto.
Qed.

Lemma exec_defaults (ds : list stmt) :
  forallb is_default_assign ds = true ->
  forall fr m, exists fr', exec_block env ds fr m = (Normal, fr', m).
Proof.
  induction ds as [|s ds IH]; intros H fr m; simpl in *; [eauto|].
  apply andb_true_iff in H. destruct H as [Hs Hds].
  destruct (exec_default_assign s fr m Hs) as [fr1 ->]. apply IH, Hds.
Qed.

(** A type check reads neither the frame nor the machine. *)
Lemma eval_type_check (e : expr) (fr : frame) (m : machine) :
  is_type_check e = true ->
  exists x, eval env e fr m = (x, m) /\ truthy env x = passes env e.
Proof.
  unfold is_type_check, passes. intros H.
  destruct e; try discriminate H; try (simpl; eauto; fail).
  simpl in H. destruct e; try discriminate H.
  apply andb_true_iff in H. destruct H as [Hd Hc].
  destruct e1; try discriminate Hd.
  - destruct e1; try discriminate Hd.
    destruct e2; try discriminate Hc; simpl;
      destruct (negb (holds env (VariableAddress v))); simpl; eauto.
  - destruct e1_1; try discriminate Hd. destruct e1_2; try discriminate Hd.
    destruct e2; try discriminate Hc; simpl;
      destruct (holds env (PyccelEq (VariableAddress v) (VariableAddress v0)));
      simpl; eauto.
Qed.

Lemma check_sections_run (check_var : Var) (shift key : Z) (message : string)
  (entries : list type_entry) (fr : frame) (m : machine) :
  forallb (fun elem : type_entry => is_type_check (snd (fst elem))) entries = true ->
  local fr (name check_var) = Some (IntValue key) ->
  exec_sections env
    (check_sections check_var shift entries
     ++ [(LiteralTrue,
          [PyErr_SetString "PyExc_TypeError" message; Return [LiteralInteger 0]])])
    fr m
  = match find (fun elem : type_entry => passes env (snd (fst elem))) entries with
    | Some elem =>
        (Normal, (name check_var, IntValue (key + Z.shiftl (snd elem) shift)) :: fr, m)
    | None => (Returned [IntValue 0], fr, set_error "PyExc_TypeError" message m)
    end.
Proof.
  intros Hall Hloc. induction entries as [|[[v c] flag] rest IH]; simpl in *.
  - reflexivity.
  - apply andb_true_iff in Hall. destruct Hall as [Hc Hrest].
    destruct (eval_type_check c fr m Hc) as (x & -> & Hx). rewrite Hx.
    destruct (passes env c); [|apply IH, Hrest].
    simpl. rewrite Hloc. reflexivity.
Qed.

(** The sort by precision *)

Lemma insert_by_perm {A : Type} (key : A -> Z) (x : A) (l : list A) :
  Permutation (insert_by key x l) (x :: l).
Proof.
  induction l as [|y l IH]; simpl; [reflexivity|].
  destruct (key x <=? key y)%Z; [reflexivity|].
  rewrite IH. apply perm_swap.
Qed.

Lemma sort_by_perm {A : Type} (key : A -> Z) (l : list A) :
  Permutation (sort_by key l) l.
Proof.
  induction l as [|x l IH]; simpl; [reflexivity|].
  rewrite insert_by_perm. constructor. exact IH.
Qed.

Lemma insert_by_sorted {A : Type} (key : A -> Z) (x : A) (l : list A) :
  StronglySorted (fun a b => (key a <= key b)%Z) l ->
  StronglySorted (fun a b => (key a <= key b)%Z) (insert_by key x l).
Proof.
  induction 1 as [|y l Hl IH Hy]; simpl.
  - constructor; constructor.
  - destruct (Z.leb_spec (key x) (key y)).
    + constructor; [constructor; assumption|].
      constructor; [assumption|].
      eapply Forall_impl; [|exact Hy]. simpl. intros; lia.
    + constructor; [exact IH|].
      eapply Permutation_Forall; [symmetry; apply insert_by_perm|].
      constructor; [lia|exact Hy].
Qed.

Lemma sort_by_sorted {A : Type} (key : A -> Z) (l : list A) :
  StronglySorted (fun a b => (key a <= key b)%Z) (sort_by key l).
Proof.
  induction l as [|x l IH]; simpl; [constructor|].
  apply insert_by_sorted, IH.
Qed.

(** A set is iterated over its elements, whatever their order and however
    equal elements were merged. *)
Hypothesis set_order_elements :
  forall (l : list type_entry) (x : type_entry), In x (set_order l) <-> In x l.

Lemma sorted_entries_In (entries : list type_entry) (x : type_entry) :
  In x (sorted_entries set_order entries) <-> In x entries.
Proof.
  unfold sorted_entries. rewrite <- (set_order_elements entries x).
  split; apply Permutation_in; [|apply Permutation_sym]; apply sort_by_perm.
Qed.

Lemma positions_type_checks (types_dict : list (Var * list type_entry)) :
  type_checks_only types_dict = true ->
  forallb (forallb (fun elem : type_entry => is_type_check (snd (fst elem))))
          (positions_of set_order types_dict) = true.
Proof.
  unfold type_checks_only, positions_of.
  induction types_dict as [|[k entries] rest IH]; simpl; [reflexivity|].
  intros H. apply andb_true_iff in H. destruct H as [He Hr].
  assert (Hs : forallb (fun elem : type_entry => is_type_check (snd (fst elem)))
                       (sorted_entries set_order entries) = true).
  { apply forallb_forall. intros x Hx.
    apply (proj1 (sorted_entries_In entries x)) in Hx.
    exact (proj1 (forallb_forall _ _) He x Hx). }
  rewrite Hs. simpl.
  apply IH, Hr.
Qed.

Lemma check_arguments_run (check_var : Var) (positions : list (list type_entry)) :
  forall shift key fr m,
    forallb (forallb (fun elem : type_entry => is_type_check (snd (fst elem))))
            positions = true ->
    local fr (name check_var) = Some (IntValue key) ->
    exists fr',
      exec_block env (check_arguments str_dtype check_var shift positions
                      ++ [Return [Variable_ check_var]]) fr m
      = match dispatch_key env shift positions key with
        | inl k => (Returned [IntValue k], fr', m)
        | inr entries =>
            (Returned [IntValue 0], fr',
             set_error "PyExc_TypeError" (type_error_message str_dtype entries) m)
        end.
Proof.
  induction positions as [|entries rest IH]; intros shift key fr m Hall Hloc.
  - exists fr. simpl. rewrite Hloc. reflexivity.
  - simpl in Hall. apply andb_true_iff in Hall. destruct Hall as [He Hr].
    cbn [check_arguments app exec_block dispatch_key].
    unfold check_argument. rewrite exec_If.
    rewrite (check_sections_run check_var shift _ _ fr m He Hloc).
    destruct (find _ entries) as [elem|]; [|eauto].
    apply IH; [exact Hr|]. simpl. rewrite String.eqb_refl. reflexivity.
Qed.

(** What the type check function computes: the dispatch key, or 0 and a
    [TypeError] for the first argument that passes none of its checks. *)
Lemma run_type_check (self : printer) (check_var : Var) (parse_args : list Var)
  (types_dict : list (Var * list type_entry)) (used_names : list string)
  (first_name : string) (m : machine) :
  type_checks_only types_dict = true ->
  run env (fst (_create_wrapper_check create_incremented_string str_dtype set_order
                  self check_var parse_args types_dict used_names first_name)) m
  = match dispatch_key env (first_shift types_dict)
                       (positions_of set_order types_dict) 0 with
    | inl k => (IntValue k, m)
    | inr entries =>
        (IntValue 0,
         set_error "PyExc_TypeError" (type_error_message str_dtype entries) m)
    end.
Proof.
  intros Hok. unfold _create_wrapper_check.
  destruct (get_new_name _ _ _) as [check_func_name ignored].
  unfold run. cbn [fst body app exec_block].
  change (exec env (Assign (Variable_ check_var) (LiteralInteger 0)) [] m)
    with (Normal, [(name check_var, IntValue 0)], m).
  cbv iota beta.
  destruct (@check_arguments_run check_var (positions_of set_order types_dict)
              (first_shift types_dict) 0%Z [(name check_var, IntValue 0)] m
              (positions_type_checks _ Hok)) as [fr' ->].
  { simpl. rewrite String.eqb_refl. reflexivity. }
  destruct (dispatch_key _ _ _ _); reflexivity.
Qed.

(* ------------------------------------------------------------------ *)
(** ** Running the dispatcher *)

Lemma eval_check_eq (check_var : Var) (k key : Z) (fr : frame) (m : machine) :
  local fr (name check_var) = Some (IntValue k) ->
  eval env (PyccelEq (Variable_ check_var) (LiteralInteger key)) fr m
  = (of_bool (k =? key)%Z, m).
Proof. intros H. simpl. rewrite H. reflexivity. Qed.

Lemma eval_not_check (check_var : Var) (k : Z) (fr : frame) (m : machine) :
  local fr (name check_var) = Some (IntValue k) ->
  eval env (PyccelNot (Variable_ check_var)) fr m = (of_bool (k =? 0)%Z, m).
Proof. intros H. simpl. rewrite H. simpl. rewrite negb_involutive. reflexivity. Qed.

Lemma truthy_of_bool (b : bool) : truthy env (of_bool b) = b.
Proof. destruct b; reflexivity. Qed.

Lemma dispatch_sections_run (check_var result_var : Var) (parse_args : list Var)
  (k : Z) (rest : list (expr * list stmt)) (kms : list (Z * GeneratedFunctionDef)) :
  forall fr m,
    local fr (name check_var) = Some (IntValue k) ->
    exec_sections env
      (map (fun km => dispatch_section check_var result_var parse_args (fst km) (snd km))
           kms ++ rest) fr m
    = match find (fun km : Z * GeneratedFunctionDef => (k =? fst km)%Z) kms with
      | Some km =>
          let '(x, m') := run env (snd km) (record_call (Generated (snd km)) m) in
          (Normal, (name result_var, x) :: fr, m')
      | None => exec_sections env rest fr m
      end.
Proof.
  induction kms as [|[key mini] kms IH]; intros fr m Hloc; [reflexivity|].
  cbn [map app fst snd find dispatch_section exec_sections].
  rewrite (eval_check_eq _ key _ m Hloc), truthy_of_bool.
  destruct (k =? key)%Z; [|apply IH, Hloc].
  cbn [exec_block].
  change (exec env (AliasAssign (Variable_ result_var)
                      (FunctionCall (Generated mini) (map Variable_ parse_args))) fr m)
    with (let '(x, m') := eval env (FunctionCall (Generated mini)
                                      (map Variable_ parse_args)) fr m in
          (Normal, assign (Variable_ result_var) x fr, m')).
  rewrite eval_call_generated. cbn [fst snd].
  destruct (run env mini _) as [x m']. reflexivity.
Qed.

Lemma exec_parse_guard (pyarg pykwarg : Var) (c_func_args : list FunctionDefArgument)
  (parse_args : list Var) (kw : PyArgKeywords) (fr : frame) (m : machine) :
  exec env (If [(PyccelNot (PyArg_ParseTupleNode pyarg pykwarg c_func_args parse_args kw),
                 [Return [Nil]])]) fr m
  = if parse_succeeds env then (Normal, fr, m) else (Returned [Null], fr, m).
Proof. simpl. destruct (parse_succeeds env); reflexivity. Qed.

Lemma exec_assign_call (v : Var) (f : GeneratedFunctionDef) (args : list expr)
  (fr : frame) (m : machine) :
  exec env (Assign (Variable_ v) (FunctionCall (Generated f) args)) fr m
  = let '(x, m') := run env f (record_call (Generated f) m) in
    (Normal, (name v, x) :: fr, m').
Proof.
  change (exec env (Assign (Variable_ v) (FunctionCall (Generated f) args)) fr m)
    with (let '(x, m') := eval env (FunctionCall (Generated f) args) fr m in
          (Normal, assign (Variable_ v) x fr, m')).
  rewrite eval_call_generated. reflexivity.
Qed.

(** The dispatcher on a call whose arguments parse: it returns null when
    the type check returns 0, and otherwise calls the selected signature,
    or raises when no type key equals the dispatch key. *)
Lemma dispatcher_run (n : string) (args res : list Var) (kw : PyArgKeywords)
  (defaults : list stmt) (pyarg pykwarg : Var) (c_func_args : list FunctionDefArgument)
  (parse_args : list Var) (check_var result_var : Var)
  (check_def : GeneratedFunctionDef) (keys : list Z)
  (minis : list GeneratedFunctionDef) (m m1 : machine) (k : Z) :
  forallb is_default_assign defaults = true ->
  parse_succeeds env = true ->
  run env check_def (record_call (Generated check_def) m) = (IntValue k, m1) ->
  run env (mk_GeneratedFunctionDef n args res
             (dispatcher_body kw defaults
                (PyArg_ParseTupleNode pyarg pykwarg c_func_args parse_args kw)
                check_var result_var check_def parse_args
                (map (fun km => dispatch_section check_var result_var parse_args
                                  (fst km) (snd km)) (combine keys minis)))) m
  = if (k =? 0)%Z then (Null, m1)
    else match selected k keys minis with
         | Some mini => run env mini (record_call (Generated mini) m1)
         | None => (Null, set_error "PyExc_TypeError"
                            (c_string "Arguments combinations don't exist") m1)
         end.
Proof.
  intros Hdef Hparse Hcheck. unfold run at 1, dispatcher_body. cbn [body].
  rewrite exec_block_app. cbn [exec_block exec].
  rewrite exec_block_app.
  destruct (exec_defaults defaults Hdef [] m) as [fr Hfr]. rewrite Hfr.
  cbn [app exec_block]. rewrite exec_parse_guard, Hparse.
  rewrite exec_assign_call, Hcheck. rewrite exec_If. cbn [app exec_sections].
  assert (Hloc : local ((name check_var, IntValue k) :: fr) (name check_var)
                 = Some (IntValue k)).
  { simpl. rewrite String.eqb_refl. reflexivity. }
  rewrite (eval_not_check _ _ m1 Hloc), truthy_of_bool.
  destruct (k =? 0)%Z; [reflexivity|].
  rewrite (dispatch_sections_run _ _ _ _ _ _ m1 Hloc). unfold selected.
  destruct (find _ (combine keys minis)) as [[key mini]|]; cbn [option_map snd].
  - destruct (run env mini _) as [x m']. simpl. rewrite String.eqb_refl. reflexivity.
  - reflexivity.
Qed.

Lemma dispatcher_run_unparsed (n : string) (args res : list Var) (kw : PyArgKeywords)
  (defaults : list stmt) (pyarg pykwarg : Var) (c_func_args : list FunctionDefArgument)
  (parse_args : list Var) (check_var result_var : Var)
  (check_def : GeneratedFunctionDef) (sections : list (expr * list stmt))
  (m : machine) :
  forallb is_default_assign defaults = true ->
  parse_succeeds env = false ->
  run env (mk_GeneratedFunctionDef n args res
             (dispatcher_body kw defaults
                (PyArg_ParseTupleNode pyarg pykwarg c_func_args parse_args kw)
                check_var result_var check_def parse_args sections)) m
  = (Null, m).
Proof.
  intros Hdef Hparse. unfold run, dispatcher_body. cbn [body].
  rewrite exec_block_app. cbn [exec_block exec].
  rewrite exec_block_app.
  destruct (exec_defaults defaults Hdef [] m) as [fr Hfr]. rewrite Hfr.
  cbn [app exec_block]. rewrite exec_parse_guard, Hparse. reflexivity.
Qed.

(* ------------------------------------------------------------------ *)
(** ** The functions [_print_Interface] builds *)

Lemma parse_arguments_length (args : list FunctionDefArgument) :
  forall used_names parse_args used_names',
    parse_arguments create_incremented_string args used_names
      = Ok (parse_args, used_names') ->
    List.length parse_args = List.length args.
Proof.
  induction args as [|a rest IH]; intros u ps u' H; simpl in H.
  - inversion H. reflexivity.
  - destruct (var a); [|discriminate].
    destruct (get_PyArgParseType _ _ _) as [cv u1].
    bind_inv H as Hrest with [ps' u2]. inversion H; subst. simpl.
    f_equal. eapply IH, Hrest.
Qed.

Lemma empty_types_dict_ok (vars : list Var) :
  types_dict_ok flags_registry (map (fun v : Var => (v, @nil type_entry)) vars).
Proof.
  unfold types_dict_ok. induction vars; simpl; constructor; auto.
Qed.

(** The shape of the result: the helper of every signature, the type check
    function, and the dispatcher with one section per signature. *)
Lemma print_Interface_shape (self : printer) (expr : Interface)
  (defs : list GeneratedFunctionDef) (self' : printer) :
  _print_Interface create_incremented_string flags_registry str_dtype set_order self expr
    = Ok (defs, self') ->
  exists first minis keys wrapper_name wrapper_args kw defaults pyarg pykwarg parse_args
         check_var result_var types_dict self1 used_names,
    nth_error (functions expr) 0 = Some first /\
    defs = minis
           ++ [fst (_create_wrapper_check create_incremented_string str_dtype set_order
                      self1 check_var parse_args types_dict used_names (func_name first));
               mk_GeneratedFunctionDef wrapper_name wrapper_args [result_var]
                 (dispatcher_body kw defaults
                    (PyArg_ParseTupleNode pyarg pykwarg (arguments first) parse_args kw)
                    check_var result_var
                    (fst (_create_wrapper_check create_incremented_string str_dtype
                            set_order self1 check_var parse_args types_dict used_names
                            (func_name first)))
                    parse_args
                    (map (fun km => dispatch_section check_var result_var parse_args
                                      (fst km) (snd km)) (combine keys minis)))] /\
    Forall2 (fun f k => type_key flags_registry (List.length (arguments first)) f = Some k)
            (functions expr) keys /\
    List.length minis = List.length (functions expr) /\
    forallb is_default_assign defaults = true /\
    types_dict_ok flags_registry types_dict /\
    map fst types_dict = argument_variables (arguments first).
Proof.
  unfold _print_Interface. intros H.
  destruct (_get_wrapper_name _ _ _ _) as [wrapper_name self0].
  destruct (get_new_PyObject _ "args" _) as [a u1].
  destruct (get_new_PyObject _ "kwargs" _) as [kwargs u2].
  destruct (get_new_PyObject _ "self" _) as [sf u3].
  destruct (get_new_PyObject _ "result" _) as [r u4].
  bind_inv H as Hfirst with first.
  destruct (get_new_name _ u4 "kwlist") as [kwn u5].
  destruct (get_new_name _ u5 "check") as [cn u6].
  bind_inv H as Hparse with [parse_args u7].
  bind_inv H as Hloop with l.
  destruct (_create_wrapper_check _ _ _ _ _ _ _ _ _) as [check_def self2] eqn:Hcheck.
  inversion H; subst; clear H.
  apply interface_functions_spec in Hloop.
  destruct Hloop
    as (minis & keys & Hkeys & Hlen & Hdefs & Hbody & (ds & Hds & Hall) & Hok & Hdict).
  cbn in Hdefs, Hbody, Hds, Hok, Hdict.
  apply parse_arguments_length in Hparse. rewrite Hparse in Hkeys.
  exists first, minis, keys, wrapper_name, [sf; a; kwargs].
  eexists _, ds, a, kwargs, parse_args, _, r, (fl_types_dict l), (fl_self l), (fl_used_names l).
  rewrite Hcheck. cbn [fst].
  split. { unfold nth_arg in Hfirst. destruct (nth_error (functions expr) 0);
           inversion Hfirst; reflexivity. }
  split. { rewrite Hdefs, Hbody, Hds. reflexivity. }
  split; [exact Hkeys|]. split; [exact Hlen|]. split; [exact Hall|].
  split; [apply Hok, empty_types_dict_ok|].
  rewrite Hdict, map_map. simpl. apply map_id.
Qed.

Lemma selected_first (k : Z) (keys : list Z) :
  forall (minis : list GeneratedFunctionDef) (i : nat) (mini : GeneratedFunctionDef),
    nth_error keys i = Some k ->
    (forall j, j < i -> nth_error keys j <> Some k) ->
    nth_error minis i = Some mini ->
    selected k keys minis = Some mini.
Proof.
  unfold selected.
  induction keys as [|key keys IH]; intros minis i mini Hk Hfirst Hm.
  - destruct i; discriminate Hk.
  - destruct minis as [|mini0 minis]; [destruct i; discriminate Hm|].
    destruct i as [|i]; simpl in *.
    + inversion Hk; inversion Hm; subst. rewrite Z.eqb_refl. reflexivity.
    + destruct (Z.eqb_spec k key) as [->|Hne].
      * exfalso. apply (Hfirst 0); [lia|reflexivity].
      * apply (IH minis i mini Hk); [|exact Hm].
        intros j Hj. apply (Hfirst (S j)). lia.
Qed.

(** **** C4 (as amended)

    In the generated dispatcher the sections are tried in the order in which
    the signatures were registered: a call whose dispatch key (the non-zero
    value the type check returns) equals the type key of some signature
    invokes the helper of the earliest-registered signature with that key,
    and returns what that helper returns.  When two signatures share a type
    key it is therefore the earlier one that is invoked. *)
Theorem C4_earlier_signature_wins (self : printer) (expr : Interface)
  (defs : list GeneratedFunctionDef) (self' : printer) :
  _print_Interface create_incremented_string flags_registry str_dtype set_order self expr
    = Ok (defs, self') ->
  exists first minis check_def wrapper keys,
    nth_error (functions expr) 0 = Some first /\
    defs = minis ++ [check_def; wrapper] /\
    List.length minis = List.length (functions expr) /\
    Forall2 (fun f k => type_key flags_registry (List.length (arguments first)) f = Some k)
            (functions expr) keys /\
    forall (m m1 : machine) (k : Z) (i : nat) (mini : GeneratedFunctionDef),
      parse_succeeds env = true ->
      run env check_def (record_call (Generated check_def) m) = (IntValue k, m1) ->
      k <> 0%Z ->
      nth_error keys i = Some k ->
      (forall j, j < i -> nth_error keys j <> Some k) ->
      nth_error minis i = Some mini ->
      run env wrapper m = run env mini (record_call (Generated mini) m1).
Proof.
  intros H.
  apply print_Interface_shape in H.
  destruct H
    as (first & minis & keys & wn & wa & kw & ds & pa & pk & parse_args & cv & rv
        & td & s1 & un & Hfirst & Hdefs & Hkeys & Hlen & Hall & Hok & Hdict).
  exists first, minis. do 2 eexists. exists keys.
  split; [exact Hfirst|]. split; [exact Hdefs|]. split; [exact Hlen|].
  split; [exact Hkeys|].
  intros m m1 k i mini Hparse Hcheck Hk Hi Hfirst_i Hmini.
  erewrite dispatcher_run by eassumption.
  destruct (Z.eqb_spec k 0); [contradiction|].
  erewrite selected_first by eassumption. reflexivity.
Qed.

Lemma positions_sorted (types_dict : list (Var * list type_entry)) :
  Forall (StronglySorted (fun a b : type_entry =>
                            (precision (fst (fst a)) <= precision (fst (fst b)))%Z))
         (positions_of set_order types_dict).
Proof.
  unfold positions_of. apply Forall_map, Forall_forall. intros kv _.
  unfold sorted_entries.
  apply (sort_by_sorted (fun elem : type_entry => precision (fst (fst elem)))).
Qed.

Lemma wrapper_check_body (self : printer) (check_var : Var) (parse_args : list Var)
  (types_dict : list (Var * list type_entry)) (used_names : list string)
  (first_name : string) :
  body (fst (_create_wrapper_check create_incremented_string str_dtype set_order
               self check_var parse_args types_dict used_names first_name))
  = [Assign (Variable_ check_var) (LiteralInteger 0)]
    ++ check_arguments str_dtype check_var (first_shift types_dict)
                       (positions_of set_order types_dict)
    ++ [Return [Variable_ check_var]].
Proof.
  unfold _create_wrapper_check. destruct (get_new_name _ _ _). reflexivity.
Qed.

(* ------------------------------------------------------------------ *)
(** ** The entries of the type check *)

Lemma filter_filed_snoc (key : Var) (entries : list type_entry) (f_val : Var)
  (check : expr) (flag : Z) :
  filter (filed_at key) (entries ++ [(f_val, check, flag)])
  = if String.eqb (name key) (name f_val)
    then filter (filed_at key) entries ++ [(f_val, check, flag)]
    else filter (filed_at key) entries.
Proof.
  rewrite filter_app. simpl.
  change (filed_at key (f_val, check, flag)) with (String.eqb (name key) (name f_val)).
  destruct (String.eqb (name key) (name f_val)); [reflexivity|apply app_nil_r].
Qed.

Lemma types_dict_add_filed (keys : list Var) :
  forall (entries : list type_entry) (f_val : Var) (check : expr) (flag : Z)
         (types_dict' : list (Var * list type_entry)),
    NoDup (map name keys) ->
    types_dict_add (filed_under keys entries) f_val (f_val, check, flag) = Ok types_dict' ->
    types_dict' = filed_under keys (entries ++ [(f_val, check, flag)]).
Proof.
  unfold filed_under.
  induction keys as [|k rest IH]; intros es f_val check flag td' Hnd H; simpl in H.
  - discriminate.
  - inversion Hnd as [|? ? Hnotin Hnd']; subst. cbn [map].
    rewrite filter_filed_snoc.
    destruct (String.eqb_spec (name k) (name f_val)) as [Heq|Hne].
    + inversion H; subst. f_equal.
      apply map_ext_in. intros k' Hin. f_equal. rewrite filter_filed_snoc.
      destruct (String.eqb_spec (name k') (name f_val)) as [E|_]; [|reflexivity].
      exfalso. apply Hnotin. rewrite Heq, <- E. apply in_map, Hin.
    + bind_inv H as Hrec with rest'. inversion H; subst. f_equal.
      eapply IH; eassumption.
Qed.

Lemma interface_arguments_filed (keys : list Var) (self : printer)
  (parse_args : list Var) (zipped : list (Var * (argument_var * FunctionDefArgument))) :
  NoDup (map name keys) ->
  forall acc l entries,
    loop_types_dict acc = filed_under keys entries ->
    interface_arguments create_incremented_string flags_registry self parse_args zipped acc
      = Ok l ->
    loop_types_dict l
    = filed_under keys (entries ++ flat_map (argument_entry flags_registry) zipped) /\
    Forall (fun z => argument_entry flags_registry z <> []) zipped.
Proof.
  intros Hnd.
  induction zipped as [|[p_arg [[f_val|fa] f_arg]] rest IH]; intros acc l es Hacc H;
    simpl in H.
  - inversion H; subst. simpl. rewrite app_nil_r. split; [exact Hacc|constructor].
  - destruct (_body_management _ _ _ _ _ _ _) as [[body tmp] used].
    bind_inv H as Hdef. bind_inv H as Hflag with flag. bind_inv H as Hadd with td.
    rewrite Hacc in Hadd. apply types_dict_add_filed in Hadd; [|exact Hnd].
    subst td. eapply IH in H; [|reflexivity]. destruct H as [Hl Hall].
    assert (Hentry : argument_entry flags_registry (p_arg, (VariableArg f_val, f_arg))
                     = [(f_val,
                         _get_check_type_statement f_val p_arg
                           (match value f_arg with None => true | Some _ => false end),
                         flag)]).
    { unfold argument_entry. simpl.
      destruct (flags_registry (dtype f_val) (precision f_val)); [|discriminate].
      inversion Hflag. reflexivity. }
    split.
    + rewrite Hl. cbn [flat_map]. rewrite Hentry, <- app_assoc. reflexivity.
    + constructor; [rewrite Hentry; discriminate|exact Hall].
  - discriminate.
Qed.

Lemma interface_functions_filed (keys : list Var) (parse_args : list Var)
  (check_var result_var : Var) (funcs : list FunctionDef) :
  NoDup (map name keys) ->
  forall acc l entries,
    fl_types_dict acc = filed_under keys entries ->
    interface_functions create_incremented_string flags_registry funcs parse_args
      check_var result_var acc = Ok l ->
    fl_types_dict l
    = filed_under keys
        (entries ++ flat_map (signature_entries flags_registry parse_args) funcs) /\
    Forall (fun func =>
              Forall (fun z => argument_entry flags_registry z <> [])
                     (combine parse_args (interface_local_arg_vars func))) funcs.
Proof.
  intros Hnd.
  induction funcs as [|func rest IH]; intros acc l es Hacc H; simpl in H.
  - inversion H; subst. simpl. rewrite app_nil_r. split; [exact Hacc|constructor].
  - bind_inv H as Hargs with a.
    bind_inv H as Hstatic with [[[static_function static_args] additional_body] used].
    destruct (build_results _ _ _ _) as [[[casts res_args] used'] self'].
    destruct (get_new_name _ _ _) as [mini_name ignored].
    eapply interface_arguments_filed in Hargs; [|exact Hnd|exact Hacc].
    destruct Hargs as [Ha Hall].
    eapply IH in H; [|exact Ha]. destruct H as [Hl Hrest].
    split.
    + rewrite Hl. cbn [flat_map]. unfold signature_entries at 2.
      rewrite <- app_assoc. reflexivity.
    + constructor; assumption.
Qed.

Lemma parse_arguments_variables (args : list FunctionDefArgument) :
  forall used_names parse_args used_names',
    parse_arguments create_incremented_string args used_names
      = Ok (parse_args, used_names') ->
    map var args = map VariableArg (argument_variables args).
Proof.
  induction args as [|a rest IH]; intros used pa used' H; simpl in H.
  - reflexivity.
  - unfold argument_variables. simpl. destruct (var a) as [v|]; [|discriminate].
    destruct (get_PyArgParseType _ _ _) as [c u].
    bind_inv H as Hrec with [pa' u']. simpl. f_equal. eapply IH, Hrec.
Qed.

Lemma combine_In_snd {A B : Type} (l1 : list A) :
  forall (l2 : list B) (y : B),
    List.length l1 = List.length l2 -> In y l2 -> exists x, In (x, y) (combine l1 l2).
Proof.
  induction l1 as [|a l1 IH]; intros [|b l2] y Hlen Hin; simpl in *;
    try contradiction; try discriminate.
  destruct Hin as [->|Hin]; [eauto|].
  destruct (IH l2 y) as [x Hx]; [lia|exact Hin|eauto].
Qed.

(** Every parameter of the first signature has an admissible entry, the
    one the first signature itself contributes. *)
Lemma admissible_entries_first (parse_args : list Var) (funcs : list FunctionDef)
  (first : FunctionDef) (p : Var) :
  nth_error funcs 0 = Some first ->
  List.length parse_args = List.length (arguments first) ->
  map var (arguments first) = map VariableArg (argument_variables (arguments first)) ->
  Forall (fun z => argument_entry flags_registry z <> [])
         (combine parse_args (interface_local_arg_vars first)) ->
  In p (argument_variables (arguments first)) ->
  admissible_entries flags_registry parse_args funcs p <> [].
Proof.
  intros Hfirst Hlen Hvars Hall Hp.
  destruct funcs as [|f rest]; [discriminate|]. inversion Hfirst; subst f.
  assert (Ha : exists a, In a (arguments first) /\ var a = VariableArg p).
  { assert (Hin : In (VariableArg p) (map var (arguments first))).
    { rewrite Hvars. apply in_map, Hp. }
    apply in_map_iff in Hin. destruct Hin as (a & Hva & Hin). eauto. }
  destruct Ha as (a & Hin & Hva).
  assert (Hloc : exists v, name v = name p /\
                           In (VariableArg v, a) (interface_local_arg_vars first)).
  { unfold interface_local_arg_vars.
    eexists. split; [|apply in_map_iff; exists a; split; [rewrite Hva; reflexivity|exact Hin]].
    destruct (0 <? rank p); simpl; destruct (is_optional p); reflexivity. }
  destruct Hloc as (v & Hname & Hloc).
  destruct (@combine_In_snd _ _ parse_args (interface_local_arg_vars first)
              (VariableArg v, a)) as [p_arg Hz]; [|exact Hloc|].
  { unfold interface_local_arg_vars. rewrite length_map. exact Hlen. }
  pose proof (proj1 (Forall_forall _ _) Hall _ Hz) as Hne.
  unfold argument_entry in Hne. cbn [fst snd] in Hne.
  destruct (flags_registry (dtype v) (precision v)) as [flag|] eqn:Hflag;
    [|contradiction Hne; reflexivity].
  assert (Hentry : In (v, _get_check_type_statement v p_arg
                            (match value a with None => true | Some _ => false end), flag)
                      (admissible_entries flags_registry parse_args (first :: rest) p)).
  { unfold admissible_entries. apply filter_In. split.
    - cbn [flat_map]. apply in_or_app. left. unfold signature_entries.
      apply in_flat_map. eexists. split; [exact Hz|].
      unfold argument_entry. cbn [fst snd]. rewrite Hflag. left. reflexivity.
    - unfold filed_at. cbn [fst]. rewrite Hname. apply String.eqb_refl. }
  intros E. rewrite E in Hentry. exact Hentry.
Qed.

Lemma last_all_equal {A : Type} (l : list A) (a d : A) :
  l <> [] -> Forall (fun x => x = a) l -> last l d = a.
Proof.
  induction l as [|x [|y l'] IH]; intros Hne Hall.
  - contradiction.
  - inversion Hall; subst. reflexivity.
  - inversion Hall; subst. change (last (y :: l') d = a). apply IH; [discriminate|assumption].
Qed.

(** The message of the type check names the parameter the entries are
    filed under, and lists the types of the entries. *)
Lemma type_error_message_names (p : Var) (entries : list type_entry) :
  entries <> [] ->
  Forall (fun entry => filed_at p entry = true) entries ->
  type_error_message str_dtype entries
  = (dquote
     ++ (name p ++ " must be "
         ++ join " or "
              (map (fun entry : type_entry =>
                      match dtype (fst (fst entry)) with
                      | Native NativeBool => str_dtype (dtype (fst (fst entry)))
                      | _ => str_int (precision (fst (fst entry)) * 8) ++ " bit "
                             ++ str_dtype (dtype (fst (fst entry)))
                      end) entries))
     ++ dquote)%string.
Proof.
  intros Hne Hall. unfold type_error_message, c_string.
  rewrite (@last_all_equal _ _ (name p)).
  - rewrite map_map. unfold type_text. reflexivity.
  - destruct entries; [contradiction|discriminate].
  - apply Forall_map. revert Hall. apply Forall_impl. intros e He.
    unfold filed_at in He. apply String.eqb_eq in He. symmetry. exact He.
Qed.

(** The type check fails at the first position none of whose entries
    passes. *)
Lemma dispatch_key_rejects (positions : list (list type_entry)) :
  forall (j : nat) (entries : list type_entry) (shift key : Z),
    nth_error positions j = Some entries ->
    (forall i earlier, i < j -> nth_error positions i = Some earlier ->
                       existsb (fun e : type_entry => passes env (snd (fst e))) earlier
                       = true) ->
    existsb (fun e : type_entry => passes env (snd (fst e))) entries = false ->
    dispatch_key env shift positions key = inr entries.
Proof.
  induction positions as [|es rest IH]; intros j entries shift key Hj Hbefore Hnone.
  - destruct j; discriminate Hj.
  - destruct j as [|j]; simpl in *.
    + inversion Hj; subst.
      destruct (find _ entries) as [elem|] eqn:Hfind; [|reflexivity].
      apply find_some in Hfind. destruct Hfind as [Hin Hpass].
      assert (Hex : existsb (fun e : type_entry => passes env (snd (fst e))) entries = true).
      { apply existsb_exists. eauto. }
      congruence.
    + destruct (find _ es) as [elem|] eqn:Hfind.
      * eapply IH; [exact Hj| |exact Hnone].
        intros i earlier Hi. apply (Hbefore (S i)). lia.
      * assert (Hex : existsb (fun e : type_entry => passes env (snd (fst e))) es = true).
        { apply (Hbefore 0 es); [lia|reflexivity]. }
        apply existsb_exists in Hex. destruct Hex as (e & Hin & Hpass).
        pose proof (find_none _ _ Hfind e Hin) as Hno. simpl in Hno. congruence.
Qed.

(** The parts of the functions generated for an interface, with the
    entries of the type check. *)
Lemma print_Interface_entries (self : printer) (expr : Interface)
  (first : FunctionDef) (defs : list GeneratedFunctionDef) (self' : printer) :
  _print_Interface create_incremented_string flags_registry str_dtype set_order self expr
    = Ok (defs, self') ->
  nth_error (functions expr) 0 = Some first ->
  NoDup (map name (argument_variables (arguments first))) ->
  exists minis keys wrapper_name wrapper_args kw defaults pyarg pykwarg parse_args
         check_var result_var self1 used_names,
    let types_dict :=
      filed_under (argument_variables (arguments first))
                  (flat_map (signature_entries flags_registry parse_args)
                            (functions expr)) in
    defs = minis
           ++ [fst (_create_wrapper_check create_incremented_string str_dtype set_order
                      self1 check_var parse_args types_dict used_names (func_name first));
               mk_GeneratedFunctionDef wrapper_name wrapper_args [result_var]
                 (dispatcher_body kw defaults
                    (PyArg_ParseTupleNode pyarg pykwarg (arguments first) parse_args kw)
                    check_var result_var
                    (fst (_create_wrapper_check create_incremented_string str_dtype
                            set_order self1 check_var parse_args types_dict used_names
                            (func_name first)))
                    parse_args
                    (map (fun km => dispatch_section check_var result_var parse_args
                                      (fst km) (snd km)) (combine keys minis)))] /\
    List.length minis = List.length (functions expr) /\
    List.length parse_args = List.length (arguments first) /\
    forallb is_default_assign defaults = true /\
    types_dict_ok flags_registry types_dict /\
    Forall (fun p => admissible_entries flags_registry parse_args (functions expr) p <> [])
           (argument_variables (arguments first)).
Proof.
  unfold _print_Interface. intros H Hfirst0 Hnd.
  destruct (_get_wrapper_name _ _ _ _) as [wrapper_name self0].
  destruct (get_new_PyObject _ "args" _) as [a u1].
  destruct (get_new_PyObject _ "kwargs" _) as [kwargs u2].
  destruct (get_new_PyObject _ "self" _) as [sf u3].
  destruct (get_new_PyObject _ "result" _) as [r u4].
  unfold nth_arg in H. rewrite Hfirst0 in H. cbn [bind] in H.
  destruct (get_new_name _ u4 "kwlist") as [kwn u5].
  destruct (get_new_name _ u5 "check") as [cn u6].
  bind_inv H as Hparse with [parse_args u7].
  bind_inv H as Hloop with l.
  destruct (_create_wrapper_check _ _ _ _ _ _ _ _ _) as [check_def self2] eqn:Hcheck.
  inversion H; subst; clear H.
  pose proof (interface_functions_spec _ _ _ _ _ Hloop) as Hspec.
  destruct Hspec
    as (minis & keys & Hkeys & Hlen & Hdefs & Hbody & (ds & Hds & Hall) & Hok & Hdict).
  cbn in Hdefs, Hbody, Hds, Hok, Hdict.
  pose proof Hloop as Hfiled.
  eapply interface_functions_filed with (entries := []) in Hfiled;
    [|exact Hnd|reflexivity].
  destruct Hfiled as [Htd Hentries]. cbn [app] in Htd.
  pose proof (parse_arguments_length _ _ Hparse) as Hplen.
  pose proof (parse_arguments_variables _ _ Hparse) as Hvars.
  exists minis, keys, wrapper_name, [sf; a; kwargs].
  eexists _, ds, a, kwargs, parse_args, _, r, (fl_self l), (fl_used_names l).
  cbv zeta. rewrite <- Htd, Hcheck. cbn [fst].
  split. { rewrite Hdefs, Hbody, Hds. reflexivity. }
  split; [exact Hlen|]. split; [exact Hplen|]. split; [exact Hall|].
  split; [apply Hok, empty_types_dict_ok|].
  apply Forall_forall. intros p Hp.
  apply (@admissible_entries_first parse_args (functions expr) first p Hfirst0 Hplen Hvars);
    [|exact Hp].
  destruct (functions expr) as [|f rest]; [discriminate|].
  inversion Hfirst0; subst f. inversion Hentries; assumption.
Qed.

Lemma Forall2_nth_error {A B : Type} (R : A -> B -> Prop) (l1 : list A) (l2 : list B) :
  Forall2 R l1 l2 ->
  forall (j : nat) (a : A) (b : B),
    nth_error l1 j = Some a -> nth_error l2 j = Some b -> R a b.
Proof.
  induction 1 as [|x y l1 l2 Hxy _ IH]; intros [|j] a b Ha Hb; simpl in *;
    try discriminate.
  - inversion Ha; inversion Hb; subst. exact Hxy.
  - eapply IH; eassumption.
Qed.

Lemma positions_admissible (parse_args : list Var) (funcs : list FunctionDef)
  (parameters : list Var) :
  Forall (fun p => admissible_entries flags_registry parse_args funcs p <> [])
         parameters ->
  Forall2 (fun p entries =>
             entries <> [] /\
             forall entry,
               In entry entries
               <-> In entry (admissible_entries flags_registry parse_args funcs p))
          parameters
          (positions_of set_order
             (filed_under parameters
                (flat_map (signature_entries flags_registry parse_args) funcs))).
Proof.
  unfold positions_of, filed_under. rewrite map_map. cbn [snd].
  induction 1 as [|p rest Hp _ IH]; simpl; constructor; [|exact IH].
  assert (Hin : forall entry,
             In entry (sorted_entries set_order
                         (filter (filed_at p)
                            (flat_map (signature_entries flags_registry parse_args) funcs)))
             <-> In entry (admissible_entries flags_registry parse_args funcs p)).
  { intros entry. apply sorted_entries_In. }
  split; [|exact Hin].
  intros E. rewrite E in Hin.
  destruct (admissible_entries flags_registry parse_args funcs p) as [|e l] eqn:Ea;
    [exact (Hp eq_refl)|].
  apply (proj2 (Hin e)). left. reflexivity.
Qed.

(** **** C6

    For an interface whose first signature has parameters of pairwise
    distinct names, the type check function has one position per parameter
    of the first signature, from left to right.  The entries of a position
    are exactly the admissible ones of its parameter: those that the
    signatures of the interface contribute for their argument of that name,
    each with its check and the flag of its type; there is at least one,
    and they are tested in ascending order of precision.  The key starts
    from 0 and the flag of the first entry whose check passes is added to
    it, shifted left by 4 bits for every later position.  At the first
    position where no check passes, a [TypeError] is set whose message
    names the parameter and lists the types of all its entries, and the
    function returns 0; the dispatcher then returns null, having called the
    type check and none of the helpers of the signatures. *)
Theorem C6_type_check (self : printer) (expr : Interface) (first : FunctionDef)
  (defs : list GeneratedFunctionDef) (self' : printer) :
  _print_Interface create_incremented_string flags_registry str_dtype set_order self expr
    = Ok (defs, self') ->
  nth_error (functions expr) 0 = Some first ->
  NoDup (map name (argument_variables (arguments first))) ->
  exists minis check_def wrapper check_var parse_args positions,
    let parameters := argument_variables (arguments first) in
    let shift := ((Z.of_nat (List.length positions) - 1) * 4)%Z in
    let passing (entry : type_entry) : bool := passes env (snd (fst entry)) in
    let allowed (entry : type_entry) : string :=
      match dtype (fst (fst entry)) with
      | Native NativeBool => str_dtype (dtype (fst (fst entry)))
      | _ => (str_int (precision (fst (fst entry)) * 8) ++ " bit "
              ++ str_dtype (dtype (fst (fst entry))))%string
      end in
    let message (p : Var) (entries : list type_entry) : string :=
      (dquote ++ (name p ++ " must be " ++ join " or " (map allowed entries))
       ++ dquote)%string in
    defs = minis ++ [check_def; wrapper] /\
    List.length minis = List.length (functions expr) /\
    List.length parse_args = List.length (arguments first) /\
    Forall2 (fun p entries =>
               entries <> [] /\
               forall entry,
                 In entry entries
                 <-> In entry (admissible_entries flags_registry parse_args
                                 (functions expr) p))
            parameters positions /\
    Forall (StronglySorted (fun a b : type_entry =>
                              (precision (fst (fst a)) <= precision (fst (fst b)))%Z))
           positions /\
    body check_def
    = [Assign (Variable_ check_var) (LiteralInteger 0)]
      ++ check_arguments str_dtype check_var shift positions
      ++ [Return [Variable_ check_var]] /\
    (forall (m : machine) (key : Z),
        dispatch_key env shift positions 0 = inl key ->
        run env check_def m = (IntValue key, m)) /\
    (forall (m : machine) (j : nat) (p : Var) (entries : list type_entry),
        nth_error parameters j = Some p ->
        nth_error positions j = Some entries ->
        (forall i earlier, i < j -> nth_error positions i = Some earlier ->
                           existsb passing earlier = true) ->
        existsb passing entries = false ->
        run env check_def m
        = (IntValue 0,
           mk_machine (Some ("PyExc_TypeError"%string, message p entries)) (calls m)) /\
        run env wrapper m
        = (Null,
           if parse_succeeds env
           then mk_machine (Some ("PyExc_TypeError"%string, message p entries))
                           (calls m ++ [Generated check_def])
           else m)).
Proof.
  intros H Hfirst Hnd.
  destruct (print_Interface_entries _ _ H Hfirst Hnd)
    as (minis & keys & wn & wa & kw & ds & pa & pk & parse_args & cv & rv & s1 & un
        & Hdefs & Hlen & Hplen & Hall & Hok & Hne).
  cbv zeta in Hdefs, Hok.
  set (td := filed_under (argument_variables (arguments first))
               (flat_map (signature_entries flags_registry parse_args)
                         (functions expr))) in *.
  pose proof (types_dict_ok_checks Hok) as Hchecks.
  pose proof (@positions_admissible parse_args (functions expr) _ Hne) as Hpos. fold td in Hpos.
  exists minis. do 2 eexists. exists cv, parse_args, (positions_of set_order td).
  cbv zeta.
  replace ((Z.of_nat (List.length (positions_of set_order td)) - 1) * 4)%Z
    with (first_shift td)
    by (unfold first_shift, positions_of; rewrite length_map; reflexivity).
  split; [exact Hdefs|].
  split; [exact Hlen|].
  split; [exact Hplen|].
  split; [exact Hpos|].
  split; [apply positions_sorted|].
  split; [apply wrapper_check_body|].
  split.
  { intros m key Hkey. rewrite (run_type_check _ _ _ _ _ _ _ Hchecks), Hkey.
    reflexivity. }
  intros m j p entries Hp He Hbefore Hnone.
  assert (Hkey : dispatch_key env (first_shift td) (positions_of set_order td) 0
                 = inr entries).
  { eapply dispatch_key_rejects; eassumption. }
  destruct (Forall2_nth_error Hpos _ Hp He) as [Hnonempty Hentries].
  assert (Hfiled : Forall (fun entry => filed_at p entry = true) entries).
  { apply Forall_forall. intros e Hin. apply Hentries in Hin.
    unfold admissible_entries in Hin. apply filter_In in Hin. apply Hin. }
  pose proof (@type_error_message_names p entries Hnonempty Hfiled) as Hmsg.
  split.
  - rewrite (run_type_check _ _ _ _ _ _ _ Hchecks), Hkey, Hmsg. reflexivity.
  - destruct (parse_succeeds env) eqn:Hparse.
    + erewrite dispatcher_run; [|exact Hall|exact Hparse|].
      2:{ rewrite (run_type_check _ _ _ _ _ _ _ Hchecks), Hkey. reflexivity. }
      rewrite Hmsg. reflexivity.
    + apply dispatcher_run_unparsed; assumption.
Qed.

End WrapperFacts.

(* ------------------------------------------------------------------ *)
(** ** Concrete evaluations of the wrappers *)

Lemma C4_earlier_signature_wins_witness :
  exists first minis check_def wrapper keys,
    nth_error (CWrapper.functions CWrapper.sample_interface) 0 = Some first /\
    fst CWrapper.sample_generated = minis ++ [check_def; wrapper] /\
    List.length minis = List.length (CWrapper.functions CWrapper.sample_interface) /\
    Forall2 (fun f k => CWrapper.type_key CWrapper.sample_flags_registry
                          (List.length (CWrapper.arguments first)) f = Some k)
            (CWrapper.functions CWrapper.sample_interface) keys /\
    forall (m m1 : CWrapper.machine) (k : Z) (i : nat)
           (mini : CWrapper.GeneratedFunctionDef),
      CWrapper.parse_succeeds
        (CWrapper.sample_environment [("x"%string, NativeInteger); ("y"%string, NativeInteger)])
      = true ->
      CWrapper.run
        (CWrapper.sample_environment [("x"%string, NativeInteger); ("y"%string, NativeInteger)])
        check_def (CWrapper.record_call (CWrapper.Generated check_def) m)
      = (CWrapper.IntValue k, m1) ->
      k <> 0%Z ->
      nth_error keys i = Some k ->
      (forall j, j < i -> nth_error keys j <> Some k) ->
      nth_error minis i = Some mini ->
      CWrapper.run
        (CWrapper.sample_environment [("x"%string, NativeInteger); ("y"%string, NativeInteger)])
        wrapper m
      = CWrapper.run
          (CWrapper.sample_environment [("x"%string, NativeInteger); ("y"%string, NativeInteger)])
          mini (CWrapper.record_call (CWrapper.Generated mini) m1).
Proof.
  apply (C4_earlier_signature_wins
           CWrapper.sample_create_incremented_string CWrapper.sample_flags_registry
           CWrapper.sample_str_dtype (fun l => l)
           (CWrapper.sample_environment [("x"%string, NativeInteger); ("y"%string, NativeInteger)])
           CWrapper.sample_printer CWrapper.sample_interface
           (defs := fst CWrapper.sample_generated)
           (self' := snd CWrapper.sample_generated)).
  vm_compute. reflexivity.
Defined.

(** **** C4, counterexample

    The signatures [f_00] and [f_02] of the sample interface have the same
    type key [0x55].  A call with two 32-bit integers assembles that key,
    and the dispatcher calls the helper of [f_00], the earlier of the two;
    the helper of the later-registered [f_02] is not called. *)
Lemma C4_counterexample :
  let env := CWrapper.sample_environment
               [("x"%string, NativeInteger); ("y"%string, NativeInteger)] in
  let defs := fst CWrapper.sample_generated in
  let check_def := nth 3 defs (CWrapper.mk_GeneratedFunctionDef "" [] [] []) in
  let wrapper := nth 4 defs (CWrapper.mk_GeneratedFunctionDef "" [] [] []) in
  CWrapper.type_key CWrapper.sample_flags_registry 2 CWrapper.f_int32 = Some 85%Z /\
  CWrapper.type_key CWrapper.sample_flags_registry 2 CWrapper.f_int32_again = Some 85%Z /\
  map CWrapper.generated_name defs
  = ["f_00_mini_wrapper"; "f_01_mini_wrapper"; "f_02_mini_wrapper"; "type_check";
     "f_wrapper"]%string /\
  fst (CWrapper.run env check_def CWrapper.start) = CWrapper.IntValue 85 /\
  CWrapper.generated_calls (snd (CWrapper.run env wrapper CWrapper.start))
  = ["type_check"; "f_00_mini_wrapper"]%string /\
  ~ In "f_02_mini_wrapper"%string
       (CWrapper.generated_calls (snd (CWrapper.run env wrapper CWrapper.start))).
Proof.
  cbv zeta.
  assert (Hcalls : CWrapper.generated_calls
            (snd (CWrapper.run
                    (CWrapper.sample_environment
                       [("x"%string, NativeInteger); ("y"%string, NativeInteger)])
                    (nth 4 (fst CWrapper.sample_generated)
                         (CWrapper.mk_GeneratedFunctionDef "" [] [] []))
                    CWrapper.start))
          = ["type_check"; "f_00_mini_wrapper"]%string).
  { vm_compute. reflexivity. }
  split; [reflexivity|]. split; [reflexivity|].
  split; [vm_compute; reflexivity|].
  split; [vm_compute; reflexivity|].
  split; [exact Hcalls|].
  rewrite Hcalls. simpl. intros [H|[H|[]]]; discriminate H.
Qed.

Lemma C6_type_check_witness :
  let env := CWrapper.sample_environment [("x"%string, NativeInteger)] in
  exists minis check_def wrapper check_var parse_args positions,
    let parameters := CWrapper.argument_variables (CWrapper.arguments CWrapper.f_int32) in
    let shift := ((Z.of_nat (List.length positions) - 1) * 4)%Z in
    let passing (entry : CWrapper.type_entry) : bool :=
      CWrapper.passes env (snd (fst entry)) in
    let allowed (entry : CWrapper.type_entry) : string :=
      match CWrapper.dtype (fst (fst entry)) with
      | CWrapper.Native NativeBool =>
          CWrapper.sample_str_dtype (CWrapper.dtype (fst (fst entry)))
      | _ => (CWrapper.str_int (CWrapper.precision (fst (fst entry)) * 8) ++ " bit "
              ++ CWrapper.sample_str_dtype (CWrapper.dtype (fst (fst entry))))%string
      end in
    let message (p : CWrapper.Var) (entries : list CWrapper.type_entry) : string :=
      (CWrapper.dquote
       ++ (CWrapper.name p ++ " must be " ++ join " or " (map allowed entries))
       ++ CWrapper.dquote)%string in
    fst CWrapper.sample_generated = minis ++ [check_def; wrapper] /\
    List.length minis = List.length (CWrapper.functions CWrapper.sample_interface) /\
    List.length parse_args = List.length (CWrapper.arguments CWrapper.f_int32) /\
    Forall2 (fun p entries =>
               entries <> [] /\
               forall entry,
                 In entry entries
                 <-> In entry (CWrapper.admissible_entries CWrapper.sample_flags_registry
                                 parse_args
                                 (CWrapper.functions CWrapper.sample_interface) p))
            parameters positions /\
    Forall (StronglySorted
              (fun a b : CWrapper.type_entry =>
                 (CWrapper.precision (fst (fst a)) <= CWrapper.precision (fst (fst b)))%Z))
           positions /\
    CWrapper.body check_def
    = [CWrapper.Assign (CWrapper.Variable_ check_var) (CWrapper.LiteralInteger 0)]
      ++ CWrapper.check_arguments CWrapper.sample_str_dtype check_var shift positions
      ++ [CWrapper.Return [CWrapper.Variable_ check_var]] /\
    (forall (m : CWrapper.machine) (key : Z),
        CWrapper.dispatch_key env shift positions 0 = inl key ->
        CWrapper.run env check_def m = (CWrapper.IntValue key, m)) /\
    (forall (m : CWrapper.machine) (j : nat) (p : CWrapper.Var)
            (entries : list CWrapper.type_entry),
        nth_error parameters j = Some p ->
        nth_error positions j = Some entries ->
        (forall i earlier, i < j -> nth_error positions i = Some earlier ->
                           existsb passing earlier = true) ->
        existsb passing entries = false ->
        CWrapper.run env check_def m
        = (CWrapper.IntValue 0,
           CWrapper.mk_machine (Some ("PyExc_TypeError"%string, message p entries))
                               (CWrapper.calls m)) /\
        CWrapper.run env wrapper m
        = (CWrapper.Null,
           if CWrapper.parse_succeeds env
           then CWrapper.mk_machine (Some ("PyExc_TypeError"%string, message p entries))
                                    (CWrapper.calls m ++ [CWrapper.Generated check_def])
           else m)).
Proof.
  apply (@C6_type_check
           CWrapper.sample_create_incremented_string CWrapper.sample_flags_registry
           CWrapper.sample_str_dtype (fun l => l)
           (CWrapper.sample_environment [("x"%string, NativeInteger)])
           (fun l x => conj (fun H => H) (fun H => H))
           CWrapper.sample_printer CWrapper.sample_interface CWrapper.f_int32
           (fst CWrapper.sample_generated) (snd CWrapper.sample_generated)).
  - vm_compute. reflexivity.
  - reflexivity.
  - simpl. constructor; [simpl; intros [H|[]]; discriminate H|].
    constructor; [simpl; intros []|constructor].
Defined.

(** A call of the sample interface with a 32-bit integer and an object
    that passes no check: the type check names [y] and its allowed types,
    and the dispatcher returns null after calling the type check only. *)
Example type_check_rejects_second_argument :
  let env := CWrapper.sample_environment [("x"%string, NativeInteger)] in
  let wrapper := nth 4 (fst CWrapper.sample_generated)
                     (CWrapper.mk_GeneratedFunctionDef "" [] [] []) in
  fst (CWrapper.run env wrapper CWrapper.start) = CWrapper.Null /\
  CWrapper.error (snd (CWrapper.run env wrapper CWrapper.start))
  = Some ("PyExc_TypeError",
          CWrapper.c_string "y must be 32 bit int or 32 bit int or 64 bit real")%string /\
  CWrapper.generated_calls (snd (CWrapper.run env wrapper CWrapper.start))
  = ["type_check"%string].
Proof. cbv zeta. repeat split; vm_compute; reflexivity. Qed.

Lemma C9_not_exposed_witness :
  exists wrapper self' result_var,
    let message := (if CWrapper.is_private CWrapper.f_private
                    then "Private functions are not accessible from python"
                    else "Cannot pass a function as an argument")%string in
    CWrapper._print_FunctionDef CWrapper.sample_create_incremented_string
      CWrapper.sample_printer CWrapper.f_private = Ok (wrapper, self') /\
    CWrapper.body wrapper
    = [CWrapper.PyErr_SetString "PyExc_NotImplementedError" (CWrapper.c_string message);
       CWrapper.AliasAssign (CWrapper.Variable_ result_var) CWrapper.Nil;
       CWrapper.Return [CWrapper.Variable_ result_var]] /\
    forall (e : CWrapper.environment) (m : CWrapper.machine),
      CWrapper.run e wrapper m
      = (CWrapper.Null,
         CWrapper.set_error "PyExc_NotImplementedError" (CWrapper.c_string message) m).
Proof.
  apply (C9_not_exposed CWrapper.sample_create_incremented_string
           CWrapper.sample_printer CWrapper.f_private (or_introl eq_refl)).
Defined.

(** An exposed function, for contrast: its adapter parses the arguments
    and calls the translated function. *)
Example exposed_function_is_called :
  exists wrapper self',
    CWrapper._print_FunctionDef CWrapper.sample_create_incremented_string
      CWrapper.sample_printer CWrapper.f_int32 = Ok (wrapper, self') /\
    List.length (CWrapper.body wrapper) = 9 /\
    In (CWrapper.Translated CWrapper.f_int32)
       (CWrapper.calls
          (snd (CWrapper.run
                  (CWrapper.sample_environment
                     [("x"%string, NativeInteger); ("y"%string, NativeInteger)])
                  wrapper CWrapper.start))).
Proof.
  do 2 eexists. split; [vm_compute; reflexivity|].
  split; [reflexivity|]. vm_compute. tauto.
Qed.

(** The three parenthesis examples of the testable properties. *)
Example parenthesis_examples :
  let a := sample_var "a" NativeReal 8 [] in
  let b := sample_var "b" NativeReal 8 [] in
  let c := sample_var "c" NativeReal 8 [] in
  let dp := sample_default_precision in
  exists add_bc add_ab,
    PyccelOperator__init__ dp semantic PyccelAdd [b; c] = Ok add_bc /\
    PyccelOperator__init__ dp semantic PyccelAdd [a; b] = Ok add_ab /\
    wraps PyccelMul 1 add_bc = true /\
    wraps PyccelAdd 0 add_ab = false /\
    wraps PyccelAdd 1 add_ab = true /\
    (exists p, new_PyccelAssociativeParenthesis dp semantic add_bc = Ok p /\
               _handle_precedence dp semantic PyccelMul [a; add_bc] = Ok [a; p]) /\
    _handle_precedence dp semantic PyccelAdd [add_ab; c] = Ok [add_ab; c] /\
    (exists p, new_PyccelAssociativeParenthesis dp semantic add_ab = Ok p /\
               _handle_precedence dp semantic PyccelAdd [c; add_ab] = Ok [c; p]).
Proof.
  cbv zeta. do 2 eexists. repeat split; try reflexivity;
    eexists; split; reflexivity.
Qed.

(* ================================================================== *)
(** * Further properties of the operators *)

Section BroadcastFacts.

Context {dim : Type} {oracle : SympyOracle dim}.

Lemma aligned_length (s1 s2 : list dim) :
  List.length (aligned s1 s2) = Nat.max (List.length s1) (List.length s2).
Proof.
  unfold aligned.
  destruct (Nat.ltb_spec (List.length s2) (List.length s1)).
  - rewrite length_combine, length_app, repeat_length. lia.
  - destruct (Nat.ltb_spec (List.length s1) (List.length s2)).
    + rewrite length_combine, length_app, repeat_length. lia.
    + rewrite length_combine. lia.
Qed.

(** **** X1

    A successful broadcast has as many extents as the longer of the two
    shapes. *)
Theorem broadcast_rank (shape_1 shape_2 r : list dim) :
  broadcast shape_1 shape_2 = Ok r ->
  List.length r = Nat.max (List.length shape_1) (List.length shape_2).
Proof.
  intros H. unfold broadcast in H.
  destruct (broadcast_loop_spec _ _ _ _ H) as (r' & -> & Hlen & _).
  simpl. rewrite Hlen. apply aligned_length.
Qed.

Lemma broadcast_dim_incompatible (e1 e2 : dim) :
  broadcast_dim e1 e2 = None <-> incompatible e1 e2 = true.
Proof.
  unfold broadcast_dim, incompatible.
  destruct (sy_eqb e1 e2), (sy_eq_int e1 1), (sy_eq_int e2 1),
    (sy_is_constant e1), (sy_is_constant e2), (sy_sub_is_constant e1 e2);
    simpl; split; intros H; try discriminate H; reflexivity.
Qed.

Lemma broadcast_loop_cases (shape_1 shape_2 : list dim) (pairs : list (dim * dim)) :
  forall acc,
    (existsb (fun p => incompatible (fst p) (snd p)) pairs = true ->
     broadcast_loop shape_1 shape_2 pairs acc
     = Raise (PyccelSemanticError (broadcast_msg shape_1 shape_2))) /\
    (existsb (fun p => incompatible (fst p) (snd p)) pairs = false ->
     exists r, broadcast_loop shape_1 shape_2 pairs acc = Ok r).
Proof.
  induction pairs as [|[e1 e2] rest IH]; intros acc; simpl.
  - split; [discriminate|eauto].
  - destruct (broadcast_dim e1 e2) as [e|] eqn:He.
    + assert (Hi : incompatible e1 e2 = false).
      { destruct (incompatible e1 e2) eqn:Hi; [|reflexivity].
        apply broadcast_dim_incompatible in Hi. congruence. }
      rewrite Hi. simpl. apply IH.
    + apply broadcast_dim_incompatible in He. rewrite He. simpl.
      split; [reflexivity|discriminate].
Qed.

(** **** X2

    [broadcast] raises exactly when some pair of aligned extents is
    incompatible (not found equal, neither found to be 1, and both
    constants or both symbolic with a constant difference).  What it raises
    is then a [PyccelSemanticError] whose message ends with the two shapes
    as they were given, each printed as a tuple; otherwise it returns a
    shape. *)
Theorem broadcast_raises_iff (shape_1 shape_2 : list dim) :
  let clash := existsb (fun p => incompatible (fst p) (snd p))
                       (aligned shape_1 shape_2) in
  let printed (shape : list dim) : string :=
    match shape with
    | [e] => ("(" ++ dim_repr e ++ ",)")%string
    | _ => ("(" ++ join ", " (map dim_repr shape) ++ ")")%string
    end in
  (clash = true ->
   broadcast shape_1 shape_2
   = Raise (PyccelSemanticError
              ("operands could not be broadcast together with shapes "
               ++ printed shape_1 ++ " " ++ printed shape_2)%string)) /\
  (clash = false -> exists r, broadcast shape_1 shape_2 = Ok r).
Proof.
  cbv zeta. unfold broadcast.
  destruct (broadcast_loop_cases shape_1 shape_2 (aligned shape_1 shape_2) [])
    as [H1 H2].
  split; assumption.
Qed.

Lemma broadcast_loop_pointwise (R : dim -> dim -> dim -> Prop) (pairs : list (dim * dim)) :
  Forall (fun p => exists e, broadcast_dim (fst p) (snd p) = Some e /\ R (fst p) (snd p) e) pairs ->
  forall shape_1 shape_2 acc, exists r,
    broadcast_loop shape_1 shape_2 pairs acc = Ok (acc ++ r) /\
    Forall2 (fun p e => R (fst p) (snd p) e) pairs r.
Proof.
  induction 1 as [|[e1 e2] rest (e & He & HR) _ IH]; intros shape_1 shape_2 acc; simpl.
  - exists []. rewrite app_nil_r. split; [reflexivity|constructor].
  - simpl in He. rewrite He.
    destruct (IH shape_1 shape_2 (acc ++ [e])) as (r & Hr & HF).
    exists (e :: r). rewrite Hr, <- app_assoc. split; [reflexivity|].
    constructor; assumption.
Qed.

Lemma broadcast_loop_same (s : list dim) :
  Forall (fun e => sy_eqb e e = true) s ->
  forall shape_1 shape_2 acc,
    broadcast_loop shape_1 shape_2 (combine s s) acc = Ok (acc ++ s).
Proof.
  induction 1 as [|e rest He _ IH]; intros shape_1 shape_2 acc; simpl.
  - rewrite app_nil_r. reflexivity.
  - unfold broadcast_dim. rewrite He, IH, <- app_assoc. reflexivity.
Qed.

(** **** X3

    A shape whose extents the oracle finds equal to themselves broadcasts
    with itself to itself. *)
Theorem broadcast_same_shape (s : list dim) :
  Forall (fun e => sy_eqb e e = true) s ->
  broadcast s s = Ok s.
Proof.
  intros H. unfold broadcast, aligned. rewrite Nat.ltb_irrefl.
  apply (broadcast_loop_same H).
Qed.

(** **** X4

    Broadcasting with the empty shape of a scalar never raises, on either
    side, provided the oracle finds the literal 1 equal to 1: the result has
    the extents of the other shape, an extent being replaced by the literal
    1 only where the oracle finds it equal to 1. *)
Theorem broadcast_with_scalar (s : list dim) :
  sy_eq_int (LiteralInteger_dim 1) 1 = true ->
  exists r1 r2,
    broadcast [] s = Ok r1 /\ broadcast s [] = Ok r2 /\
    Forall2 scalar_extent s r1 /\ Forall2 scalar_extent s r2.
Proof.
  intros H1.
  assert (Hones : repeat (LiteralInteger_dim 1) (List.length s)
                  = map (fun _ => LiteralInteger_dim 1) s).
  { clear. induction s; simpl; congruence. }
  assert (A1 : aligned [] s = combine (map (fun _ => LiteralInteger_dim 1) s) s).
  { unfold aligned. simpl. destruct s as [|e s']; [reflexivity|].
    change (0 <? List.length (e :: s')) with true. cbv iota.
    rewrite Nat.sub_0_r, app_nil_r, Hones. reflexivity. }
  assert (A2 : aligned s [] = combine s (map (fun _ => LiteralInteger_dim 1) s)).
  { unfold aligned. simpl. destruct s as [|e s']; [reflexivity|].
    change (0 <? List.length (e :: s')) with true. cbv iota.
    rewrite Nat.sub_0_r, app_nil_r, Hones. reflexivity. }
  assert (F1 : Forall (fun p : dim * dim =>
                         exists x, broadcast_dim (fst p) (snd p) = Some x /\
                                   scalar_extent (snd p) x)
                      (combine (map (fun _ => LiteralInteger_dim 1) s) s)).
  { clear A1 A2 Hones. induction s as [|e s IH]; simpl; constructor; auto.
    simpl. unfold broadcast_dim, scalar_extent. rewrite H1.
    destruct (sy_eqb (LiteralInteger_dim 1) e) eqn:E; eexists; (split; [reflexivity|]);
      [right|left]; auto. }
  assert (F2 : Forall (fun p : dim * dim =>
                         exists x, broadcast_dim (fst p) (snd p) = Some x /\
                                   scalar_extent (fst p) x)
                      (combine s (map (fun _ => LiteralInteger_dim 1) s))).
  { clear A1 A2 Hones F1. induction s as [|e s IH]; simpl; constructor; auto.
    simpl. unfold broadcast_dim, scalar_extent. rewrite H1.
    destruct (sy_eqb e (LiteralInteger_dim 1)) eqn:E;
      [eexists; split; [reflexivity|left; reflexivity]|].
    destruct (sy_eq_int e 1) eqn:E1; eexists; (split; [reflexivity|]);
      [right|left]; auto. }
  destruct (broadcast_loop_pointwise (fun _ e x => scalar_extent e x) F1 [] s [])
    as (r1 & Hr1 & HF1).
  destruct (broadcast_loop_pointwise (fun e _ x => scalar_extent e x) F2 s [] [])
    as (r2 & Hr2 & HF2).
  exists r1, r2. unfold broadcast. rewrite A1, A2, Hr1, Hr2.
  split; [reflexivity|]. split; [reflexivity|]. split.
  - clear - HF1. revert r1 HF1. induction s as [|e s IH]; intros r H; simpl in H; inversion H; subst;
      constructor; auto.
  - clear - HF2. revert r2 HF2. induction s as [|e s IH]; intros r H; simpl in H; inversion H; subst;
      constructor; auto.
Qed.

End BroadcastFacts.

Section TypingFacts.

Context {dim : Type} {oracle : SympyOracle dim}.
Variable default_precision : string -> Z.
Variable float_of_int : Z -> float.

(* ------------------------------------------------------------------ *)
(** ** The operands after the precedence handling *)

Lemma handle_precedence_wraps (st : stage) (k : op_kind) (args : list (node (dim := dim))) :
  args <> [] ->
  _handle_precedence default_precision st k args
  = mapMi (fun i a => if wraps k i a
                      then new_PyccelAssociativeParenthesis default_precision st a
                      else Ok a) 0 args.
Proof.
  intros Hne.
  destruct k; cbn [_handle_precedence];
    try rewrite (base_handle_precedence default_precision st _ Hne);
    unfold precedence_loop, parenthesise_instances, mapM;
    try (rewrite clarity_pass by reflexivity);
    try (apply mapMi_ext; intros i a; unfold wraps, clarity_parenthesis;
         rewrite ?orb_false_r; reflexivity).
  clear Hne. generalize 0. induction args as [|a rest IH]; intros n; simpl;
    [reflexivity|]. rewrite <- IH. reflexivity.
Qed.

Lemma wraps_parenthesis (k : op_kind) (i : nat) (a : node (dim := dim))
  (t : option (attrs (dim := dim))) :
  wraps k i (Op PyccelAssociativeParenthesis [a] t) = false.
Proof. destruct k; reflexivity. Qed.

Lemma mapMi_wraps_stable (st : stage) (k : op_kind) (args : list (node (dim := dim))) :
  forall i args',
    mapMi (fun i a => if wraps k i a
                      then new_PyccelAssociativeParenthesis default_precision st a
                      else Ok a) i args = Ok args' ->
    (forall j a', nth_error args' j = Some a' -> wraps k (i + j) a' = false) /\
    List.length args' = List.length args /\
    mapMi (fun i a => if wraps k i a
                      then new_PyccelAssociativeParenthesis default_precision st a
                      else Ok a) i args' = Ok args'.
Proof.
  induction args as [|a rest IH]; intros i args' H; simpl in H.
  - inversion H; subst. repeat split. intros [|j] a' Hn; discriminate Hn.
  - destruct (wraps k i a) eqn:Hw.
    + destruct (new_parenthesis_cases default_precision st a) as [(t & Ht)|Ht]; rewrite Ht in H;
        [|discriminate]. cbn [bind] in H.
      destruct (mapMi _ (S i) rest) as [rest'|] eqn:Hr; [|discriminate].
      cbn [bind] in H. inversion H; subst.
      destruct (IH _ _ Hr) as (Hall & Hlen & Hre).
      split; [|split].
      * intros [|j] a' Hn; simpl in Hn.
        -- inversion Hn; subst. apply wraps_parenthesis.
        -- replace (i + S j) with (S i + j) by lia. eauto.
      * simpl. congruence.
      * cbn [mapMi]. rewrite wraps_parenthesis. cbn [bind]. rewrite Hre. reflexivity.
    + cbn [bind] in H.
      destruct (mapMi _ (S i) rest) as [rest'|] eqn:Hr; [|discriminate].
      cbn [bind] in H. inversion H; subst.
      destruct (IH _ _ Hr) as (Hall & Hlen & Hre).
      split; [|split].
      * intros [|j] a' Hn; simpl in Hn.
        -- inversion Hn; subst. rewrite Nat.add_0_r. exact Hw.
        -- replace (i + S j) with (S i + j) by lia. eauto.
      * simpl. congruence.
      * cbn [mapMi]. rewrite Hw. cbn [bind]. rewrite Hre. reflexivity.
Qed.

(** **** X5

    The precedence handling is stable: in its result no operand asks for a
    parenthesis any more, so that handling the result again changes
    nothing; the number of operands is kept. *)
Theorem handle_precedence_stable (st : stage) (k : op_kind)
  (args args' : list (node (dim := dim))) :
  _handle_precedence default_precision st k args = Ok args' ->
  List.length args' = List.length args /\
  (forall i a', nth_error args' i = Some a' -> wraps k i a' = false) /\
  _handle_precedence default_precision st k args' = Ok args'.
Proof.
  intros H. destruct args as [|a rest].
  - assert (Hnil : args' = []) by (destruct k; try discriminate H; inversion H; reflexivity).
    subst args'. split; [reflexivity|]. split; [|exact H].
    intros [|i] a' Hn; discriminate Hn.
  - rewrite handle_precedence_wraps in H by discriminate.
    destruct (mapMi_wraps_stable _ _ _ _ H) as (Hall & Hlen & Hre).
    split; [exact Hlen|]. split; [exact Hall|].
    rewrite handle_precedence_wraps; [exact Hre|].
    destruct args'; [discriminate Hlen|discriminate].
Qed.

Lemma mapMi_kept (st : stage) (w : nat -> node (dim := dim) -> bool)
  (args : list (node (dim := dim))) :
  forall i args',
    mapMi (fun i a => if w i a
                      then new_PyccelAssociativeParenthesis default_precision st a
                      else Ok a) i args = Ok args' ->
    Forall2 kept_or_wrapped args args'.
Proof.
  induction args as [|a rest IH]; intros i args' H; cbn [mapMi] in H.
  - inversion H. constructor.
  - destruct (if w i a then _ else _) as [a'|] eqn:Ha; [|discriminate].
    cbn [bind] in H.
    destruct (mapMi _ (S i) rest) as [rest'|] eqn:Hr; [|discriminate].
    cbn [bind] in H. inversion H; subst.
    constructor; [|eapply IH, Hr].
    destruct (w i a); [|left; congruence].
    destruct (new_parenthesis_cases default_precision st a) as [(t' & Ht')|Ht'];
      rewrite Ht' in Ha; [|discriminate]. right. exists t'. congruence.
Qed.

Lemma handle_precedence_kept (st : stage) (k : op_kind)
  (args args' : list (node (dim := dim))) :
  _handle_precedence default_precision st k args = Ok args' ->
  Forall2 kept_or_wrapped args args'.
Proof.
  intros H. destruct args as [|a rest].
  - assert (Hnil : args' = []) by (destruct k; try discriminate H; inversion H; reflexivity).
    subst. constructor.
  - rewrite handle_precedence_wraps in H by discriminate.
    eapply mapMi_kept, H.
Qed.

Lemma typed_node_args (st : stage) (k : op_kind) (args : list (node (dim := dim)))
  (n : node (dim := dim)) :
  typed_node default_precision st k args = Ok n -> exists t, n = Op k args t.
Proof.
  unfold typed_node. destruct st; intros H.
  - inversion H. eauto.
  - destruct (_calculate_dtype _ _ _); [|discriminate]. cbn [bind] in H.
    destruct (_calculate_shape_rank _ _); [|discriminate]. cbn [bind] in H.
    destruct (if rank_gt_1 _ then _ else _); [|discriminate]. cbn [bind] in H.
    inversion H. eauto.
Qed.

(** **** X6

    At the syntactic stage a constructor infers no type and checks
    nothing: given at least one operand it always succeeds, the node
    carries no attribute, and every operand is kept or put in parentheses.
    The ternary operator in particular rejects nothing at that stage. *)
Theorem syntactic_construction (k : op_kind) (args : list (node (dim := dim)))
  (c vt vf : node (dim := dim)) :
  args <> [] ->
  (exists args',
      PyccelOperator__init__ default_precision syntactic k args = Ok (Op k args' None) /\
      Forall2 kept_or_wrapped args args') /\
  IfTernaryOperator__init__ default_precision syntactic c vt vf
  = PyccelOperator__init__ default_precision syntactic IfTernaryOperator [c; vt; vf].
Proof.
  intros Hne. split.
  - unfold PyccelOperator__init__.
    assert (H : exists args',
               _handle_precedence default_precision syntactic k args = Ok args').
    { rewrite handle_precedence_wraps by exact Hne. generalize 0.
      induction args as [|a rest IH]; intros i; [congruence|].
      cbn [mapMi].
      assert (Ha : exists a', (if wraps k i a
                               then new_PyccelAssociativeParenthesis default_precision
                                      syntactic a
                               else Ok a) = Ok a').
      { destruct (wraps k i a); [|eauto].
        unfold new_PyccelAssociativeParenthesis, typed_node. eauto. }
      destruct Ha as (a' & ->). cbn [bind].
      destruct rest as [|b rest'].
      - cbn. eauto.
      - destruct (IH ltac:(discriminate) (S i)) as (rest'' & ->). cbn. eauto. }
    destruct H as (args' & H). rewrite H. cbn [bind typed_node].
    exists args'. split; [reflexivity|].
    eapply handle_precedence_kept, H.
  - unfold IfTernaryOperator__init__.
    destruct (PyccelOperator__init__ _ _ _ _); reflexivity.
Qed.

(* ------------------------------------------------------------------ *)
(** ** Typed operands *)

Lemma mapMi_wrap_typed (w : nat -> node (dim := dim) -> bool)
  (args : list (node (dim := dim))) (ts : list (attrs (dim := dim))) :
  Forall2 (fun a t => node_attrs a = Some t) args ts ->
  forall i, exists args',
    mapMi (fun i a => if w i a
                      then new_PyccelAssociativeParenthesis default_precision semantic a
                      else Ok a) i args = Ok args' /\
    Forall2 (fun t a' => attrs_like t a') ts args' /\
    Forall2 kept_or_wrapped args args'.
Proof.
  induction 1 as [|a t rest ts Ha _ IH]; intros i; cbn [mapMi].
  - exists []. split; [reflexivity|split; constructor].
  - destruct (wrap_attrs_like default_precision (w i a) a Ha) as (a' & Hw & Hlike).
    rewrite Hw.
    destruct (IH (S i)) as (rest' & -> & Hrest & Hkept). cbn [bind].
    exists (a' :: rest'). split; [reflexivity|]. split; constructor; try assumption.
    destruct (w i a); [|left; congruence].
    destruct (new_parenthesis_cases default_precision semantic a) as [(t' & Ht')|Ht'];
      rewrite Ht' in Hw; [|discriminate]. right. exists t'. congruence.
Qed.

Lemma handle_precedence_typed (k : op_kind) (args : list (node (dim := dim)))
  (ts : list (attrs (dim := dim))) :
  args <> [] ->
  Forall2 (fun a t => node_attrs a = Some t) args ts ->
  exists args',
    _handle_precedence default_precision semantic k args = Ok args' /\
    Forall2 (fun t a' => attrs_like t a') ts args' /\
    Forall2 kept_or_wrapped args args'.
Proof.
  intros Hne H. rewrite handle_precedence_wraps by exact Hne.
  apply mapMi_wrap_typed, H.
Qed.

Lemma handle_precedence_one (k : op_kind) (a : node (dim := dim)) (t : attrs (dim := dim)) :
  node_attrs a = Some t ->
  exists a' o,
    _handle_precedence default_precision semantic k [a] = Ok [a'] /\
    node_attrs a' = Some (mk_attrs (dtype t) (precision t) (rank t) (shape t) o) /\
    (rank_gt_1 (rank t) = true -> o = order t) /\
    kept_or_wrapped a a'.
Proof.
  intros Ha.
  destruct (@handle_precedence_typed k [a] [t]) as (args' & Hhp & Hl & Hk);
    [discriminate|constructor; [exact Ha|constructor]|].
  inversion Hl as [|? a' ? rest' (o & Ho & Hord) Hrest]; subst.
  inversion Hrest; subst.
  inversion Hk as [|? ? ? ? Hka _]; subst.
  exists a', o. auto.
Qed.

Lemma handle_precedence_two (k : op_kind) (a b : node (dim := dim))
  (ta tb : attrs (dim := dim)) :
  node_attrs a = Some ta -> node_attrs b = Some tb ->
  exists a' b' oa ob,
    _handle_precedence default_precision semantic k [a; b] = Ok [a'; b'] /\
    node_attrs a' = Some (mk_attrs (dtype ta) (precision ta) (rank ta) (shape ta) oa) /\
    node_attrs b' = Some (mk_attrs (dtype tb) (precision tb) (rank tb) (shape tb) ob) /\
    kept_or_wrapped a a' /\ kept_or_wrapped b b'.
Proof.
  intros Ha Hb.
  destruct (@handle_precedence_typed k [a; b] [ta; tb]) as (args' & Hhp & Hl & Hk);
    [discriminate|repeat constructor; assumption|].
  inversion Hl as [|? a' ? rest' (oa & Hoa & _) Hrest]; subst.
  inversion Hrest as [|? b' ? rest'' (ob & Hob & _) Hrest']; subst.
  inversion Hrest'; subst.
  inversion Hk as [|? ? ? ? Hka Hk']; subst.
  inversion Hk' as [|? ? ? ? Hkb _]; subst.
  exists a', b', oa, ob. auto.
Qed.

(** **** X7

    Unary plus, unary minus and a parenthesis node carry the dtype,
    precision, rank and shape of their operand, and its order when the rank
    is above 1 (no order otherwise); the operand is kept, or put in
    parentheses. *)
Theorem unary_preserves_type (k : op_kind) (a : node (dim := dim))
  (t : attrs (dim := dim)) :
  k = PyccelUnary \/ k = PyccelUnarySub \/ k = PyccelAssociativeParenthesis ->
  node_attrs a = Some t ->
  exists a',
    PyccelOperator__init__ default_precision semantic k [a]
    = Ok (Op k [a']
            (Some (mk_attrs (dtype t) (precision t) (rank t) (shape t)
                            (if rank_gt_1 (rank t) then order t else None)))) /\
    kept_or_wrapped a a'.
Proof.
  intros Hk Ha.
  destruct (handle_precedence_one k a Ha) as (a' & o & Hhp & Ha' & Ho & Hkept).
  exists a'. split; [|exact Hkept].
  unfold PyccelOperator__init__. rewrite Hhp. cbn [bind].
  unfold typed_node.
  assert (Hd : _calculate_dtype default_precision k [a'] = Ok (dtype t, precision t)).
  { destruct Hk as [->|[->| ->]]; cbn; unfold getattr; rewrite Ha'; reflexivity. }
  assert (Hs : _calculate_shape_rank k [a'] = Ok (shape t, rank t)).
  { destruct Hk as [->|[->| ->]]; cbn; unfold getattr; rewrite Ha'; reflexivity. }
  rewrite Hd, Hs. cbn [bind fst snd].
  destruct (rank_gt_1 (rank t)) eqn:Hr; [|reflexivity].
  unfold _set_order, all_order_agree, getattr. rewrite Ha'. cbn.
  rewrite option_ordering_eqb_refl. cbn. rewrite (Ho eq_refl). reflexivity.
Qed.

(** **** X8

    [not] applied to any typed operand, whatever its dtype, rank and shape,
    is a scalar boolean of the default bool precision. *)
Theorem not_is_scalar_bool (a : node (dim := dim)) (t : attrs (dim := dim)) :
  node_attrs a = Some t ->
  exists a',
    PyccelOperator__init__ default_precision semantic PyccelNot [a]
    = Ok (Op PyccelNot [a']
            (Some (mk_attrs NativeBool (Some (default_precision "bool"))
                            (Some 0) (Some []) None))) /\
    kept_or_wrapped a a'.
Proof.
  intros Ha.
  destruct (handle_precedence_one PyccelNot a Ha) as (a' & o & Hhp & Ha' & Ho & Hkept).
  exists a'. split; [|exact Hkept].
  unfold PyccelOperator__init__. rewrite Hhp. reflexivity.
Qed.

Lemma binary_init (k : op_kind) (a b a' b' : node (dim := dim)) :
  _handle_precedence default_precision semantic k [a; b] = Ok [a'; b'] ->
  PyccelOperator__init__ default_precision semantic k [a; b]
  = typed_node default_precision semantic k [a'; b'].
Proof. intros H. unfold PyccelOperator__init__. rewrite H. reflexivity. Qed.

(** **** X9

    Strings: an addition or a comparison with a string operand and no
    numeric operand is a scalar (a string without precision for the
    addition, a boolean for a comparison); with a string operand and a
    numeric one the construction fails on the assertion of the shape
    rule. *)
Theorem string_operands (k : op_kind) (a b : node (dim := dim))
  (ta tb : attrs (dim := dim)) :
  k = PyccelAdd \/ is_comparison k = true ->
  node_attrs a = Some ta -> node_attrs b = Some tb ->
  dtype ta = NativeString \/ dtype tb = NativeString ->
  if numeric_or_bool (dtype ta) || numeric_or_bool (dtype tb)
  then PyccelOperator__init__ default_precision semantic k [a; b] = Raise AssertionError
  else exists a' b',
      PyccelOperator__init__ default_precision semantic k [a; b]
      = Ok (Op k [a'; b']
              (Some (if is_comparison k
                     then mk_attrs NativeBool (Some (default_precision "bool"))
                                   (Some 0) (Some []) None
                     else mk_attrs NativeString None (Some 0) (Some []) None))) /\
      kept_or_wrapped a a' /\ kept_or_wrapped b b'.
Proof.
  intros Hk Ha Hb Hstr.
  destruct (handle_precedence_two k a b Ha Hb)
    as (a' & b' & oa & ob & Hhp & Ha' & Hb' & Hka & Hkb).
  rewrite (@binary_init k a b a' b' Hhp).
  unfold typed_node, _calculate_dtype, _calculate_shape_rank,
    PyccelBinaryOperator__calculate_dtype, PyccelBinaryOperator__calculate_shape_rank,
    mapM, getattr.
  cbn [mapMi]. rewrite Ha', Hb'. cbn [bind dtype].
  destruct Hk as [->|Hk].
  - destruct Hstr as [Hs|Hs]; rewrite Hs.
    + destruct (dtype tb); cbn; eauto 10.
    + destruct (dtype ta); cbn; eauto 10.
  - destruct k; try discriminate Hk;
      (destruct Hstr as [Hs|Hs]; rewrite Hs;
       [destruct (dtype tb)|destruct (dtype ta)]; cbn; eauto 10).
Qed.

(** **** X10

    Apart from the addition, no arithmetic operator accepts a string
    operand: the construction raises a [TypeError]. *)
Theorem string_arithmetic_unsupported (k : op_kind) (a b : node (dim := dim))
  (ta tb : attrs (dim := dim)) :
  is_arithmetic k = true -> k <> PyccelAdd ->
  node_attrs a = Some ta -> node_attrs b = Some tb ->
  dtype ta = NativeString \/ dtype tb = NativeString ->
  PyccelOperator__init__ default_precision semantic k [a; b]
  = Raise (TypeError "unsupported operand type(s) for /: 'str' and 'str'").
Proof.
  intros Hk Hadd Ha Hb Hstr.
  destruct (handle_precedence_two k a b Ha Hb)
    as (a' & b' & oa & ob & Hhp & Ha' & Hb' & Hka & Hkb).
  rewrite (@binary_init k a b a' b' Hhp).
  unfold typed_node, _calculate_dtype,
    PyccelBinaryOperator__calculate_dtype, mapM, getattr.
  cbn [mapMi]. rewrite Ha', Hb'. cbn [bind dtype].
  destruct k; try discriminate Hk; try congruence;
    (destruct Hstr as [Hs|Hs]; rewrite Hs;
     [destruct (dtype tb)|destruct (dtype ta)]; reflexivity).
Qed.

(* ------------------------------------------------------------------ *)
(** ** Shape, rank and order of binary operators *)

Lemma binary_shape_rule (k : op_kind) (args : list (node (dim := dim))) :
  is_arithmetic k || is_comparison k = true ->
  _calculate_shape_rank k args = PyccelBinaryOperator__calculate_shape_rank args.
Proof. destruct k; try discriminate; reflexivity. Qed.

Lemma binary_shape_second (a b : node (dim := dim)) (ta tb : attrs (dim := dim))
  (ra rb : nat) (sa sb : list dim) :
  numeric_attrs a ta -> numeric_attrs b tb ->
  rank ta = Some ra -> rank tb = Some rb ->
  shape ta = Some (map Some sa) -> shape tb = Some (map Some sb) ->
  Forall (fun e => sy_eqb e e = true) sb ->
  PyccelBinaryOperator__calculate_shape_rank [a; b]
  = Ok (Some (map Some sb), Some (List.length sb)).
Proof.
  intros Ha Hb Hra Hrb Hsa Hsb Hrefl.
  erewrite shape_rank_known by eassumption.
  unfold broadcast, aligned. rewrite Nat.ltb_irrefl.
  rewrite (broadcast_loop_same Hrefl). reflexivity.
Qed.

(** **** X11

    For an arithmetic operator or a comparison over two numeric operands of
    known ranks and fully known shapes, the shape of the node is the shape
    of the second operand and its rank the length of that shape, whatever
    the rank and shape of the first operand. *)
Theorem binary_shape_is_second_operand (k : op_kind) (a b : node (dim := dim))
  (ta tb : attrs (dim := dim)) (ra rb : nat) (sa sb : list dim) :
  is_arithmetic k || is_comparison k = true ->
  numeric_attrs a ta -> numeric_attrs b tb ->
  rank ta = Some ra -> rank tb = Some rb ->
  shape ta = Some (map Some sa) -> shape tb = Some (map Some sb) ->
  Forall (fun e => sy_eqb e e = true) sb ->
  _calculate_shape_rank k [a; b] = Ok (Some (map Some sb), Some (List.length sb)).
Proof.
  intros Hk Ha Hb Hra Hrb Hsa Hsb Hrefl.
  rewrite (binary_shape_rule _ _ Hk).
  eapply binary_shape_second; eassumption.
Qed.

(** **** X12

    When the ranks of both operands are known but some extent of either
    shape is not, the node gets the larger of the two ranks and a shape of
    that many unknown extents. *)
Theorem binary_shape_unknown_extents (k : op_kind) (a b : node (dim := dim))
  (ta tb : attrs (dim := dim)) (ra rb : nat) (sa sb : list (option dim)) :
  is_arithmetic k || is_comparison k = true ->
  numeric_attrs a ta -> numeric_attrs b tb ->
  rank ta = Some ra -> rank tb = Some rb ->
  shape ta = Some sa -> shape tb = Some sb ->
  existsb is_None (sa ++ sb) = true ->
  _calculate_shape_rank k [a; b]
  = Ok (Some (repeat None (Nat.max ra rb)), Some (Nat.max ra rb)).
Proof.
  intros Hk [Ha Na] [Hb Nb] Hra Hrb Hsa Hsb Hunk.
  rewrite (binary_shape_rule _ _ Hk).
  assert (Hall : forall l : list (option dim),
             forallb (fun sh => negb (is_None sh)) l = negb (existsb is_None l)).
  { induction l as [|x l IH]; simpl; [reflexivity|]. rewrite IH.
    destruct (is_None x); reflexivity. }
  rewrite existsb_app in Hunk.
  assert (Hmax : (if ra <? rb then rb else ra) = Nat.max ra rb).
  { destruct (Nat.ltb_spec ra rb); lia. }
  unfold PyccelBinaryOperator__calculate_shape_rank, mapM, getattr. simpl.
  rewrite Ha, Hb. simpl.
  destruct (dtype ta); try discriminate Na;
    destruct (dtype tb); try discriminate Nb; simpl;
    rewrite Hra, Hrb, Hsa, Hsb; simpl; rewrite !Hall;
    destruct (existsb is_None sa); simpl; rewrite ?Hmax; try reflexivity;
    simpl in Hunk; rewrite Hunk; simpl; rewrite ?Hmax; reflexivity.
Qed.

(** **** X13

    The order of an arithmetic node or a comparison over two numeric
    operands of fully known shapes: none when the rank of the node is at
    most 1, and otherwise the order of the operands when they agree and C
    when they do not. *)
Theorem binary_order (k : op_kind) (a b : node (dim := dim))
  (ta tb : attrs (dim := dim)) (ra rb : nat) (sa sb : list dim) (n : node (dim := dim)) :
  is_arithmetic k || is_comparison k = true ->
  numeric_attrs a ta -> numeric_attrs b tb ->
  rank ta = Some ra -> rank tb = Some rb ->
  shape ta = Some (map Some sa) -> shape tb = Some (map Some sb) ->
  Forall (fun e => sy_eqb e e = true) sb ->
  typed_node default_precision semantic k [a; b] = Ok n ->
  exists t,
    node_attrs n = Some t /\
    order t = if 1 <? List.length sb
              then if option_eqb ordering_eqb (order tb) (order ta)
                   then order ta else Some order_C
              else None.
Proof.
  intros Hk Ha Hb Hra Hrb Hsa Hsb Hrefl H.
  unfold typed_node in H.
  rewrite (binary_shape_rule _ _ Hk) in H.
  erewrite binary_shape_second in H by eassumption.
  destruct (_calculate_dtype default_precision k [a; b]) as [dp|]; [|discriminate].
  cbn [bind fst snd rank_gt_1] in H.
  destruct Ha as [Ha _], Hb as [Hb _].
  destruct (1 <? List.length sb).
  - unfold _set_order, all_order_agree, getattr in H. rewrite Ha, Hb in H.
    cbn [bind] in H. rewrite option_ordering_eqb_refl in H.
    destruct (option_eqb ordering_eqb (order tb) (order ta));
      cbn [bind] in H; inversion H; subst; eexists; split; reflexivity.
  - cbn [bind] in H. inversion H; subst. eexists; split; reflexivity.
Qed.

(* ------------------------------------------------------------------ *)
(** ** Dtype and precision *)

(** **** X14

    The dtype and precision of an arithmetic operator over two numeric
    operands do not depend on the order of the operands. *)
Theorem binary_dtype_symmetric (k : op_kind) (a b : node (dim := dim))
  (ta tb : attrs (dim := dim)) (p1 p2 : Z) :
  is_arithmetic k = true ->
  numeric_attrs a ta -> numeric_attrs b tb ->
  precision ta = Some p1 -> precision tb = Some p2 ->
  _calculate_dtype default_precision k [a; b]
  = _calculate_dtype default_precision k [b; a].
Proof.
  intros Hk [Ha Na] [Hb Nb] Hp1 Hp2.
  assert (Hk' : forall args : list (node (dim := dim)),
                _calculate_dtype default_precision k args
                = PyccelBinaryOperator__calculate_dtype default_precision k args).
  { intros args. destruct k; try discriminate Hk; reflexivity. }
  rewrite !Hk'. clear Hk'.
  unfold PyccelBinaryOperator__calculate_dtype, mapM, getattr. simpl.
  rewrite Ha, Hb. simpl.
  destruct (dtype ta); try discriminate Na;
    destruct (dtype tb); try discriminate Nb;
    destruct k; try discriminate Hk;
    cbn -[py_max Z.max];
    unfold _handle_complex_type, _handle_real_type, _handle_integer_type, mapM, getattr;
    cbn -[py_max Z.max]; rewrite ?Ha, ?Hb; cbn -[py_max Z.max];
    rewrite ?Hp1, ?Hp2; rewrite ?py_max_two; rewrite ?(Z.max_comm p2 p1); reflexivity.
Qed.

(** **** X15

    The dtype of a ternary operator over two numeric branches is the higher
    of the two dtypes in the order bool, integer, real, complex, and its
    precision the larger of the two precisions, also when that precision
    belongs to the branch of the lower dtype; neither depends on the order
    of the branches. *)
Theorem ternary_dtype (c vt vf : node (dim := dim)) (tt tf : attrs (dim := dim))
  (pt pf : Z) :
  numeric_attrs vt tt -> numeric_attrs vf tf ->
  precision tt = Some pt -> precision tf = Some pf ->
  IfTernaryOperator__calculate_dtype [c; vt; vf]
  = Ok (if NativeNumeric_index (dtype tt) <? NativeNumeric_index (dtype tf)
        then dtype tf else dtype tt, Some (Z.max pt pf)) /\
  IfTernaryOperator__calculate_dtype [c; vf; vt]
  = IfTernaryOperator__calculate_dtype [c; vt; vf].
Proof.
  intros [Ht Nt] [Hf Nf] Hpt Hpf.
  unfold IfTernaryOperator__calculate_dtype, getattr.
  rewrite Ht, Hf. cbn [bind]. rewrite Nt, Nf, Hpt, Hpf. cbn [andb].
  rewrite !py_max_two. cbn [bind]. rewrite (Z.max_comm pf pt).
  split; [reflexivity|].
  destruct (dtype tt); try discriminate Nt;
    destruct (dtype tf); try discriminate Nf; reflexivity.
Qed.

(* ------------------------------------------------------------------ *)
(** ** Literal folding *)

(** **** X17

    What the folding never does: a complex literal whose real part is not
    zero is never folded, by [PyccelAdd] or by [PyccelMinus], and
    [PyccelMinus] never folds an integer literal, on either side. *)
Theorem no_folding (x c : node (dim := dim)) (re im : float) (v : Z)
  (t : option (attrs (dim := dim))) :
  (complex_literal c = Some (re, im) -> eq_LiteralFloat_0 re = false ->
   PyccelAdd__new__ default_precision float_of_int x c = Instance /\
   PyccelAdd__new__ default_precision float_of_int c x = Instance /\
   PyccelMinus__new__ default_precision x c = Instance /\
   PyccelMinus__new__ default_precision c x = Instance) /\
  PyccelMinus__new__ default_precision (Leaf (LiteralInteger v) t) x = Instance /\
  PyccelMinus__new__ default_precision x (Leaf (LiteralInteger v) t) = Instance.
Proof.
  split; [|split].
  - intros Hc Hre.
    assert (Hcx : int_or_float_literal float_of_int c = None).
    { destruct c as [[]|]; simpl in *; congruence. }
    assert (Hcf : float_literal c = None).
    { destruct c as [[]|]; simpl in *; congruence. }
    unfold PyccelAdd__new__, PyccelMinus__new__, add_fold, minus_fold_left,
      minus_fold_right.
    rewrite Hc, Hre, Hcx, Hcf.
    destruct (int_or_float_literal float_of_int x), (float_literal x),
      (complex_literal x) as [[? ?]|]; auto.
  - unfold PyccelMinus__new__, minus_fold_left, minus_fold_right. cbn.
    destruct (float_literal x); reflexivity.
  - unfold PyccelMinus__new__, minus_fold_left, minus_fold_right. cbn.
    destruct (float_literal x), (complex_literal x) as [[? ?]|]; reflexivity.
Qed.

(* ------------------------------------------------------------------ *)
(** ** Operation counts *)

Import Arithmetic.

Lemma count_ops_Op (k : op_kind) (args : list (node (dim := dim)))
  (t : option (attrs (dim := dim))) :
  count_ops (Op k args t)
  = (ops <- sum_count_ops zero args ;; Ok (plus ops (symbol k))).
Proof.
reflexivity. Qed.

Lemma plus_zero_l (c : cost) : plus zero c = c.
Proof. destruct c; reflexivity. Qed.

Lemma plus_zero_r (c : cost) : plus c zero = c.
Proof. destruct c; unfold plus; simpl; rewrite !Nat.add_0_r; reflexivity. Qed.

Lemma count_ops_kept (a a' : node (dim := dim)) :
  kept_or_wrapped a a' -> count_ops a' = count_ops a.
Proof.
  intros [->|(t & ->)]; [reflexivity|].
  rewrite count_ops_Op. cbn [sum_count_ops].
  destruct (count_ops a) as [c|]; cbn; [|reflexivity].
  rewrite plus_zero_l. change (symbol PyccelAssociativeParenthesis) with zero.
  rewrite plus_zero_r. reflexivity.
Qed.

Lemma sum_count_ops_kept (args args' : list (node (dim := dim))) :
  Forall2 kept_or_wrapped args args' ->
  forall s, sum_count_ops s args' = sum_count_ops s args.
Proof.
  induction 1 as [|a a' rest rest' Ha _ IH]; intros s; cbn [sum_count_ops];
    [reflexivity|].
  rewrite (count_ops_kept Ha). destruct (count_ops a); cbn; [apply IH|reflexivity].
Qed.

(** **** X18

    The parentheses a constructor inserts are free: the operation count of
    the node it builds is the sum of the counts of the operands as they
    were given, plus the symbol of the operator. *)
Theorem parentheses_cost_nothing (st : stage) (k : op_kind)
  (args : list (node (dim := dim))) (n : node (dim := dim)) :
  PyccelOperator__init__ default_precision st k args = Ok n ->
  count_ops n
  = (ops <- sum_count_ops zero args ;; Ok (plus ops (symbol k))).
Proof.
  unfold PyccelOperator__init__. intros H.
  destruct (_handle_precedence default_precision st k args) as [args'|] eqn:Hhp;
    [|discriminate]. cbn [bind] in H.
  destruct (typed_node_args _ _ _ H) as (t & ->).
  rewrite count_ops_Op.
  rewrite (sum_count_ops_kept (handle_precedence_kept _ _ _ Hhp)). reflexivity.
Qed.

End TypingFacts.

(* ------------------------------------------------------------------ *)
(** ** Concrete instances *)

Lemma broadcast_rank_witness :
  List.length [ExtSym "m"; ExtInt 3]
  = Nat.max (List.length [ExtInt 3]) (List.length [ExtSym "m"; ExtSym "n"]).
Proof.
  apply (@broadcast_rank extent extent_oracle [ExtInt 3] [ExtSym "m"; ExtSym "n"]
           [ExtSym "m"; ExtInt 3]).
  reflexivity.
Defined.

Lemma broadcast_same_shape_witness :
  broadcast [ExtInt 3; ExtSym "n"] [ExtInt 3; ExtSym "n"] = Ok [ExtInt 3; ExtSym "n"].
Proof.
  apply (@broadcast_same_shape extent extent_oracle [ExtInt 3; ExtSym "n"]).
  repeat constructor.
Defined.

Lemma broadcast_with_scalar_witness :
  exists r1 r2,
    broadcast [] [ExtInt 3; ExtSym "n"] = Ok r1 /\
    broadcast [ExtInt 3; ExtSym "n"] [] = Ok r2 /\
    Forall2 scalar_extent [ExtInt 3; ExtSym "n"] r1 /\
    Forall2 scalar_extent [ExtInt 3; ExtSym "n"] r2.
Proof.
  apply (@broadcast_with_scalar extent extent_oracle [ExtInt 3; ExtSym "n"]).
  reflexivity.
Defined.

Lemma handle_precedence_stable_witness :
  let a := sample_var "a" NativeReal 8 [] in
  let b := sample_var "b" NativeReal 8 [] in
  List.length [a; b] = List.length [a; b] /\
  (forall i a', nth_error [a; b] i = Some a' -> wraps PyccelMul i a' = false) /\
  _handle_precedence sample_default_precision semantic PyccelMul [a; b] = Ok [a; b].
Proof.
  apply (@handle_precedence_stable extent extent_oracle sample_default_precision
           semantic PyccelMul
           [sample_var "a" NativeReal 8 []; sample_var "b" NativeReal 8 []]
           [sample_var "a" NativeReal 8 []; sample_var "b" NativeReal 8 []]).
  reflexivity.
Defined.

Lemma unary_preserves_type_witness :
  let a := sample_var "a" NativeReal 8 [ExtInt 3] in
  exists a',
    PyccelOperator__init__ sample_default_precision semantic PyccelUnarySub [a]
    = Ok (Op PyccelUnarySub [a']
            (Some (mk_attrs NativeReal (Some 8%Z) (Some 1) (Some [Some (ExtInt 3)]) None))) /\
    kept_or_wrapped a a'.
Proof.
  apply (@unary_preserves_type extent extent_oracle sample_default_precision
           PyccelUnarySub (sample_var "a" NativeReal 8 [ExtInt 3])
           (mk_attrs NativeReal (Some 8%Z) (Some 1) (Some [Some (ExtInt 3)]) None)
           (or_intror (or_introl eq_refl)) eq_refl).
Defined.

Lemma not_is_scalar_bool_witness :
  let a := sample_var "a" NativeReal 8 [ExtInt 3] in
  exists a',
    PyccelOperator__init__ sample_default_precision semantic PyccelNot [a]
    = Ok (Op PyccelNot [a']
            (Some (mk_attrs NativeBool (Some (sample_default_precision "bool"))
                            (Some 0) (Some []) None))) /\
    kept_or_wrapped a a'.
Proof.
  apply (@not_is_scalar_bool extent extent_oracle sample_default_precision
           (sample_var "a" NativeReal 8 [ExtInt 3])
           (mk_attrs NativeReal (Some 8%Z) (Some 1) (Some [Some (ExtInt 3)]) None)
           eq_refl).
Defined.

Lemma string_operands_witness :
  PyccelOperator__init__ sample_default_precision semantic PyccelAdd
    [sample_string "a"; sample_var "n" NativeInteger 4 []]
  = Raise AssertionError.
Proof.
  apply (@string_operands extent extent_oracle sample_default_precision PyccelAdd
           (sample_string "a") (sample_var "n" NativeInteger 4 [])
           (mk_attrs NativeString (Some 0%Z) (Some 0) (Some []) None)
           (mk_attrs NativeInteger (Some 4%Z) (Some 0) (Some []) None)
           (or_introl eq_refl) eq_refl eq_refl (or_introl eq_refl)).
Defined.

Lemma string_arithmetic_unsupported_witness :
  PyccelOperator__init__ sample_default_precision semantic PyccelMul
    [sample_string "a"; sample_string "b"]
  = Raise (TypeError "unsupported operand type(s) for /: 'str' and 'str'").
Proof.
  apply (@string_arithmetic_unsupported extent extent_oracle sample_default_precision
           PyccelMul (sample_string "a") (sample_string "b")
           (mk_attrs NativeString (Some 0%Z) (Some 0) (Some []) None)
           (mk_attrs NativeString (Some 0%Z) (Some 0) (Some []) None) eq_refl);
    [discriminate|reflexivity|reflexivity|left; reflexivity].
Defined.

Lemma binary_shape_is_second_operand_witness :
  _calculate_shape_rank PyccelAdd
    [sample_var "a" NativeInteger 4 [ExtInt 3]; sample_var "b" NativeInteger 4 []]
  = Ok (Some (map Some (@nil extent)), Some (List.length (@nil extent))).
Proof.
  apply (@binary_shape_is_second_operand extent extent_oracle PyccelAdd
           (sample_var "a" NativeInteger 4 [ExtInt 3]) (sample_var "b" NativeInteger 4 [])
           (mk_attrs NativeInteger (Some 4%Z) (Some 1) (Some [Some (ExtInt 3)]) None)
           (mk_attrs NativeInteger (Some 4%Z) (Some 0) (Some []) None) 1 0 [ExtInt 3] [] eq_refl (conj eq_refl eq_refl) (conj eq_refl eq_refl)
           eq_refl eq_refl eq_refl eq_refl).
  constructor.
Defined.

Lemma binary_shape_unknown_extents_witness :
  _calculate_shape_rank PyccelAdd [unknown_extent_var; sample_var "b" NativeReal 8 [ExtInt 3]]
  = Ok (Some (repeat None (Nat.max 2 1)), Some (Nat.max 2 1)).
Proof.
  apply (@binary_shape_unknown_extents extent extent_oracle PyccelAdd
           unknown_extent_var (sample_var "b" NativeReal 8 [ExtInt 3])
           (mk_attrs NativeReal (Some 8%Z) (Some 2) (Some [None; Some (ExtInt 3)]) None)
           (mk_attrs NativeReal (Some 8%Z) (Some 1) (Some [Some (ExtInt 3)]) None) 2 1 [None; Some (ExtInt 3)] [Some (ExtInt 3)]
           eq_refl (conj eq_refl eq_refl) (conj eq_refl eq_refl)
           eq_refl eq_refl eq_refl eq_refl eq_refl).
Defined.

Lemma binary_order_witness :
  exists t,
    node_attrs (Op PyccelAdd [matrix_var "a" order_F; matrix_var "b" order_C]
                   (Some (mk_attrs NativeReal (Some 8%Z) (Some 2)
                                   (Some [Some (ExtInt 2); Some (ExtInt 3)])
                                   (Some order_C)))) = Some t /\
    order t = if 1 <? List.length [ExtInt 2; ExtInt 3]
              then if option_eqb ordering_eqb (Some order_C) (Some order_F)
                   then Some order_F else Some order_C
              else None.
Proof.
  apply (@binary_order extent extent_oracle sample_default_precision PyccelAdd
           (matrix_var "a" order_F) (matrix_var "b" order_C)
           (mk_attrs NativeReal (Some 8%Z) (Some 2)
                     (Some [Some (ExtInt 2); Some (ExtInt 3)]) (Some order_F))
           (mk_attrs NativeReal (Some 8%Z) (Some 2)
                     (Some [Some (ExtInt 2); Some (ExtInt 3)]) (Some order_C)) 2 2
           [ExtInt 2; ExtInt 3] [ExtInt 2; ExtInt 3] _
           eq_refl (conj eq_refl eq_refl) (conj eq_refl eq_refl)
           eq_refl eq_refl eq_refl eq_refl);
    [repeat constructor|reflexivity].
Defined.

Lemma binary_dtype_symmetric_witness :
  _calculate_dtype sample_default_precision PyccelAdd
    [sample_var "a" NativeInteger 4 []; sample_var "b" NativeReal 8 []]
  = _calculate_dtype sample_default_precision PyccelAdd
      [sample_var "b" NativeReal 8 []; sample_var "a" NativeInteger 4 []].
Proof.
  apply (@binary_dtype_symmetric extent sample_default_precision PyccelAdd
           (sample_var "a" NativeInteger 4 []) (sample_var "b" NativeReal 8 [])
           (mk_attrs NativeInteger (Some 4%Z) (Some 0) (Some []) None)
           (mk_attrs NativeReal (Some 8%Z) (Some 0) (Some []) None) 4%Z 8%Z eq_refl (conj eq_refl eq_refl) (conj eq_refl eq_refl)
           eq_refl eq_refl).
Defined.

Lemma ternary_dtype_witness :
  let c := sample_var "c" NativeBool 4 [] in
  let vt := sample_var "i" NativeInteger 8 [] in
  let vf := sample_var "x" NativeReal 4 [] in
  IfTernaryOperator__calculate_dtype [c; vt; vf] = Ok (NativeReal, Some 8%Z) /\
  IfTernaryOperator__calculate_dtype [c; vf; vt]
  = IfTernaryOperator__calculate_dtype [c; vt; vf].
Proof.
  apply (@ternary_dtype extent (sample_var "c" NativeBool 4 [])
           (sample_var "i" NativeInteger 8 []) (sample_var "x" NativeReal 4 [])
           (mk_attrs NativeInteger (Some 8%Z) (Some 0) (Some []) None)
           (mk_attrs NativeReal (Some 4%Z) (Some 0) (Some []) None) 8%Z 4%Z (conj eq_refl eq_refl) (conj eq_refl eq_refl) eq_refl eq_refl).
Defined.

Lemma ternary_fatal_iff_witness :
  let c := sample_var "c" NativeBool 4 [] in
  let vt := sample_var "i" NativeInteger 4 [] in
  let vf := sample_string "no" in
  is_fatal (IfTernaryOperator__init__ sample_default_precision semantic c vt vf) = true /\
  is_ok (IfTernaryOperator__init__ sample_default_precision semantic c vt vf) = false.
Proof.
  apply (@ternary_fatal_iff extent extent_oracle sample_default_precision
           (sample_var "c" NativeBool 4 []) (sample_var "i" NativeInteger 4 [])
           (sample_string "no")
           (mk_attrs NativeBool (Some 4%Z) (Some 0) (Some []) None)
           (mk_attrs NativeInteger (Some 4%Z) (Some 0) (Some []) None)
           (mk_attrs NativeString (Some 0%Z) (Some 0) (Some []) None) 4%Z 0%Z eq_refl eq_refl eq_refl eq_refl eq_refl).
Defined.

Lemma syntactic_construction_witness :
  let a : node (dim := extent) := Leaf (PyVariable "a") None in
  let b : node (dim := extent) := Leaf Nil None in
  (exists args',
      PyccelOperator__init__ sample_default_precision syntactic PyccelAdd [a; b]
      = Ok (Op PyccelAdd args' None) /\
      Forall2 kept_or_wrapped [a; b] args') /\
  IfTernaryOperator__init__ sample_default_precision syntactic a b b
  = PyccelOperator__init__ sample_default_precision syntactic IfTernaryOperator [a; b; b].
Proof.
  apply (@syntactic_construction extent extent_oracle sample_default_precision PyccelAdd
           [Leaf (PyVariable "a") None; Leaf Nil None]).
  discriminate.
Defined.

Lemma parentheses_cost_nothing_witness :
  let a := sample_var "a" NativeReal 8 [] in
  let b := sample_var "b" NativeReal 8 [] in
  let sum := Op PyccelAdd [a; b]
                (Some (mk_attrs NativeReal (Some 8%Z) (Some 0) (Some []) None)) in
  let paren := Op PyccelAssociativeParenthesis [sum]
                  (Some (mk_attrs NativeReal (Some 8%Z) (Some 0) (Some []) None)) in
  Arithmetic.count_ops
    (Op PyccelMul [a; paren]
        (Some (mk_attrs NativeReal (Some 8%Z) (Some 0) (Some []) None)))
  = (ops <- Arithmetic.sum_count_ops Arithmetic.zero [a; sum] ;;
     Ok (Arithmetic.plus ops (Arithmetic.symbol PyccelMul))).
Proof.
  apply (@parentheses_cost_nothing extent extent_oracle sample_default_precision
           semantic PyccelMul).
  reflexivity.
Defined.

Lemma broadcast_raises_iff_witness :
  broadcast [ExtInt 2; ExtSym "n"] [ExtInt 3; ExtSym "n"]
  = Raise (PyccelSemanticError
             "operands could not be broadcast together with shapes (2, n) (3, n)") /\
  exists r, broadcast [ExtInt 2; ExtSym "n"] [ExtInt 1; ExtSym "n"] = Ok r.
Proof.
  split.
  - apply (proj1 (@broadcast_raises_iff extent extent_oracle
                    [ExtInt 2; ExtSym "n"] [ExtInt 3; ExtSym "n"])).
    reflexivity.
  - apply (proj2 (@broadcast_raises_iff extent extent_oracle
                    [ExtInt 2; ExtSym "n"] [ExtInt 1; ExtSym "n"])).
    reflexivity.
Defined.

Lemma no_folding_witness :
  let x : node (dim := extent) := Leaf (LiteralFloat 3%float) None in
  let c : node (dim := extent) := Leaf (LiteralComplex 1%float 2%float) None in
  PyccelAdd__new__ sample_default_precision python_float x c = Instance /\
  PyccelAdd__new__ sample_default_precision python_float c x = Instance /\
  PyccelMinus__new__ sample_default_precision x c = Instance /\
  PyccelMinus__new__ sample_default_precision c x = Instance.
Proof.
  apply (proj1 (@no_folding extent sample_default_precision python_float
                  (Leaf (LiteralFloat 3%float) None)
                  (Leaf (LiteralComplex 1%float 2%float) None)
                  1%float 2%float 0%Z None));
    reflexivity.
Defined.

(* ================================================================== *)
(** * Further properties of the generated wrappers *)

Section KeyFacts.

Import CWrapper.

Variable flags_registry : ctype -> Z -> option Z.
Variable env : environment.

Lemma fold_flags_injective (args1 : list FunctionDefArgument) :
  (forall d p f, flags_registry d p = Some f -> (0 <= f < 16)%Z) ->
  forall args2 key1 key2 k,
    List.length args1 = List.length args2 ->
    fold_flags flags_registry args1 key1 = Some k ->
    fold_flags flags_registry args2 key2 = Some k ->
    key1 = key2 /\ map (flag_of flags_registry) args1 = map (flag_of flags_registry) args2.
Proof.
  intros Hrange.
  induction args1 as [|a1 rest1 IH]; intros [|a2 rest2] key1 key2 k Hlen H1 H2;
    try discriminate Hlen; cbn [fold_flags map] in *.
  - split; congruence.
  - unfold flag_of.
    destruct (var a1) as [v1|]; [|discriminate].
    destruct (var a2) as [v2|]; [|discriminate].
    destruct (flags_registry (dtype v1) (precision v1)) as [f1|] eqn:E1; [|discriminate].
    destruct (flags_registry (dtype v2) (precision v2)) as [f2|] eqn:E2; [|discriminate].
    injection Hlen as Hlen.
    destruct (IH _ _ _ _ Hlen H1 H2) as [Hk Hm].
    rewrite !Z.shiftl_mul_pow2 in Hk by lia.
    apply Hrange in E1, E2.
    assert (key1 = key2 /\ f1 = f2) as [-> ->] by (change (2 ^ 4)%Z with 16%Z in Hk; lia).
    split; [reflexivity|]. f_equal. exact Hm.
Qed.

(** **** X19

    With flags of at most 4 bits, the type key of a signature determines
    the flags of its parameters: two signatures of the same arity with the
    same type key have the same flag at every position. *)
Theorem type_key_injective (n : nat) (f1 f2 : FunctionDef) (k : Z) :
  (forall d p f, flags_registry d p = Some f -> (0 <= f < 16)%Z) ->
  List.length (firstn n (arguments f1)) = List.length (firstn n (arguments f2)) ->
  type_key flags_registry n f1 = Some k ->
  type_key flags_registry n f2 = Some k ->
  map (flag_of flags_registry) (firstn n (arguments f1))
  = map (flag_of flags_registry) (firstn n (arguments f2)).
Proof.
  intros Hrange Hlen H1 H2.
  unfold type_key in H1, H2.
  eapply fold_flags_injective; eassumption.
Qed.

Lemma dispatch_key_fold (positions : list (list type_entry)) :
  forall (args : list FunctionDefArgument) (key_d key_f : Z),
    Forall2 (fun entries a =>
               exists elem,
                 find (fun e : type_entry => passes env (snd (fst e))) entries = Some elem /\
                 flag_of flags_registry a = Some (snd elem)) positions args ->
    key_d = (key_f * 16 ^ Z.of_nat (List.length positions))%Z ->
    exists k,
      fold_flags flags_registry args key_f = Some k /\
      dispatch_key env ((Z.of_nat (List.length positions) - 1) * 4) positions key_d = inl k.
Proof.
  induction positions as [|entries rest IH]; intros args key_d key_f H Hk;
    inversion H as [|? a ? args' (elem & Hfind & Hflag) Hrest]; subst.
  - exists key_f. split; [reflexivity|]. simpl. f_equal. lia.
  - cbn [dispatch_key fold_flags]. rewrite Hfind.
    unfold flag_of in Hflag. destruct (var a) as [v|]; [|discriminate]. rewrite Hflag.
    replace ((Z.of_nat (List.length (entries :: rest)) - 1) * 4 - 4)%Z
      with ((Z.of_nat (List.length rest) - 1) * 4)%Z by (simpl List.length; lia).
    apply IH; [exact Hrest|].
    rewrite !Z.shiftl_mul_pow2 by (simpl List.length; lia).
    replace ((Z.of_nat (List.length (entries :: rest)) - 1) * 4)%Z
      with (4 * Z.of_nat (List.length rest))%Z by (simpl List.length; lia).
    rewrite Z.pow_mul_r by lia. change (2 ^ 4)%Z with 16%Z.
    replace (Z.of_nat (List.length (entries :: rest)))
      with (Z.of_nat (List.length rest) + 1)%Z by (simpl List.length; lia).
    rewrite Z.pow_add_r by lia. lia.
Qed.

(** **** X20

    The type check and the dispatcher agree on the encoding: when at every
    position the first entry whose check passes carries the flag of the
    corresponding parameter of a signature, the key the type check
    assembles is the type key of that signature. *)
Theorem check_key_is_type_key (positions : list (list type_entry)) (func : FunctionDef) :
  Forall2 (fun entries a =>
             exists elem,
               find (fun e : type_entry => passes env (snd (fst e))) entries = Some elem /\
               flag_of flags_registry a = Some (snd elem))
          positions (arguments func) ->
  exists k,
    type_key flags_registry (List.length positions) func = Some k /\
    dispatch_key env ((Z.of_nat (List.length positions) - 1) * 4) positions 0 = inl k.
Proof.
  intros H. unfold type_key.
  replace (firstn (List.length positions) (arguments func)) with (arguments func)
    by (rewrite (Forall2_length H); symmetry; apply firstn_all).
  eapply dispatch_key_fold; [exact H|lia].
Qed.

End KeyFacts.

(* ------------------------------------------------------------------ *)
(** ** The names of the generated functions *)

Section NameFacts.

Import CWrapper.

Lemma name_in_In (n : string) (l : list string) :
  name_in n l = false <-> ~ In n l.
Proof.
  unfold name_in. induction l as [|x l IH]; simpl.
  - split; [intros _ []|reflexivity].
  - destruct (String.eqb_spec n x) as [->|Hne]; simpl.
    + split; [discriminate|]. intros H. exfalso. apply H. left. reflexivity.
    + rewrite IH. split.
      * intros H [E|E]; [apply Hne; symmetry; exact E|exact (H E)].
      * intros H E. apply H. right. exact E.
Qed.

Variable create_incremented_string : list string -> string -> string.
Variable flags_registry : ctype -> Z -> option Z.
Variable str_dtype : ctype -> string.
Variable set_order : list type_entry -> list type_entry.

Lemma build_results_self (self : printer) (used_names : list string) (res : list Var) :
  forall casts res_args used_names' self',
    build_results create_incremented_string self used_names res
      = (casts, res_args, used_names', self') ->
    _global_names self' = _global_names self /\
    _function_wrapper_names self' = _function_wrapper_names self /\
    _target_language self' = _target_language self /\
    _module_name self' = _module_name self.
Proof.
  revert self used_names.
  induction res as [|r rest IH]; intros self used casts res_args used' self' H; simpl in H.
  - inversion H; subst. auto.
  - unfold get_PyBuildValue in H.
    destruct (get_new_name _ _ _) as [cn u1].
    destruct (build_results _ _ _ _) as [[[casts' res_args'] u2] self2] eqn:E.
    inversion H; subst. apply IH in E. simpl in E. exact E.
Qed.

Lemma get_wrapper_name_self (self : printer) (used_names : list string)
  (func : string) (wn : string) (self' : printer) :
  _get_wrapper_name create_incremented_string self used_names func = (wn, self') ->
  _target_language self' = _target_language self /\
  _module_name self' = _module_name self /\
  _to_free_PyObject_list self' = _to_free_PyObject_list self.
Proof.
  unfold _get_wrapper_name.
  destruct (get_new_name _ _ _) as [nn u]. intros H. inversion H; subst. auto.
Qed.

(** [create_incremented_string] returns a name that is not in use. *)
Hypothesis incremented_string_fresh :
  forall used_names prefix,
    name_in (create_incremented_string used_names prefix) used_names = false.

Lemma get_new_name_fresh (used_names : list string) (requested : string)
  (n : string) (used_names' : list string) :
  get_new_name create_incremented_string used_names requested = (n, used_names') ->
  ~ In n used_names /\ used_names' = n :: used_names.
Proof.
  unfold get_new_name. destruct (name_in requested used_names) eqn:E; simpl;
    intros H; inversion H; subst; split; try reflexivity; apply name_in_In; auto.
Qed.

Lemma get_new_PyObject_fresh (n : string) (used_names : list string) (v : Var)
  (used_names' : list string) :
  get_new_PyObject create_incremented_string n used_names = (v, used_names') ->
  ~ In (name v) used_names /\ used_names' = name v :: used_names.
Proof.
  unfold get_new_PyObject.
  destruct (get_new_name _ _ _) as [nn u] eqn:E. intros H. inversion H; subst.
  simpl. eapply get_new_name_fresh, E.
Qed.

Lemma get_wrapper_name_fresh (self : printer) (used_names : list string)
  (func : string) (wn : string) (self' : printer) :
  _get_wrapper_name create_incremented_string self used_names func = (wn, self') ->
  ~ In wn used_names /\ ~ In wn (_global_names self) /\
  _global_names self' = wn :: _global_names self /\
  _function_wrapper_names self' = (func, wn) :: _function_wrapper_names self /\
  _target_language self' = _target_language self /\
  _module_name self' = _module_name self /\
  _to_free_PyObject_list self' = _to_free_PyObject_list self.
Proof.
  unfold _get_wrapper_name.
  destruct (get_new_name _ _ _) as [nn u] eqn:E. intros H. inversion H; subst.
  apply get_new_name_fresh in E. destruct E as [Hn _].
  rewrite in_app_iff in Hn. simpl. tauto.
Qed.

(** **** X21

    The name of the wrapper of a function is new: it differs from the name
    of the function, from the names of its arguments and results and from
    every global name; it becomes a global name and is recorded as the
    wrapper of the function. *)
Theorem print_FunctionDef_name (self : printer) (expr : FunctionDef)
  (wrapper : GeneratedFunctionDef) (self' : printer) :
  _print_FunctionDef create_incremented_string self expr = Ok (wrapper, self') ->
  let wrapper_name := generated_name wrapper in
  ~ In wrapper_name (_global_names self) /\
  wrapper_name <> func_name expr /\
  ~ In wrapper_name (map (fun a => argument_var_name (var a)) (arguments expr)) /\
  ~ In wrapper_name (map name (results expr)) /\
  _global_names self' = wrapper_name :: _global_names self /\
  _function_wrapper_names self'
  = (func_name expr, wrapper_name) :: _function_wrapper_names self.
Proof.
  unfold _print_FunctionDef. intros H.
  destruct (_get_wrapper_name _ _ _ _) as [wn self1] eqn:Hw.
  apply get_wrapper_name_fresh in Hw.
  destruct Hw as (Hused & Hglob & Hg & Hf & _).
  rewrite !in_app_iff in Hused. simpl in Hused.
  assert (Hgoal : ~ In wn (_global_names self) /\
                  wn <> func_name expr /\
                  ~ In wn (map (fun a => argument_var_name (var a)) (arguments expr)) /\
                  ~ In wn (map name (results expr))).
  { repeat split; try tauto. intros E. apply Hused. right. right. left. congruence. }
  destruct (get_new_PyObject _ "args" _) as [a u1].
  destruct (get_new_PyObject _ "kwargs" _) as [kw u2].
  destruct (get_new_PyObject _ "self" _) as [sf u3].
  destruct (get_new_PyObject _ "result" _) as [r u4].
  destruct (is_private expr).
  { inversion H; subst. simpl. tauto. }
  destruct (existsb _ _).
  { inversion H; subst. simpl. tauto. }
  destruct (get_new_name _ u4 "kwlist") as [kwn u5].
  destruct (collect_arguments _ _ _ _) as [[[[[ds tr] pa] cv] u6]|]; [|discriminate].
  cbn [bind] in H.
  destruct (_get_static_function _ _ _ _ _) as [[[[sfn sargs] ab] u7]|]; [|discriminate].
  cbn [bind] in H.
  destruct (build_results _ _ _ _) as [[[casts res_args] u8] self2] eqn:Hb.
  apply build_results_self in Hb. destruct Hb as (Hg2 & Hf2 & _).
  inversion H; subst. simpl. rewrite Hg2, Hf2, Hg, Hf. tauto.
Qed.

Lemma interface_functions_names (funcs : list FunctionDef) (parse_args : list Var)
  (check_var result_var : Var) :
  forall acc l,
    interface_functions create_incremented_string flags_registry funcs parse_args
      check_var result_var acc = Ok l ->
    exists minis,
      fl_funcs_def l = fl_funcs_def acc ++ minis /\
      _global_names (fl_self l)
      = rev (map generated_name minis) ++ _global_names (fl_self acc) /\
      NoDup (map generated_name minis) /\
      Forall (fun n => ~ In n (_global_names (fl_self acc))) (map generated_name minis).
Proof.
  induction funcs as [|func rest IH]; intros acc l H; simpl in H.
  - inversion H; subst. exists []. rewrite app_nil_r. simpl.
    repeat split; constructor.
  - destruct (interface_arguments _ _ _ _ _ _) as [a|]; [|discriminate]. cbn [bind] in H.
    destruct (_get_static_function _ _ _ _ _) as [[[[sfn sargs] ab] used]|]; [|discriminate].
    cbn [bind] in H.
    destruct (build_results _ _ _ _) as [[[casts res_args] used'] self'] eqn:Hb.
    apply build_results_self in Hb. destruct Hb as (Hg & _).
    destruct (get_new_name _ _ _) as [mini_name ignored] eqn:Hn.
    apply get_new_name_fresh in Hn. destruct Hn as [Hfresh _].
    rewrite in_app_iff in Hfresh. simpl in Hfresh. rewrite Hg in Hfresh.
    destruct (IH _ _ H) as (minis & Hdefs & Hglob & Hnd & Hall).
    cbn in Hdefs, Hglob, Hall. rewrite Hg in Hglob, Hall.
    eexists (_ :: minis). split; [rewrite Hdefs, <- app_assoc; reflexivity|].
    cbn [map generated_name rev]. split; [rewrite Hglob, <- app_assoc; reflexivity|].
    split.
    + constructor; [|exact Hnd]. intros Hin.
      rewrite Forall_forall in Hall. apply (Hall _ Hin). left. reflexivity.
    + constructor; [tauto|]. eapply Forall_impl; [|exact Hall].
      simpl. intros n Hn. tauto.
Qed.

(** **** X22

    The functions generated for an interface (the helper of every
    signature, the type check and the dispatcher) have pairwise distinct
    names, none of which was a global name before; afterwards the global
    names are these names and the former ones. *)
Theorem print_Interface_names (self : printer) (expr : Interface)
  (defs : list GeneratedFunctionDef) (self' : printer) :
  _print_Interface create_incremented_string flags_registry str_dtype set_order self expr
    = Ok (defs, self') ->
  NoDup (map generated_name defs) /\
  (forall n, In n (map generated_name defs) -> ~ In n (_global_names self)) /\
  (forall n, In n (_global_names self') <->
             In n (map generated_name defs) \/ In n (_global_names self)).
Proof.
  unfold _print_Interface. intros H.
  destruct (_get_wrapper_name _ _ _ _) as [wrapper_name self0] eqn:Hw.
  apply get_wrapper_name_fresh in Hw. destruct Hw as (_ & Hwg & Hg0 & _).
  destruct (get_new_PyObject _ "args" _) as [a u1].
  destruct (get_new_PyObject _ "kwargs" _) as [kwargs u2].
  destruct (get_new_PyObject _ "self" _) as [sf u3].
  destruct (get_new_PyObject _ "result" _) as [r u4].
  destruct (nth_arg (functions expr) 0) as [first|]; [|discriminate]. cbn [bind] in H.
  destruct (get_new_name _ u4 "kwlist") as [kwn u5].
  destruct (get_new_name _ u5 "check") as [cn u6].
  destruct (parse_arguments _ _ _) as [[parse_args u7]|]; [|discriminate].
  cbn [bind] in H.
  destruct (interface_functions _ _ _ _ _ _ _) as [l|] eqn:Hloop; [|discriminate].
  cbn [bind] in H.
  apply interface_functions_names in Hloop.
  destruct Hloop as (minis & Hdefs & Hglob & Hnd & Hall). cbn in Hdefs, Hglob, Hall.
  unfold _create_wrapper_check in H.
  destruct (get_new_name _ _ "type_check") as [check_name ignored] eqn:Hc.
  apply get_new_name_fresh in Hc. destruct Hc as [Hcfresh _].
  rewrite in_app_iff, Hglob, in_app_iff, <- in_rev, Hg0 in Hcfresh. simpl in Hcfresh.
  rewrite Hg0 in Hall. rewrite Forall_forall in Hall.
  rewrite Hdefs in H. clear Hdefs.
  inversion H; subst; clear H. cbn [app].
  rewrite !map_app. cbn [map generated_name].
  split; [|split].
  - apply NoDup_app; [exact Hnd| |].
    + constructor; [simpl; intros [E|[]]; apply Hcfresh; right; right; left; congruence|].
      constructor; [simpl; tauto|constructor].
    + intros n Hin [E|[E|[]]]; subst.
      * apply Hcfresh. right. left. exact Hin.
      * apply (Hall _ Hin). left. reflexivity.
  - intros n Hin. rewrite in_app_iff in Hin. simpl in Hin.
    destruct Hin as [Hin|[E|[E|[]]]]; subst.
    + intros Hg. apply (Hall _ Hin). right. exact Hg.
    + intros Hg. apply Hcfresh. right. right. right. exact Hg.
    + exact Hwg.
  - intros n. simpl. rewrite Hglob, !in_app_iff, <- in_rev, Hg0. simpl. tauto.
Qed.

End NameFacts.

(* ------------------------------------------------------------------ *)
(** ** The wrapper of a function *)

Section FunctionWrapperFacts.

Import CWrapper.

Variable create_incremented_string : list string -> string -> string.
Variable env : environment.

Lemma lookup_In {A : Type} (d : list (Var * A)) (key : Var) :
  In (name key) (map (fun p => name (fst p)) d) -> exists x, lookup d key = Ok x.
Proof.
  induction d as [|[k x] rest IH]; simpl; [tauto|].
  intros H. destruct (String.eqb_spec (name k) (name key)); [eauto|].
  destruct H as [H|H]; [contradiction|auto].
Qed.

Lemma static_arguments_ok (collect_dict : list (Var * Var)) (args : list FunctionDefArgument) :
  (forall a v, In a args -> var a = VariableArg v ->
               In (name v) (map (fun p => name (fst p)) collect_dict)) ->
  forall used_names, exists r,
    static_arguments create_incremented_string args collect_dict used_names = Ok r.
Proof.
  induction args as [|a rest IH]; intros Hin used; simpl; [eauto|].
  assert (H1 : exists r1,
             match var a with
             | VariableArg v =>
                 if 0 <? rank v
                 then collected <- lookup collect_dict v ;;
                      Ok (static_dims create_incremented_string v collected
                            (seq 0 (rank collected)) used)
                 else Ok ([], [], used)
             | FunctionAddressArg _ => Ok ([], [], used)
             end = Ok r1).
  { destruct (var a) as [v|] eqn:Hv; [|eauto].
    destruct (0 <? rank v); [|eauto].
    destruct (@lookup_In _ collect_dict v) as (x & ->); [|simpl; eauto].
    apply (Hin a v); [left; reflexivity|exact Hv]. }
  destruct H1 as ([[b1 a1] u1] & ->). cbn [bind].
  destruct (IH (fun a' v H => Hin a' v (or_intror H)) u1) as ([[b2 a2] u2] & ->).
  cbn [bind]. eauto.
Qed.

Lemma get_PyArgParseType_cases (used_names : list string) (v : Var) :
  let c := fst (get_PyArgParseType create_incremented_string used_names v) in
  (0 <? rank c) = (0 <? rank v) /\
  ((0 <? rank v) = false -> dtype c = PyccelPyObject).
Proof.
  unfold get_PyArgParseType. destruct (get_new_name _ _ _) as [n u].
  destruct (0 <? rank v) eqn:E; simpl; rewrite ?E; split; auto; discriminate.
Qed.

Lemma get_default_assign_collect (used_names : list string) (v : Var) (d : default_value) :
  let c := fst (get_PyArgParseType create_incremented_string used_names v) in
  get_default_assign c v d
  = Ok (AliasAssign (Variable_ c) (if 0 <? rank v then Nil else Variable_ Py_None)).
Proof.
  cbv zeta. destruct (get_PyArgParseType_cases used_names v) as [Hr Hd].
  unfold get_default_assign. rewrite Hr.
  destruct (0 <? rank v); [reflexivity|].
  rewrite (Hd eq_refl). destruct (is_optional v); reflexivity.
Qed.

Lemma collect_arguments_ok (self : printer)
  (lav : list (argument_var * FunctionDefArgument)) :
  existsb (fun va => isinstance_FunctionAddress (fst va)) lav = false ->
  forall used_names, exists ds tr pa cv u,
    collect_arguments create_incremented_string self lav used_names
      = Ok (ds, tr, pa, cv, u) /\
    map (fun p => name (fst p)) cv = map (fun va => argument_var_name (fst va)) lav /\
    Forall (fun s => exists c, s = AliasAssign (Variable_ c) Nil \/
                               s = AliasAssign (Variable_ c) (Variable_ Py_None)) ds.
Proof.
  induction lav as [|[[v|fa] arg] rest IH]; intros Hfa used; simpl in *.
  - do 5 eexists. split; [reflexivity|]. split; [reflexivity|constructor].
  - pose proof (get_default_assign_collect used v) as Hda. cbv zeta in Hda.
    destruct (get_PyArgParseType _ used v) as [c u1]. cbn [fst] in Hda.
    destruct (_body_management _ _ _ _ _ _ _) as [[body tmp] u2].
    destruct (IH Hfa u2) as (ds & tr & pa & cv & u & -> & Hkeys & Hds).
    destruct (value arg) as [d|].
    + rewrite Hda. cbn [bind]. do 5 eexists. split; [reflexivity|].
      split; [simpl; f_equal; exact Hkeys|].
      constructor; [|exact Hds]. exists c. destruct (0 <? rank v); auto.
    + cbn [bind]. do 5 eexists. split; [reflexivity|].
      split; [simpl; f_equal; exact Hkeys|exact Hds].
  - discriminate.
Qed.

Lemma local_arg_vars_names (args : list FunctionDefArgument) :
  map (fun va : argument_var * FunctionDefArgument => argument_var_name (fst va))
      (map (fun va : argument_var * FunctionDefArgument =>
              (match fst va with
               | VariableArg v =>
                   if (0 <? rank v) || is_optional v
                   then VariableArg (clone_pointer_static v)
                   else VariableArg v
               | other => other
               end, snd va))
           (map (fun a => (var a, a)) args))
  = map (fun a => argument_var_name (var a)) args.
Proof.
  induction args as [|a rest IH]; simpl; [reflexivity|]. rewrite IH. f_equal.
  destruct (var a) as [v|]; [|reflexivity].
  destruct ((0 <? rank v) || is_optional v); reflexivity.
Qed.

(** **** X23

    Building the wrapper of a function raises nothing, whatever the
    arguments (the constructors of the casts and checks taken as they
    are): a default value always finds the initialisation of its collect
    variable, and every array argument is found among the collected
    variables when its dimensions are passed to Fortran. *)
Theorem print_FunctionDef_total (self : printer) (expr : FunctionDef) :
  exists wrapper self',
    _print_FunctionDef create_incremented_string self expr = Ok (wrapper, self').
Proof.
  unfold _print_FunctionDef.
  destruct (_get_wrapper_name _ _ _ _) as [wn self1].
  destruct (get_new_PyObject _ "args" _) as [a u1].
  destruct (get_new_PyObject _ "kwargs" _) as [kw u2].
  destruct (get_new_PyObject _ "self" _) as [sf u3].
  destruct (get_new_PyObject _ "result" _) as [r u4].
  destruct (is_private expr); [eauto|].
  destruct (existsb _ _) eqn:Hfa; [eauto|].
  destruct (get_new_name _ u4 "kwlist") as [kwn u5].
  destruct (collect_arguments_ok self1 _ Hfa u5)
    as (ds & tr & pa & cv & u6 & -> & Hkeys & _). cbn [bind].
  rewrite local_arg_vars_names in Hkeys.
  assert (Hs : exists s, _get_static_function create_incremented_string self1 u6 expr cv
                         = Ok s).
  { unfold _get_static_function. destruct (_target_language self1); [eauto|].
    destruct (@static_arguments_ok cv (arguments expr)) with (used_names := u6)
      as ([[b sa] u7] & ->); [|cbn; eauto].
    intros a0 v Hin Hv. rewrite Hkeys. apply in_map_iff. exists a0.
    rewrite Hv. auto. }
  destruct Hs as ([[[sfn sargs] ab] u7] & ->). cbn [bind].
  destruct (build_results _ _ _ _) as [[[casts res_args] u8] self2]. eauto.
Qed.

Lemma collect_arguments_defaults (self : printer)
  (lav : list (argument_var * FunctionDefArgument)) :
  forall used ds tr pa cv u,
    collect_arguments create_incremented_string self lav used = Ok (ds, tr, pa, cv, u) ->
    forallb is_default_assign ds = true.
Proof.
  induction lav as [|[[v|fa] arg] rest IH]; intros used ds tr pa cv u H; simpl in H.
  - inversion H. reflexivity.
  - destruct (get_PyArgParseType _ used v) as [c u1].
    destruct (_body_management _ _ _ _ _ _ _) as [[body tmp] u2].
    destruct (match value arg with Some d => _ | None => _ end) as [ds0|] eqn:Hd;
      [|discriminate]. cbn [bind] in H.
    destruct (collect_arguments _ _ rest u2) as [[[[[ds' tr'] pa'] cv'] u']|] eqn:Hr;
      [|discriminate]. cbn [bind] in H. inversion H; subst.
    rewrite forallb_app, (IH _ _ _ _ _ _ Hr), andb_true_r.
    destruct (value arg) as [d|]; [|inversion Hd; reflexivity].
    destruct (get_default_assign c v d) as [s|] eqn:Hs; [|discriminate].
    cbn [bind] in Hd. inversion Hd; subst. simpl.
    rewrite (get_default_assign_form _ _ _ Hs). reflexivity.
  - discriminate.
Qed.

(** The body of the wrapper of an exposed function. *)
Lemma print_FunctionDef_body (self : printer) (expr : FunctionDef)
  (wrapper : GeneratedFunctionDef) (self' : printer) :
  _print_FunctionDef create_incremented_string self expr = Ok (wrapper, self') ->
  is_private expr = false ->
  existsb (fun a => isinstance_FunctionAddress (var a)) (arguments expr) = false ->
  exists self1 kw ds parse_node tr pa cv u5 u6 sfn sargs ab u7 casts res_args u8 self2 result_var,
    _target_language self1 = _target_language self /\
    _module_name self1 = _module_name self /\
    _to_free_PyObject_list self1 = _to_free_PyObject_list self /\
    collect_arguments create_incremented_string self1 (local_arg_vars expr) u5
      = Ok (ds, tr, pa, cv, u6) /\
    _get_static_function create_incremented_string self1 u6 expr cv
      = Ok (sfn, sargs, ab, u7) /\
    build_results create_incremented_string self1 u7 (results expr)
      = (casts, res_args, u8, self2) /\
    (exists pyarg pykwarg c_func_args,
        parse_node = PyArg_ParseTupleNode pyarg pykwarg c_func_args pa kw) /\
    body wrapper
    = [Keywords kw] ++ ds
      ++ [If [(PyccelNot parse_node, [Return [Nil]])]]
      ++ tr ++ ab
      ++ [function_call sfn sargs (results expr)]
      ++ casts
      ++ [AliasAssign (Variable_ result_var) (PyBuildValueNode res_args)]
      ++ map decref (_to_free_PyObject_list self2)
      ++ (match _target_language self2 with
          | lang_c => map Deallocate (arrays_of (local_arg_vars expr))
          | lang_fortran => []
          end)
      ++ [Return [Variable_ result_var]].
Proof.
  unfold _print_FunctionDef. intros H Hp Hfa.
  destruct (_get_wrapper_name _ _ _ _) as [wn self1] eqn:Hw.
  unfold _get_wrapper_name in Hw. destruct (get_new_name _ _ _) as [wn' ign] in Hw.
  inversion Hw; subst; clear Hw.
  destruct (get_new_PyObject _ "args" _) as [a u1].
  destruct (get_new_PyObject _ "kwargs" _) as [kw u2].
  destruct (get_new_PyObject _ "self" _) as [sf u3].
  destruct (get_new_PyObject _ "result" _) as [r u4].
  rewrite Hp, existsb_local_arg_vars, Hfa in H.
  destruct (get_new_name _ u4 "kwlist") as [kwn u5].
  change (map _ (map (fun a => (var a, a)) (arguments expr))) with (local_arg_vars expr) in H.
  destruct (collect_arguments _ _ _ u5) as [[[[[ds tr] pa] cv] u6]|] eqn:Hc;
    [|discriminate]. cbn [bind] in H.
  destruct (_get_static_function _ _ _ _ _) as [[[[sfn sargs] ab] u7]|] eqn:Hs;
    [|discriminate]. cbn [bind] in H.
  destruct (build_results _ _ _ _) as [[[casts res_args] u8] self2] eqn:Hb.
  inversion H; subst; clear H.
  do 18 eexists.
  split; [|split; [|split; [|split; [exact Hc|split; [exact Hs|split; [exact Hb|]]]]]];
    try reflexivity.
  split; [do 3 eexists; reflexivity|]. reflexivity.
Qed.

(** **** X24

    When the arguments of a call do not parse, the wrapper of an exposed
    function returns null at once: nothing is called and the error
    indicator is left as the parser set it. *)
Theorem function_wrapper_unparsed (self : printer) (expr : FunctionDef)
  (wrapper : GeneratedFunctionDef) (self' : printer) (m : machine) :
  _print_FunctionDef create_incremented_string self expr = Ok (wrapper, self') ->
  is_private expr = false ->
  existsb (fun a => isinstance_FunctionAddress (var a)) (arguments expr) = false ->
  parse_succeeds env = false ->
  run env wrapper m = (Null, m).
Proof.
  intros H Hp Hfa Hparse.
  destruct (print_FunctionDef_body _ _ H Hp Hfa)
    as (self1 & kw & ds & parse_node & tr & pa & cv & u5 & u6 & sfn & sargs & ab & u7
        & casts & res_args & u8 & self2 & result_var
        & _ & _ & _ & Hc & _ & _ & (pyarg & pykwarg & cfa & ->) & Hbody).
  unfold run. rewrite Hbody.
  rewrite exec_block_app. cbn [exec_block exec].
  rewrite exec_block_app.
  destruct (exec_defaults env ds (collect_arguments_defaults _ _ _ Hc) [] m) as [fr ->].
  cbn [app exec_block]. rewrite exec_parse_guard, Hparse. reflexivity.
Qed.

(** *** Compulsory scalar arguments *)

Lemma compulsory_no_function_address (args : list FunctionDefArgument) :
  forallb compulsory_scalar args = true ->
  existsb (fun a => isinstance_FunctionAddress (var a)) args = false.
Proof.
  induction args as [|a rest IH]; simpl; [reflexivity|].
  intros H. apply andb_true_iff in H. destruct H as [Ha Hr].
  rewrite (IH Hr), orb_false_r. unfold compulsory_scalar in Ha.
  destruct (var a); [reflexivity|discriminate].
Qed.

Lemma collect_arguments_simple (self : printer) (args : list FunctionDefArgument) :
  forallb compulsory_scalar args = true ->
  forall used ds tr pa cv u,
    collect_arguments create_incremented_string self
      (map (fun va : argument_var * FunctionDefArgument =>
              (match fst va with
               | VariableArg v =>
                   if (0 <? rank v) || is_optional v
                   then VariableArg (clone_pointer_static v)
                   else VariableArg v
               | other => other
               end, snd va))
           (map (fun a => (var a, a)) args)) used
    = Ok (ds, tr, pa, cv, u) ->
    ds = [] /\
    tr = map checked_scalar (combine (argument_variables args) pa) /\
    List.length pa = List.length (argument_variables args).
Proof.
  induction args as [|a rest IH]; intros Hs used ds tr pa cv u H; simpl in H.
  - inversion H. auto.
  - simpl in Hs. apply andb_true_iff in Hs. destruct Hs as [Ha Hr].
    unfold compulsory_scalar in Ha. unfold argument_variables. cbn [flat_map].
    destruct (var a) as [v|]; [|discriminate].
    destruct (value a); [discriminate|].
    apply andb_true_iff in Ha. destruct Ha as [Hrank Hopt].
    apply Nat.eqb_eq in Hrank. apply negb_true_iff in Hopt.
    cbn [fst snd] in H.
    assert (Hlt : (0 <? rank v) = false) by (rewrite Hrank; reflexivity).
    rewrite Hlt, Hopt in H. cbn [orb] in H.
    unfold get_PyArgParseType, _body_management in H.
    destruct (get_new_name _ used _) as [cn u1].
    rewrite Hlt, Hopt in H.
    destruct (collect_arguments _ _ _ u1) as [[[[[ds' tr'] pa'] cv'] u']|] eqn:Hrec;
      [|discriminate]. cbn [bind] in H. inversion H; subst.
    destruct (IH Hr _ _ _ _ _ _ Hrec) as (-> & -> & Hlen).
    cbn [app combine map List.length]. auto.
Qed.

Lemma static_arguments_simple (args : list FunctionDefArgument)
  (collect_dict : list (Var * Var)) :
  forallb compulsory_scalar args = true ->
  forall used,
    static_arguments create_incremented_string args collect_dict used
    = Ok ([], map var args, used).
Proof.
  induction args as [|a rest IH]; intros Hs used; simpl; [reflexivity|].
  simpl in Hs. apply andb_true_iff in Hs. destruct Hs as [Ha Hr].
  unfold compulsory_scalar in Ha.
  destruct (var a) as [v|]; [|discriminate].
  destruct (value a); [discriminate|].
  apply andb_true_iff in Ha. destruct Ha as [Hrank _].
  apply Nat.eqb_eq in Hrank. rewrite Hrank. cbn. rewrite (IH Hr). reflexivity.
Qed.

Lemma static_function_simple (self : printer) (used : list string) (expr : FunctionDef)
  (collect_dict : list (Var * Var)) :
  forallb compulsory_scalar (arguments expr) = true ->
  _get_static_function create_incremented_string self used expr collect_dict
  = Ok (static_callee self expr, map var (arguments expr), [], used).
Proof.
  intros Hs. unfold _get_static_function, static_callee.
  destruct (_target_language self); [reflexivity|].
  rewrite (static_arguments_simple _ collect_dict Hs). reflexivity.
Qed.

Lemma arrays_of_simple (args : list FunctionDefArgument) :
  forallb compulsory_scalar args = true ->
  arrays_of (map (fun va : argument_var * FunctionDefArgument =>
                    (match fst va with
                     | VariableArg v =>
                         if (0 <? rank v) || is_optional v
                         then VariableArg (clone_pointer_static v)
                         else VariableArg v
                     | other => other
                     end, snd va))
                 (map (fun a => (var a, a)) args)) = [].
Proof.
  induction args as [|a rest IH]; intros Hs; simpl; [reflexivity|].
  simpl in Hs. apply andb_true_iff in Hs. destruct Hs as [Ha Hr].
  unfold arrays_of in *. rewrite (IH Hr), app_nil_r.
  unfold compulsory_scalar in Ha.
  destruct (var a) as [v|]; [|discriminate].
  destruct (value a); [discriminate|].
  apply andb_true_iff in Ha. destruct Ha as [Hrank Hopt].
  apply Nat.eqb_eq in Hrank. apply negb_true_iff in Hopt.
  cbn [fst]. rewrite Hopt, Hrank. cbn. rewrite Hrank. reflexivity.
Qed.

Lemma machine_eta (m : machine) : mk_machine (error m) (calls m) = m.
Proof. destruct m; reflexivity. Qed.

Lemma exec_function_call (self : printer) (f : FunctionDef) (sargs : list argument_var)
  (res : list Var) (fr : frame) (m : machine) :
  exists fr',
    exec env (function_call (static_callee self f) sargs res) fr m
    = (Normal, fr', record_call (static_callee self f) m).
Proof.
  unfold function_call, static_callee.
  destruct (_target_language self); destruct res as [|r [|r' res]]; cbn; eauto.
Qed.

Lemma exec_casts (res : list Var) :
  forall self used casts res_args u self2 fr m,
    build_results create_incremented_string self used res = (casts, res_args, u, self2) ->
    List.length (_to_free_PyObject_list self2)
    = List.length (_to_free_PyObject_list self) + List.length res /\
    exists fr',
      exec_block env casts fr m
      = (Normal, fr', mk_machine (error m) (calls m ++ map C_to_Python res)).
Proof.
  induction res as [|r rest IH]; intros self used casts res_args u self2 fr m H;
    simpl in H.
  - inversion H; subst. split; [simpl; lia|]. exists fr. cbn.
    rewrite app_nil_r, machine_eta. reflexivity.
  - unfold get_PyBuildValue in H.
    destruct (get_new_name _ _ _) as [cn u1].
    destruct (build_results _ _ _ _) as [[[casts' res_args'] u2] self3] eqn:E.
    inversion H; subst; clear H.
    destruct (IH _ _ _ _ _ _
                ((cn, Opaque (FunctionCall (C_to_Python r) [VariableAddress r])) :: fr)
                (record_call (C_to_Python r) m) E) as [Hlen [fr' Hrun]].
    split.
    + rewrite Hlen. cbn. rewrite length_app. simpl. lia.
    + exists fr'. cbn [exec_block]. cbn [exec eval assign name].
      rewrite Hrun. cbn. rewrite <- app_assoc. reflexivity.
Qed.

Lemma exec_decrefs (l : list Var) :
  forall fr m,
    exec_block env (map decref l) fr m
    = (Normal, fr, mk_machine (error m) (calls m ++ repeat Py_DECREF (List.length l))).
Proof.
  induction l as [|i l IH]; intros fr m.
  - cbn. rewrite app_nil_r, machine_eta. reflexivity.
  - cbn [map exec_block]. unfold decref at 1. cbn [exec eval].
    rewrite IH. cbn. rewrite <- app_assoc. reflexivity.
Qed.

Lemma exec_deallocates (l : list Var) :
  forall fr m, exec_block env (map Deallocate l) fr m = (Normal, fr, m).
Proof. induction l as [|i l IH]; intros fr m; cbn; auto. Qed.

Lemma exec_unchecked_scalars (vcs : list (Var * Var)) :
  forall fr m,
    exists fr',
      exec_block env (map unchecked_scalar vcs) fr m
      = (Normal, fr',
         mk_machine (error m) (calls m ++ map Python_to_C (map fst vcs))).
Proof.
  induction vcs as [|vc rest IH]; intros fr m.
  - exists fr. cbn. rewrite app_nil_r, machine_eta. reflexivity.
  - destruct (IH ((name (fst vc), Opaque (FunctionCall (Python_to_C (fst vc))
                                            [Variable_ (snd vc)])) :: fr)
                 (record_call (Python_to_C (fst vc)) m)) as [fr' Hrun].
    exists fr'. cbn [map exec_block]. unfold unchecked_scalar at 1, _body_scalar.
    cbn [app exec eval truthy negb Z.eqb assign]. cbn [exec_block] in Hrun |- *.
    rewrite Hrun. cbn. rewrite <- app_assoc. reflexivity.
Qed.

Lemma map_fst_combine {A B : Type} (l : list A) (l' : list B) :
  List.length l' = List.length l -> map fst (combine l l') = l.
Proof.
  revert l'. induction l as [|x l IH]; intros [|y l'] H; simpl in *;
    try discriminate; [reflexivity|]. f_equal. apply IH. congruence.
Qed.

(** The truth of a scalar type check depends on the variable only. *)
Variable ok : Var -> bool.
Hypothesis holds_scalar_check :
  forall c v, holds env (scalar_object_check c v) = ok v.

Lemma exec_checked_scalar (vc : Var * Var) (fr : frame) (m : machine) :
  exec env (checked_scalar vc) fr m
  = if ok (fst vc)
    then (Normal,
          (name (fst vc),
           Opaque (FunctionCall (Python_to_C (fst vc)) [Variable_ (snd vc)])) :: fr,
          record_call (Python_to_C (fst vc)) m)
    else (Returned [Null], fr,
          set_error "PyExc_TypeError" (datatype_error_message env (fst vc)) m).
Proof.
  destruct vc as [v c]. unfold checked_scalar, _body_scalar. cbn.
  rewrite holds_scalar_check. destruct (ok v); reflexivity.
Qed.

Lemma exec_checked_scalars (vcs : list (Var * Var)) :
  forall fr m,
    forallb ok (map fst vcs) = true ->
    exists fr',
      exec_block env (map checked_scalar vcs) fr m
      = (Normal, fr',
         mk_machine (error m) (calls m ++ map Python_to_C (map fst vcs))).
Proof.
  induction vcs as [|vc rest IH]; intros fr m H.
  - exists fr. cbn. rewrite app_nil_r, machine_eta. reflexivity.
  - cbn [map forallb] in H. apply andb_true_iff in H. destruct H as [Hv Hr].
    cbn [map exec_block]. rewrite exec_checked_scalar, Hv.
    destruct (IH ((name (fst vc), Opaque (FunctionCall (Python_to_C (fst vc))
                                            [Variable_ (snd vc)])) :: fr)
                 (record_call (Python_to_C (fst vc)) m) Hr) as [fr' ->].
    exists fr'. cbn. rewrite <- app_assoc. reflexivity.
Qed.

Lemma exec_checked_scalars_reject (vcs : list (Var * Var)) (tail : list stmt) :
  forall passed v rest fr m,
    map fst vcs = passed ++ v :: rest ->
    forallb ok passed = true -> ok v = false ->
    exists fr',
      exec_block env (map checked_scalar vcs ++ tail) fr m
      = (Returned [Null], fr',
         mk_machine (Some ("PyExc_TypeError"%string, datatype_error_message env v))
                    (calls m ++ map Python_to_C passed)).
Proof.
  induction vcs as [|vc vcs IH]; intros passed v rest fr m Hsplit Hp Hv.
  - destruct passed; discriminate Hsplit.
  - destruct passed as [|p passed]; cbn [map app] in Hsplit; inversion Hsplit; subst.
    + exists fr. cbn [map app exec_block]. rewrite exec_checked_scalar, Hv.
      cbn. rewrite app_nil_r. reflexivity.
    + cbn [forallb] in Hp. apply andb_true_iff in Hp. destruct Hp as [Hp1 Hp2].
      cbn [map app exec_block]. rewrite exec_checked_scalar, Hp1.
      destruct (IH passed v rest
                   ((name (fst vc), Opaque (FunctionCall (Python_to_C (fst vc))
                                              [Variable_ (snd vc)])) :: fr)
                   (record_call (Python_to_C (fst vc)) m) H1 Hp2 Hv) as [fr' ->].
      exists fr'. cbn. rewrite <- app_assoc. reflexivity.
Qed.

(** **** X25

    The wrapper of an exposed function all of whose arguments are
    compulsory scalars, on a call whose arguments parse: when every
    argument passes its type check, each is converted, the translated
    function is called once, its results are converted and the built value
    is returned with the error indicator untouched; otherwise the arguments
    before the first one that fails are converted, a [TypeError] for that
    argument is set, and null is returned without calling the translated
    function. *)
Theorem function_wrapper_run (self : printer) (expr : FunctionDef)
  (wrapper : GeneratedFunctionDef) (self' : printer) (m : machine) :
  _print_FunctionDef create_incremented_string self expr = Ok (wrapper, self') ->
  is_private expr = false ->
  forallb compulsory_scalar (arguments expr) = true ->
  parse_succeeds env = true ->
  let vars := argument_variables (arguments expr) in
  (forallb ok vars = true ->
   exists res_args,
     run env wrapper m
     = (Opaque (PyBuildValueNode res_args),
        mk_machine (error m)
          (calls m ++ map Python_to_C vars ++ [static_callee self expr]
           ++ map C_to_Python (results expr)
           ++ repeat Py_DECREF (List.length (_to_free_PyObject_list self)
                                + List.length (results expr))))) /\
  (forall passed v rest,
      vars = passed ++ v :: rest -> forallb ok passed = true -> ok v = false ->
      run env wrapper m
      = (Null,
         mk_machine (Some ("PyExc_TypeError"%string, datatype_error_message env v))
                    (calls m ++ map Python_to_C passed))).
Proof.
  intros H Hp Hs Hparse VARS. subst VARS.
  pose proof (compulsory_no_function_address _ Hs) as Hfa.
  destruct (print_FunctionDef_body _ _ H Hp Hfa)
    as (self1 & kw & ds & parse_node & tr & pa & cv & u5 & u6 & sfn & sargs & ab & u7
        & casts & res_args & u8 & self2 & result_var
        & Hlang & Hmod & Hfree & Hc & Hstatic & Hb & (pyarg & pykwarg & cfa & ->) & Hbody).
  unfold local_arg_vars in *.
  destruct (collect_arguments_simple _ _ Hs _ Hc) as (-> & -> & Hlen).
  rewrite (static_function_simple self1 u6 expr cv Hs) in Hstatic.
  inversion Hstatic; subst sfn sargs ab u7; clear Hstatic.
  assert (Hcallee : static_callee self1 expr = static_callee self expr).
  { unfold static_callee. rewrite Hlang, Hmod. reflexivity. }
  assert (Hstart : forall b,
             exec_block env ([Keywords kw] ++ []
                             ++ [If [(PyccelNot (PyArg_ParseTupleNode pyarg pykwarg cfa pa kw),
                                      [Return [Nil]])]] ++ b) [] m
             = exec_block env b [] m).
  { intros b. cbn [app exec_block].
    replace (exec env (Keywords kw) [] m) with (Normal, @nil (string * cvalue), m)
      by reflexivity.
    cbv iota beta. rewrite exec_parse_guard, Hparse. reflexivity. }
  unfold run. rewrite Hbody, Hstart.
  split.
  - intros Hall.
    destruct (exec_checked_scalars (combine (argument_variables (arguments expr)) pa) [] m) as [fr1 Hrun1].
    { rewrite (map_fst_combine _ _ Hlen). exact Hall. }
    rewrite (map_fst_combine _ _ Hlen) in Hrun1.
    rewrite exec_block_app, Hrun1. cbn [app exec_block].
    destruct (exec_function_call self1 expr (map var (arguments expr)) (results expr)
                fr1 (mk_machine (error m) (calls m ++ map Python_to_C (argument_variables (arguments expr)))))
      as [fr2 ->].
    destruct (exec_casts _ _ _ fr2
                (record_call (static_callee self1 expr)
                   (mk_machine (error m) (calls m ++ map Python_to_C (argument_variables (arguments expr))))) Hb)
      as [Hfreelen [fr3 Hrun3]].
    rewrite exec_block_app, Hrun3. cbn [app exec_block].
    cbn [exec eval assign].
    rewrite exec_block_app, exec_decrefs.
    rewrite exec_block_app.
    assert (Hdealloc : forall fr mm,
               exec_block env
                 match _target_language self2 with
                 | lang_c =>
                     map Deallocate
                       (arrays_of
                          (map (fun va : argument_var * FunctionDefArgument =>
                                  (match fst va with
                                   | VariableArg v =>
                                       if (0 <? rank v) || is_optional v
                                       then VariableArg (clone_pointer_static v)
                                       else VariableArg v
                                   | other => other
                                   end, snd va))
                               (map (fun a => (var a, a)) (arguments expr))))
                 | lang_fortran => []
                 end fr mm = (Normal, fr, mm)).
    { intros fr mm. destruct (_target_language self2); [|reflexivity].
      apply exec_deallocates. }
    rewrite Hdealloc. cbn [exec_block exec eval local name].
    rewrite String.eqb_refl. cbn [return_value].
    exists res_args. f_equal. cbn [error calls record_call].
    rewrite Hfreelen, Hfree, Hcallee. f_equal.
    rewrite <- !app_assoc. reflexivity.
  - intros passed v rest Hsplit Hpassed Hv.
    match goal with
    | |- context [exec_block env (map checked_scalar ?vcs ++ ?tail) [] m] =>
        destruct (@exec_checked_scalars_reject vcs tail passed v rest [] m) as [fr' ->]
    end; [rewrite (map_fst_combine _ _ Hlen); exact Hsplit|exact Hpassed|exact Hv|].
    reflexivity.
Qed.

End FunctionWrapperFacts.

(* ------------------------------------------------------------------ *)
(** ** The helpers of an interface *)

Section HelperFacts.

Import CWrapper.

Variable create_incremented_string : list string -> string -> string.
Variable flags_registry : ctype -> Z -> option Z.
Variable str_dtype : ctype -> string.
Variable set_order : list type_entry -> list type_entry.
Variable env : environment.

Lemma interface_arguments_simple (self : printer) (parse_args : list Var)
  (args : list FunctionDefArgument) :
  forallb compulsory_scalar args = true ->
  forall ps acc l,
    List.length args <= List.length ps ->
    interface_arguments create_incremented_string flags_registry self parse_args
      (combine ps (map (fun a =>
                          (match var a with
                           | VariableArg v =>
                               let v := if 0 <? rank v then clone_pointer_static v else v in
                               VariableArg (if is_optional v then clone_pointer v else v)
                           | other => other
                           end, a)) args)) acc = Ok l ->
    exists vcs,
      map fst vcs = argument_variables args /\
      loop_body l = loop_body acc ++ map unchecked_scalar vcs.
Proof.
  induction args as [|a rest IH]; intros Hs ps acc l Hlen H.
  - destruct ps; simpl in H; inversion H; subst; exists []; rewrite app_nil_r; auto.
  - destruct ps as [|p ps]; [simpl in Hlen; lia|].
    simpl in Hs. apply andb_true_iff in Hs. destruct Hs as [Ha Hr].
    unfold compulsory_scalar in Ha. cbn [map combine] in H.
    unfold argument_variables. cbn [flat_map].
    destruct (var a) as [v|]; [|discriminate].
    destruct (value a) eqn:Hval; [discriminate|].
    apply andb_true_iff in Ha. destruct Ha as [Hrank Hopt].
    apply Nat.eqb_eq in Hrank. apply negb_true_iff in Hopt.
    assert (Hlt : (0 <? rank v) = false) by (rewrite Hrank; reflexivity).
    cbv zeta in H. rewrite Hlt, Hopt in H.
    cbn [interface_arguments] in H. rewrite Hval in H.
    unfold _body_management in H. rewrite Hlt, Hopt in H. cbn [bind] in H.
    destruct (flags_registry (dtype v) (precision v)); [|discriminate]. cbn [bind] in H.
    destruct (types_dict_add _ _ _) as [td|]; [|discriminate]. cbn [bind] in H.
    apply IH in H; [|exact Hr|simpl in Hlen; lia].
    destruct H as (vcs & Hvcs & Hbody). cbn [loop_body] in Hbody.
    exists ((v, p) :: vcs). split; [simpl; f_equal; exact Hvcs|].
    rewrite Hbody, <- app_assoc. reflexivity.
Qed.

Lemma static_callee_same (self self1 : printer) (f : FunctionDef) :
  _target_language self1 = _target_language self ->
  _module_name self1 = _module_name self ->
  static_callee self1 f = static_callee self f.
Proof. intros H1 H2. unfold static_callee. rewrite H1, H2. reflexivity. Qed.

Lemma interface_functions_helpers (funcs : list FunctionDef) (parse_args : list Var)
  (check_var result_var : Var) :
  forall acc l,
    interface_functions create_incremented_string flags_registry funcs parse_args
      check_var result_var acc = Ok l ->
    _to_free_PyObject_list (fl_self acc) = [] ->
    exists minis,
      fl_funcs_def l = fl_funcs_def acc ++ minis /\
      Forall2 (helper_runs env (fl_self acc) parse_args) funcs minis.
Proof.
  induction funcs as [|func rest IH]; intros acc l H Hfree; simpl in H.
  - inversion H; subst. exists []. rewrite app_nil_r. split; [reflexivity|constructor].
  - destruct (interface_arguments _ _ _ _ _ _) as [a|] eqn:Hargs; [|discriminate].
    cbn [bind] in H.
    destruct (_get_static_function _ _ _ _ _) as [[[[sfn sargs] ab] used]|] eqn:Hstatic;
      [|discriminate].
    cbn [bind] in H.
    destruct (build_results _ _ _ _) as [[[casts res_args] used'] self2] eqn:Hb.
    pose proof (build_results_self _ _ _ _ Hb) as (Hg & Hw & Hlang & Hmod).
    destruct (get_new_name _ _ _) as [mini_name ignored] eqn:Hn.
    apply IH in H; [|reflexivity].
    destruct H as (minis & Hdefs & Hall). cbn [fl_funcs_def fl_self] in Hdefs, Hall.
    eexists (_ :: minis). split; [rewrite Hdefs, <- app_assoc; reflexivity|].
    constructor.
    + intros Hs Hlen.
      unfold interface_local_arg_vars in Hargs.
      destruct (interface_arguments_simple _ _ _ Hs _ _ Hlen Hargs) as (vcs & Hvcs & Hbody).
      cbn [loop_body app] in Hbody.
      rewrite (static_function_simple create_incremented_string (fl_self acc) _ func _ Hs)
        in Hstatic.
      inversion Hstatic; subst sfn sargs ab used; clear Hstatic.
      exists res_args. intros m. unfold run. cbn [body]. rewrite Hbody.
      destruct (exec_unchecked_scalars env vcs [] m) as [fr1 Hrun1].
      rewrite exec_block_app, Hrun1, Hvcs. cbn [app exec_block].
      destruct (exec_function_call env (fl_self acc) func (map var (arguments func))
                  (results func) fr1
                  (mk_machine (error m)
                     (calls m ++ map Python_to_C (argument_variables (arguments func)))))
        as [fr2 ->].
      destruct (exec_casts create_incremented_string env _ _ _ fr2
                  (record_call (static_callee (fl_self acc) func)
                     (mk_machine (error m)
                        (calls m ++ map Python_to_C (argument_variables (arguments func)))))
                  Hb)
        as [Hfreelen [fr3 Hrun3]].
      rewrite exec_block_app, Hrun3. cbn [app exec_block].
      cbn [exec eval assign].
      change (map (fun i : Var => ExprStmt (FunctionCall Py_DECREF [Variable_ i])))
        with (map decref).
      rewrite exec_block_app, exec_decrefs.
      rewrite exec_block_app.
      unfold interface_local_arg_vars.
      assert (Hdealloc : forall fr mm,
                 exec_block env
                   match _target_language self2 with
                   | lang_c =>
                       map Deallocate
                         (arrays_of
                            (map (fun a =>
                                    (match var a with
                                     | VariableArg v =>
                                         let v := if 0 <? rank v
                                                  then clone_pointer_static v else v in
                                         VariableArg (if is_optional v
                                                      then clone_pointer v else v)
                                     | other => other
                                     end, a)) (arguments func)))
                   | lang_fortran => []
                   end fr mm = (Normal, fr, mm)).
      { intros fr mm. destruct (_target_language self2); [|reflexivity].
        apply exec_deallocates. }
      rewrite Hdealloc. cbn [exec_block exec eval local name].
      rewrite String.eqb_refl. cbn [return_value].
      f_equal. cbn [error calls record_call].
      rewrite Hfreelen, Hfree. cbn [List.length Nat.add]. f_equal.
      rewrite <- !app_assoc. reflexivity.
    + eapply Forall2_impl; [|exact Hall].
      intros f mini Hruns Hs Hlen. destruct (Hruns Hs Hlen) as [ra Hrun].
      exists ra. intros m. rewrite Hrun.
      rewrite (@static_callee_same (fl_self acc)
                 (add_global_name mini_name (set_to_free [] self2)) f);
        [reflexivity|exact Hlang|exact Hmod].
Qed.

(** **** X26

    The helper of a signature of an interface, when the arguments of the
    signature are compulsory scalars: it checks no type again; it converts
    every argument, calls the translated function once, converts the
    results and returns the built value, leaving the error indicator as it
    was. *)
Theorem interface_helper_run (self : printer) (expr : Interface)
  (defs : list GeneratedFunctionDef) (self' : printer) (i : nat)
  (first func : FunctionDef) (mini : GeneratedFunctionDef) :
  _print_Interface create_incremented_string flags_registry str_dtype set_order self expr
    = Ok (defs, self') ->
  _to_free_PyObject_list self = [] ->
  nth_error (functions expr) 0 = Some first ->
  nth_error (functions expr) i = Some func ->
  nth_error defs i = Some mini ->
  forallb compulsory_scalar (arguments func) = true ->
  List.length (arguments func) <= List.length (arguments first) ->
  exists res_args, forall m,
    run env mini m
    = (Opaque (PyBuildValueNode res_args),
       mk_machine (error m)
         (calls m ++ map Python_to_C (argument_variables (arguments func))
          ++ [static_callee self func]
          ++ map C_to_Python (results func)
          ++ repeat Py_DECREF (List.length (results func)))).
Proof.
  unfold _print_Interface. intros H Hfree Hfirst Hfunc Hmini Hs Hlen.
  destruct (_get_wrapper_name _ _ _ _) as [wrapper_name self0] eqn:Hw.
  apply get_wrapper_name_self in Hw.
  destruct Hw as (Hlang & Hmod & Hfree0).
  destruct (get_new_PyObject _ "args" _) as [a u1].
  destruct (get_new_PyObject _ "kwargs" _) as [kwargs u2].
  destruct (get_new_PyObject _ "self" _) as [sf u3].
  destruct (get_new_PyObject _ "result" _) as [r u4].
  unfold nth_arg in H. rewrite Hfirst in H. cbn [bind] in H.
  destruct (get_new_name _ u4 "kwlist") as [kwn u5].
  destruct (get_new_name _ u5 "check") as [cn u6].
  destruct (parse_arguments _ _ _) as [[parse_args u7]|] eqn:Hparse; [|discriminate].
  cbn [bind] in H.
  apply parse_arguments_length in Hparse.
  destruct (interface_functions _ _ _ _ _ _ _) as [l|] eqn:Hloop; [|discriminate].
  cbn [bind] in H.
  apply interface_functions_helpers in Hloop; [|cbn [fl_self]; congruence].
  destruct Hloop as (minis & Hdefs & Hall). cbn [fl_funcs_def fl_self app] in Hdefs, Hall.
  destruct (_create_wrapper_check _ _ _ _ _ _ _ _ _) as [check_def self2].
  inversion H; subst defs self'; clear H.
  rewrite Hdefs in Hmini.
  assert (Hi : i < List.length minis).
  { rewrite <- (Forall2_length Hall). apply nth_error_Some. congruence. }
  rewrite nth_error_app1 in Hmini by exact Hi.
  assert (Hruns : helper_runs env self0 parse_args func mini).
  { clear - Hall Hfunc Hmini. revert i Hfunc Hmini.
    induction Hall as [|f mn fs mns Hf _ IH]; intros [|i] Hfunc Hmini;
      simpl in *; try discriminate.
    - inversion Hfunc; inversion Hmini; subst. exact Hf.
    - eapply IH; eassumption. }
  rewrite <- Hparse in Hlen.
  destruct (Hruns Hs Hlen) as [res_args Hrun].
  exists res_args. intros m. rewrite Hrun.
  rewrite (@static_callee_same self self0 func Hlang Hmod). reflexivity.
Qed.

End HelperFacts.

(* ------------------------------------------------------------------ *)
(** ** Concrete instances *)

Section WrapperInstances.

Import CWrapper.

Lemma string_length_append (a b : string) :
  String.length (a ++ b) = String.length a + String.length b.
Proof. induction a as [|c a IH]; simpl; congruence. Qed.

Lemma padding_length (n : nat) : String.length (padding n) = n.
Proof. induction n; cbn; congruence. Qed.

Lemma longest_bound (names : list string) (n : string) :
  In n names -> String.length n <= longest names.
Proof.
  induction names as [|x rest IH]; simpl; [tauto|].
  intros [->|H]; [lia|]. specialize (IH H). lia.
Qed.

Lemma sample_fresh_string_fresh (used_names : list string) (prefix : string) :
  name_in (sample_fresh_string used_names prefix) used_names = false.
Proof.
  apply name_in_In. intros H. apply longest_bound in H.
  unfold sample_fresh_string in H.
  rewrite string_length_append, padding_length in H. lia.
Qed.

Lemma sample_flags_in_range (d : ctype) (p f : Z) :
  sample_flags_registry d p = Some f -> (0 <= f < 16)%Z.
Proof.
  destruct d as [[]| |]; simpl; try discriminate;
    destruct (p =? 4)%Z, (p =? 8)%Z; intros H; inversion H; lia.
Qed.

Lemma type_key_injective_witness :
  map (flag_of sample_flags_registry) (firstn 2 (arguments f_int32))
  = map (flag_of sample_flags_registry) (firstn 2 (arguments f_int32_again)).
Proof.
  apply (@type_key_injective sample_flags_registry 2 f_int32 f_int32_again 85%Z
           sample_flags_in_range);
    reflexivity.
Defined.

Lemma check_key_is_type_key_witness :
  exists k,
    type_key sample_flags_registry (List.length sample_positions) f_real64 = Some k /\
    dispatch_key (sample_environment [("x"%string, NativeReal); ("y"%string, NativeReal)])
                 ((Z.of_nat (List.length sample_positions) - 1) * 4) sample_positions 0
    = inl k.
Proof.
  apply (@check_key_is_type_key sample_flags_registry
           (sample_environment [("x"%string, NativeReal); ("y"%string, NativeReal)])
           sample_positions f_real64).
  repeat constructor; eexists; split; reflexivity.
Defined.

Lemma print_FunctionDef_name_witness :
  let wrapper_name := generated_name (fst sample_wrapper) in
  ~ In wrapper_name (_global_names sample_printer) /\
  wrapper_name <> func_name f_int32 /\
  ~ In wrapper_name (map (fun a => argument_var_name (var a)) (arguments f_int32)) /\
  ~ In wrapper_name (map name (results f_int32)) /\
  _global_names (snd sample_wrapper) = wrapper_name :: _global_names sample_printer /\
  _function_wrapper_names (snd sample_wrapper)
  = (func_name f_int32, wrapper_name) :: _function_wrapper_names sample_printer.
Proof.
  apply (@print_FunctionDef_name sample_fresh_string sample_fresh_string_fresh
           sample_printer f_int32 (fst sample_wrapper) (snd sample_wrapper)).
  vm_compute. reflexivity.
Defined.

Lemma print_Interface_names_witness :
  let defs := fst sample_interface_functions in
  NoDup (map generated_name defs) /\
  (forall n, In n (map generated_name defs) -> ~ In n (_global_names sample_printer)) /\
  (forall n, In n (_global_names (snd sample_interface_functions)) <->
             In n (map generated_name defs) \/ In n (_global_names sample_printer)).
Proof.
  apply (@print_Interface_names sample_fresh_string sample_flags_registry sample_str_dtype
           (fun l => l) sample_fresh_string_fresh sample_printer sample_interface
           (fst sample_interface_functions) (snd sample_interface_functions)).
  vm_compute. reflexivity.
Defined.

Lemma function_wrapper_unparsed_witness :
  run unparsed_call (fst sample_wrapper) start = (Null, start).
Proof.
  apply (@function_wrapper_unparsed sample_fresh_string unparsed_call sample_printer
           f_int32 (fst sample_wrapper) (snd sample_wrapper) start);
    vm_compute; reflexivity.
Defined.

Lemma function_wrapper_run_witness :
  let both := sample_environment [("x"%string, NativeInteger); ("y"%string, NativeInteger)] in
  let first := sample_environment [("x"%string, NativeInteger)] in
  let x := scalar "x"%string NativeInteger 4 in
  let y := scalar "y"%string NativeInteger 4 in
  (exists res_args,
      run both (fst sample_wrapper) start
      = (Opaque (PyBuildValueNode res_args),
         mk_machine None
           ([Python_to_C x; Python_to_C y; static_callee sample_printer f_int32]
            ++ map C_to_Python (results f_int32) ++ [Py_DECREF]))) /\
  run first (fst sample_wrapper) start
  = (Null,
     mk_machine (Some ("PyExc_TypeError"%string, datatype_error_message first y))
                [Python_to_C x]).
Proof.
  split.
  - apply (proj1 (@function_wrapper_run sample_fresh_string
             (sample_environment [("x"%string, NativeInteger); ("y"%string, NativeInteger)])
             (fun v => holds (sample_environment [("x"%string, NativeInteger); ("y"%string, NativeInteger)])
                             (scalar_object_check Py_None v))
             (fun c v => eq_refl)
             sample_printer f_int32 (fst sample_wrapper) (snd sample_wrapper) start
             eq_refl eq_refl eq_refl eq_refl)).
    reflexivity.
  - apply (proj2 (@function_wrapper_run sample_fresh_string
             (sample_environment [("x"%string, NativeInteger)])
             (fun v => holds (sample_environment [("x"%string, NativeInteger)])
                             (scalar_object_check Py_None v))
             (fun c v => eq_refl)
             sample_printer f_int32 (fst sample_wrapper) (snd sample_wrapper) start
             eq_refl eq_refl eq_refl eq_refl)
           [scalar "x"%string NativeInteger 4] (scalar "y"%string NativeInteger 4) []);
      reflexivity.
Defined.

Lemma interface_helper_run_witness :
  exists res_args, forall m,
    run (sample_environment []) (nth 1 (fst sample_generated)
                                   (mk_GeneratedFunctionDef "" [] [] [])) m
    = (Opaque (PyBuildValueNode res_args),
       mk_machine (error m)
         (calls m ++ map Python_to_C (argument_variables (arguments f_real64))
          ++ [static_callee sample_printer f_real64]
          ++ map C_to_Python (results f_real64)
          ++ repeat Py_DECREF (List.length (results f_real64)))).
Proof.
  apply (@interface_helper_run sample_create_incremented_string sample_flags_registry
           sample_str_dtype (fun l => l) (sample_environment [])
           sample_printer sample_interface (fst sample_generated) (snd sample_generated)
           1 f_int32 f_real64);
    vm_compute; reflexivity.
Defined.

End WrapperInstances.
